(** * UniversalDownloader: a shallow embedding and its properties

    The development follows [UniversalDownloader.py].  Python code that
    raises, prints or touches the file system is written in a small state
    and exception monad; the libraries the script drives (mutagen, the
    encoder subprocess, yt-dlp, the thread pool) appear as explicit parts
    of the state or as outcome values supplied by the caller of a
    definition, so that every theorem quantifies over what they may do.

    Conventions.  A file system is a finite map from paths to regular
    files and directories; every regular file can be read, rewritten and
    removed, and the console takes every line (permissions and the
    encoding of the terminal are left out).  Python floats are IEEE 754
    binary64 numbers with the operations of [SpecFloat].  A string is a
    sequence of code points below 256.  Console lines are given without
    colour codes, glyphs and leading blank lines.  An error of the
    operating system or of a library has the class Python raises, with
    [OSError] standing for its subclasses, and a shortened message.  Only
    exceptions that derive from [Exception] are modelled, and a keyboard
    interrupt only where the prompt waits for a line. *)

From Stdlib Require Import ZArith String Ascii List Lia SpecFloat.
From stdpp Require Import base gmap strings list pretty.

Local Open Scope Z_scope.
Local Open Scope string_scope.

(** ** Python values, exceptions and the monad of effects *)

Module Py.

(** The values the verification method can hand back: [None] when control
    falls off the end of a function, or a boolean. *)
Inductive pyval : Type :=
| PyNone
| PyBool (b : bool).

(** Python truthiness, as used by [if x] and [not x]. *)
Definition truthy (v : pyval) : bool :=
  match v with
  | PyBool true => true
  | _ => false
  end.

(** The exception classes the script meets; all derive from [Exception]. *)
Inductive exn_class : Type :=
| ValueError | RuntimeError | AttributeError | ZeroDivisionError | OverflowError
| TypeError | KeyError | IndexError | FileNotFoundError | FileExistsError | OSError
| EOFError | MutagenError | JSONDecodeError | DownloadError | OtherException.

Record exn : Type := Exn { exn_kind : exn_class; exn_msg : string }.

(** [str(e)] *)
Definition str (e : exn) : string := exn_msg e.

Inductive result (A : Type) : Type :=
| Ret (a : A)
| Raise (e : exn).
Arguments Ret {A} a.
Arguments Raise {A} e.

(** The next step of a computation without state. *)
Definition and_then {A B} (r : result A) (k : A -> result B) : result B :=
  match r with
  | Ret a => k a
  | Raise e => Raise e
  end.

(** A computation over a state [S] that returns or raises. *)
Definition M (S A : Type) : Type := S -> S * result A.

Definition ret {S A} (a : A) : M S A := fun s => (s, Ret a).
Definition raise {S A} (k : exn_class) (msg : string) : M S A :=
  fun s => (s, Raise (Exn k msg)).
Definition reraise {S A} (e : exn) : M S A := fun s => (s, Raise e).

Definition bind {S A B} (c : M S A) (k : A -> M S B) : M S B :=
  fun s =>
    match c s with
    | (s', Ret a) => k a s'
    | (s', Raise e) => (s', Raise e)
    end.

(** [try: c except Exception as e: h e] *)
Definition try_except {S A} (c : M S A) (h : exn -> M S A) : M S A :=
  fun s =>
    match c s with
    | (s', Ret a) => (s', Ret a)
    | (s', Raise e) => h e s'
    end.

(** [try: c except K1, K2, ...: h], for the listed classes only. *)
Definition try_except_only {S A}
    (catches : exn_class -> bool) (c : M S A) (h : M S A) : M S A :=
  fun s =>
    match c s with
    | (s', Raise e) => if catches (exn_kind e) then h s' else (s', Raise e)
    | r => r
    end.

(** A step that does not touch the state. *)
Definition lift {S A} (r : result A) : M S A := fun s => (s, r).

Definition get {S} : M S S := fun s => (s, Ret s).
Definition modify {S} (f : S -> S) : M S unit := fun s => (f s, Ret tt).

End Py.
Export Py.

Notation "'let!' x ':=' c 'in' k" := (bind c (fun x => k))
  (at level 10, x name, c at level 100, k at level 200,
   format "'[v' 'let!'  x  ':='  c  'in' '/' k ']'").
Notation "c '>>>' k" := (bind c (fun _ => k))
  (at level 90, right associativity).

(** ** Strings as Python uses them here *)

Module Str.

(** The lower-case form of a code point below 256: the letters [A]-[Z]
    and the accented capitals 192-222 (the multiplication sign 215 is no
    letter). *)
Definition lower_char (c : ascii) : ascii :=
  let n := nat_of_ascii c in
  if ((Nat.leb 65 n && Nat.leb n 90)
      || (Nat.leb 192 n && Nat.leb n 222 && negb (Nat.eqb n 215)))%bool
  then ascii_of_nat (n + 32) else c.

(** [s.lower()] *)
Fixpoint lower (s : string) : string :=
  match s with
  | EmptyString => EmptyString
  | String c s' => String (lower_char c) (lower s')
  end.

(** [s.startswith(p)] *)
Fixpoint startswith (p s : string) : bool :=
  match p, s with
  | EmptyString, _ => true
  | String a p', String b s' => (Ascii.eqb a b && startswith p' s')%bool
  | String _ _, EmptyString => false
  end.

(** [sub in s] *)
Fixpoint contains (sub s : string) : bool :=
  (startswith sub s
   || match s with
      | EmptyString => false
      | String _ s' => contains sub s'
      end)%bool.

(** [s.endswith(suf)] *)
Definition endswith (suf s : string) : bool :=
  let n := String.length s in
  let k := String.length suf in
  (Nat.leb k n && String.eqb (String.substring (n - k) k s) suf)%bool.

(** [s.split(sep)] for a one-character separator: always at least one
    piece. *)
Fixpoint split (sep : ascii) (s : string) : list string :=
  match s with
  | EmptyString => [EmptyString]
  | String c s' =>
      if Ascii.eqb c sep then EmptyString :: split sep s'
      else match split sep s' with
           | [] => [String c EmptyString]
           | piece :: rest => String c piece :: rest
           end
  end.

(** [c.isspace()]: the control characters 9-13 and 28-31, the space, the
    next-line character 133 and the no-break space 160. *)
Definition is_space (c : ascii) : bool :=
  let n := nat_of_ascii c in
  ((Nat.leb 9 n && Nat.leb n 13) || (Nat.leb 28 n && Nat.leb n 32)
   || Nat.eqb n 133 || Nat.eqb n 160)%bool.

Fixpoint lstrip (s : string) : string :=
  match s with
  | String c s' => if is_space c then lstrip s' else s
  | EmptyString => EmptyString
  end.

Definition rev_string (s : string) : string :=
  string_of_list_ascii (rev (list_ascii_of_string s)).

(** [s.strip()] *)
Definition strip (s : string) : string :=
  rev_string (lstrip (rev_string (lstrip s))).

Definition digit_of (c : ascii) : option Z :=
  let n := nat_of_ascii c in
  if (Nat.leb 48 n && Nat.leb n 57)%bool then Some (Z.of_nat (n - 48)) else None.

(** The digits of a decimal literal, most significant first; single
    underscores may separate digits.  [prev] tells whether the previous
    character was a digit, [acc] is the value read so far and [count] the
    number of digits read. *)
Fixpoint digits (prev : bool) (acc : Z) (count : nat) (s : string)
    : option (Z * nat) :=
  match s with
  | EmptyString => if prev then Some (acc, count) else None
  | String c s' =>
      match digit_of c with
      | Some d => digits true (10 * acc + d) (S count) s'
      | None =>
          if (Ascii.eqb c "_" && prev)%bool then digits false acc count s'
          else None
      end
  end.

(** [sys.get_int_max_str_digits()] as Python sets it at start-up. *)
Definition max_str_digits : nat := 4300.

Definition literal (s : string) : option Z :=
  match digits false 0 0 s with
  | Some (value, count) =>
      if Nat.leb count max_str_digits then Some value else None
  | None => None
  end.

(** The white space [int] takes off: as [isspace] above without the four
    separators 28-31. *)
Definition is_int_space (c : ascii) : bool :=
  let n := nat_of_ascii c in
  ((Nat.leb 9 n && Nat.leb n 13) || Nat.eqb n 32
   || Nat.eqb n 133 || Nat.eqb n 160)%bool.

Fixpoint int_lstrip (s : string) : string :=
  match s with
  | String c s' => if is_int_space c then int_lstrip s' else s
  | EmptyString => EmptyString
  end.

Definition int_strip (s : string) : string :=
  rev_string (int_lstrip (rev_string (int_lstrip s))).

(** [int(s)] on a string in base ten: surrounding white space, an
    optional sign, then digits, no more of them than the interpreter
    converts.  [None] stands for [ValueError]. *)
Definition py_int (s : string) : option Z :=
  match int_strip s with
  | String "-" s' => Z.opp <$> literal s'
  | String "+" s' => literal s'
  | s' => literal s'
  end.

End Str.

(** ** Python floats and the arithmetic the script does with them *)

Module Double.

Definition float : Type := spec_float.

Definition prec : Z := 53.
Definition emax : Z := 1024.

(** An integer as the pair of a sign and a magnitude, before rounding. *)
Definition raw (z : Z) : float :=
  match z with
  | Z0 => S754_zero false
  | Zpos p => S754_finite false p 0
  | Zneg p => S754_finite true p 0
  end.

(** The float nearest to an integer (an infinity beyond the range). *)
Definition of_Z (z : Z) : float := binary_normalize prec emax z 0 false.

(** The float nearest to [a / b], for a float literal such as [0.1]. *)
Definition ratio (a b : Z) : float := SFdiv prec emax (raw a) (raw b).

Definition zero : float := S754_zero false.
Definition hundred : float := of_Z 100.
Definition tenth : float := ratio 1 10.

Definition is_zero (x : float) : bool :=
  match x with
  | S754_zero _ => true
  | _ => false
  end.

Definition is_infinite (x : float) : bool :=
  match x with
  | S754_infinity _ => true
  | _ => false
  end.

(** [a / b] for two integers: the quotient rounded once. *)
Definition int_true_div (a b : Z) : result float :=
  if (b =? 0)%Z then Raise (Exn ZeroDivisionError "division by zero")
  else if (a =? 0)%Z then Ret (S754_zero (b <? 0)%Z)
  else
    let q := SFdiv prec emax (raw a) (raw b) in
    if is_infinite q
    then Raise (Exn OverflowError "integer division result too large for a float")
    else Ret q.

(** An integer operand of a float operation. *)
Definition of_int (z : Z) : result float :=
  let x := of_Z z in
  if is_infinite x then Raise (Exn OverflowError "int too large to convert to float")
  else Ret x.

(** [x / y] for two floats. *)
Definition float_div (x y : float) : result float :=
  if is_zero y then Raise (Exn ZeroDivisionError "float division by zero")
  else Ret (SFdiv prec emax x y).

Definition mul (x y : float) : float := SFmul prec emax x y.
Definition sub (x y : float) : float := SFsub prec emax x y.
Definition abs (x : float) : float := SFabs x.

(** [x > y] *)
Definition gtb (x y : float) : bool := SFltb y x.

(** [int(x)]: truncation toward zero. *)
Definition to_int (x : float) : result Z :=
  match x with
  | S754_zero _ => Ret 0
  | S754_finite s m e =>
      let magnitude :=
        if (0 <=? e)%Z then Z.shiftl (Z.pos m) e else Z.shiftr (Z.pos m) (- e) in
      Ret (if s then - magnitude else magnitude)
  | S754_infinity _ => Raise (Exn OverflowError "cannot convert float infinity to integer")
  | S754_nan => Raise (Exn ValueError "cannot convert float NaN to integer")
  end.

End Double.

(** ** Paths: [os.path.join] and [os.path.basename] on the two platforms

    [sep] is [os.sep]: a backslash on Windows, where [os.path] is
    [ntpath], and a slash elsewhere, where it is [posixpath].  On Windows
    a drive is a character followed by a colon; paths that begin with two
    separators (UNC and device paths) are split differently by different
    versions of Python and are read here like any other path. *)

Module Path.

Definition windows (sep : string) : bool := String.eqb sep "\".

Definition is_sep (sep : string) (c : ascii) : bool :=
  if windows sep then (Ascii.eqb c "\" || Ascii.eqb c "/")%bool
  else Ascii.eqb c "/".

(** [ntpath.splitdrive] *)
Definition splitdrive (p : string) : string * string :=
  match p with
  | String c (String ":" rest) => (String c (String ":" EmptyString), rest)
  | _ => (EmptyString, p)
  end.

Definition starts_with_sep (sep p : string) : bool :=
  match p with
  | String c _ => is_sep sep c
  | EmptyString => false
  end.

Fixpoint ends_with_sep (sep p : string) : bool :=
  match p with
  | EmptyString => false
  | String c EmptyString => is_sep sep c
  | String _ p' => ends_with_sep sep p'
  end.

Definition is_empty (s : string) : bool := String.eqb s "".

(** [posixpath.join(a, b)] *)
Definition posix_join (a b : string) : string :=
  if starts_with_sep "/" b then b
  else if (is_empty a || ends_with_sep "/" a)%bool then a +:+ b
  else a +:+ "/" +:+ b.

(** [ntpath.join(a, b)] *)
Definition nt_join (a b : string) : string :=
  let '(a_drive, a_path) := splitdrive a in
  let '(b_drive, b_path) := splitdrive b in
  if starts_with_sep "\" b_path then
    (if (negb (is_empty b_drive) || is_empty a_drive)%bool then b_drive else a_drive)
    +:+ b_path
  else if (negb (is_empty b_drive) && negb (String.eqb b_drive a_drive)
           && negb (String.eqb (Str.lower b_drive) (Str.lower a_drive)))%bool then
    b_drive +:+ b_path
  else
    let drive :=
      if (negb (is_empty b_drive) && negb (String.eqb b_drive a_drive))%bool
      then b_drive else a_drive in
    let path :=
      if (negb (is_empty a_path) && negb (ends_with_sep "\" a_path))%bool
      then a_path +:+ "\" else a_path in
    drive +:+ path +:+ b_path.

(** [os.path.join(a, b)] *)
Definition join (sep a b : string) : string :=
  if windows sep then nt_join a b else posix_join a b.

(** The characters of [s] before its first separator. *)
Fixpoint until_sep (sep s : string) : string :=
  match s with
  | EmptyString => EmptyString
  | String c s' => if is_sep sep c then EmptyString else String c (until_sep sep s')
  end.

(** [os.path.basename(p)]: what follows the last separator, on Windows
    after the drive has been taken off. *)
Definition basename (sep p : string) : string :=
  let path := if windows sep then snd (splitdrive p) else p in
  Str.rev_string (until_sep sep (Str.rev_string path)).

End Path.

(** ** The FLAC pipeline: files, inspection and the encoder *)

Module Flac.

(** What mutagen reports as [audio.info]; [info_length] is [info.length],
    the duration in seconds. *)
Record StreamInfo : Type := {
  channels : Z;
  sample_rate : Z;
  info_length : Double.float
}.

(** The value of one tag as [tags.items()] yields it: text (a string or a
    list of strings, as Vorbis comments and the text atoms of MP4 hold
    them), or an object of the tag format (an ID3 frame, an APEv2 or ASF
    value, cover art, a number pair), which a Vorbis comment refuses when
    it is written; [refusal] is the message of that refusal. *)
Inductive tag_value : Type :=
| Texts (values : list string)
| Object (refusal : string).

(** The items of a tag block in the order [items()] yields them.  The
    keys of a Vorbis comment come in lower case, each once. *)
Definition tag_items : Type := list (string * tag_value).

(** An audio container mutagen can open.  [tags] is [None] when the file
    has no tag block. *)
Record audio : Type := {
  is_flac : bool;
  info : StreamInfo;
  tags : option tag_items
}.

Inductive content : Type :=
| Media (a : audio)
| Opaque.

Record file : Type := { size : Z; body : content }.

Inductive node : Type :=
| File (f : file)
| Dir.

Inductive bar_event : Type :=
| BarOpen (desc : string)
| BarUpdate (n : Z)
| BarClose.

(** What one run of the encoder subprocess does: either [Popen] raises, or
    the process prints [enc_lines] on its standard output (each element is
    one [readline] result obtained before the loop ends), ends with
    [enc_returncode], and leaves [enc_written] at the output path when it
    is [Some]. *)
Inductive encoder_outcome : Type :=
| LaunchFails (msg : string)
| Runs (enc_lines : list string) (enc_returncode : Z)
       (enc_stderr : string) (enc_written : option file).

(** The parts of the environment a run cannot choose. *)
Record env : Type := {
  sep : string;                 (* os.sep *)
  encoder : encoder_outcome;
  save_fails : bool;            (* mutagen cannot open the file for writing *)
  saved_size : Z -> Z           (* the size of a file after its tags were rewritten *)
}.

Record world : Type := {
  fs : gmap string node;
  stdout : list string;
  log : list string;
  bar : list bar_event;
  spawned : list (list string)
}.

Definition with_fs (f : gmap string node -> gmap string node) (w : world) : world :=
  {| fs := f (fs w); stdout := stdout w; log := log w; bar := bar w;
     spawned := spawned w |}.

Definition print (line : string) : M world unit :=
  modify (fun w => {| fs := fs w; stdout := stdout w ++ [line]; log := log w;
                      bar := bar w; spawned := spawned w |}).

Definition logging_error (line : string) : M world unit :=
  modify (fun w => {| fs := fs w; stdout := stdout w; log := log w ++ [line];
                      bar := bar w; spawned := spawned w |}).

Definition bar_emit (e : bar_event) : M world unit :=
  modify (fun w => {| fs := fs w; stdout := stdout w; log := log w;
                      bar := bar w ++ [e]; spawned := spawned w |}).

Definition record_spawn (cmd : list string) : M world unit :=
  modify (fun w => {| fs := fs w; stdout := stdout w; log := log w;
                      bar := bar w; spawned := spawned w ++ [cmd] |}).

(** [os.path.exists]: true for files and for directories. *)
Definition os_path_exists (p : string) : M world bool :=
  fun w => (w, Ret (bool_decide (is_Some (fs w !! p)))).

(** [os.remove]: unlinks a regular file; a directory or a missing path
    raises. *)
Definition os_remove (p : string) : M world unit :=
  fun w =>
    match fs w !! p with
    | Some (File _) => (with_fs (delete p) w, Ret tt)
    | Some Dir => (w, Raise (Exn OSError ("Is a directory: " +:+ p)))
    | None => (w, Raise (Exn FileNotFoundError ("No such file or directory: " +:+ p)))
    end.

(** [os.path.getsize]; the size reported for a directory depends on the
    platform and is not used by any caller below. *)
Definition os_path_getsize (p : string) : M world Z :=
  fun w =>
    match fs w !! p with
    | Some (File f) => (w, Ret (size f))
    | Some Dir => (w, Ret 0)
    | None => (w, Raise (Exn FileNotFoundError ("No such file or directory: " +:+ p)))
    end.

(** [mutagen.flac.FLAC(path)]: the in-memory view of a FLAC file. *)
Definition FLAC (p : string) : M world audio :=
  fun w =>
    match fs w !! p with
    | Some (File {| body := Media a |}) =>
        if is_flac a then (w, Ret a)
        else (w, Raise (Exn MutagenError (p +:+ " is not a valid FLAC file")))
    | Some (File {| body := Opaque |}) =>
        (w, Raise (Exn MutagenError (p +:+ " is not a valid FLAC file")))
    | Some Dir => (w, Raise (Exn MutagenError ("Is a directory: " +:+ p)))
    | None => (w, Raise (Exn MutagenError ("No such file or directory: " +:+ p)))
    end.

(** [mutagen.File(path)]: [None] when no known container matches. *)
Definition mutagen_File (p : string) : M world (option audio) :=
  fun w =>
    match fs w !! p with
    | Some (File {| body := Media a |}) => (w, Ret (Some a))
    | Some (File {| body := Opaque |}) => (w, Ret None)
    | Some Dir => (w, Raise (Exn MutagenError ("Is a directory: " +:+ p)))
    | None => (w, Raise (Exn MutagenError ("No such file or directory: " +:+ p)))
    end.

(** [not audio.tags]: no tag block, or an empty one. *)
Definition tags_falsy (t : option tag_items) : bool :=
  match t with
  | None | Some [] => true
  | Some (_ :: _) => false
  end.

Definition with_tags (a : audio) (t : tag_items) : audio :=
  {| is_flac := is_flac a; info := info a; tags := Some t |}.

(** *** Vorbis comments as mutagen keeps them *)

(** A key a Vorbis comment takes: not empty, every character between the
    space and the closing brace, none the equals sign. *)
Definition is_valid_key (key : string) : bool :=
  (negb (String.eqb key "")
   && forallb (fun c => let n := nat_of_ascii c in
                        Nat.leb 32 n && Nat.leb n 125 && negb (Nat.eqb n 61))
        (list_ascii_of_string key))%bool.

(** Keys are compared without regard to case. *)
Definition same_key (a b : string) : bool :=
  String.eqb (Str.lower a) (Str.lower b).

(** [comment[key] = value]: an invalid key is refused at once; the old
    values of the key are dropped and the new ones are put at the end (an
    empty list puts nothing).  What the values are is only looked at when
    the comment is written. *)
Definition vorbis_set (key : string) (value : tag_value) (comment : tag_items)
    : result tag_items :=
  if is_valid_key key then
    Ret (List.filter (fun item => negb (same_key (fst item) key)) comment
         ++ match value with
            | Texts [] => []
            | _ => [(Str.lower key, value)]
            end)%list
  else Raise (Exn ValueError "").

(** Lines 296-297: the loop over the items of the original tags. *)
Fixpoint copy_items (items : tag_items) (comment : tag_items) : result tag_items :=
  match items with
  | [] => Ret comment
  | (key, value) :: rest =>
      and_then (vorbis_set key value comment) (copy_items rest)
  end.

(** The first value of a comment that is no text, if there is one:
    writing the comment stops there with a [ValueError]. *)
Fixpoint refused (comment : tag_items) : option string :=
  match comment with
  | [] => None
  | (_, Object refusal) :: _ => Some refusal
  | (_, Texts _) :: rest => refused rest
  end.

(** [audio.save()]: the file is opened for writing, the comment is
    checked, and the metadata blocks are written back. *)
Definition save (e : env) (p : string) (a : audio) : M world unit :=
  fun w =>
    if save_fails e then (w, Raise (Exn MutagenError ("cannot save " +:+ p)))
    else
      match fs w !! p with
      | Some (File f) =>
          match refused (default [] (tags a)) with
          | Some refusal => (w, Raise (Exn ValueError refusal))
          | None =>
              (with_fs (insert p (File {| size := saved_size e (size f);
                                          body := Media a |})) w, Ret tt)
          end
      | _ => (w, Raise (Exn MutagenError ("No such file or directory: " +:+ p)))
      end.

(** [x in (a, b, ...)] *)
Definition in_tuple (x : Z) (t : list Z) : bool := existsb (Z.eqb x) t.

(** [DownloadManager.verify_audio_file], lines 200-230.  The module
    [mutagen.flac] has no attribute [VorbisComment]: line 208, reached for
    a FLAC file without tags, raises [AttributeError], which the handler
    turns into [False].  The function ends after the size check: where
    every check passes, and for any path that does not end in [.flac],
    control falls off the end and the call evaluates to [None]. *)
Definition verify_audio_file (filepath : string) : M world pyval :=
  try_except
    (if Str.endswith ".flac" (Str.lower filepath) then
       let! audio := FLAC filepath in
       (if tags_falsy (tags audio) then
          raise AttributeError "module 'mutagen.flac' has no attribute 'VorbisComment'"
        else ret tt) >>>
       if negb (in_tuple (channels (info audio)) [1; 2]) then
         logging_error ("Unexpected channel count: "
                        +:+ pretty (channels (info audio))) >>>
         ret (PyBool false)
       else if negb (in_tuple (sample_rate (info audio)) [44100; 48000; 96000]) then
         logging_error ("Unexpected sample rate: "
                        +:+ pretty (sample_rate (info audio))) >>>
         ret (PyBool false)
       else
         let! file_size := os_path_getsize filepath in
         if (file_size <? 1024 * 100)%Z then
           logging_error ("FLAC file too small: " +:+ pretty file_size
                          +:+ " bytes") >>>
           ret (PyBool false)
         else ret PyNone
     else ret PyNone)
    (fun ex =>
       logging_error ("Error verifying audio file " +:+ filepath +:+ ": "
                      +:+ str ex) >>>
       ret (PyBool false)).

(** The verification predicate in the words of the specification: the
    file is accepted exactly when its channel count is 1 or 2, its sample
    rate is 44100, 48000 or 96000, and its size is at least 100 KiB. *)
Definition accepted_by_spec (w : world) (filepath : string) : bool :=
  match fs w !! filepath with
  | Some (File {| size := n; body := Media a |}) =>
      in_tuple (channels (info a)) [1; 2]
      && in_tuple (sample_rate (info a)) [44100; 48000; 96000]
      && (100 * 1024 <=? n)%Z
  | _ => false
  end.

(** *** The progress monitor (lines 266-281) *)

(** [except (ValueError, AttributeError)] *)
Definition value_or_attribute_error (k : exn_class) : bool :=
  match k with
  | ValueError | AttributeError => true
  | _ => false
  end.

(** [original_audio.info.length] *)
Definition length_of (original_audio : option audio) : result Double.float :=
  match original_audio with
  | Some a => Ret (info_length (info a))
  | None => Raise (Exn AttributeError "'NoneType' object has no attribute 'info'")
  end.

(** Lines 275-276: the percentage a marker line stands for, or the error
    raised while computing it, in the order Python evaluates
    [int((time_ms / 1000) / original_audio.info.length * 100)]. *)
Definition computed_progress (original_audio : option audio) (line : string)
    : result Z :=
  match Str.split "=" line !! 1%nat with
  | None => Raise (Exn IndexError "list index out of range")
  | Some piece =>
      match Str.py_int piece with
      | None =>
          Raise (Exn ValueError ("invalid literal for int() with base 10: " +:+ piece))
      | Some time_ms =>
          and_then (Double.int_true_div time_ms 1000) (fun seconds =>
          and_then (length_of original_audio) (fun length =>
          and_then (Double.float_div seconds length) (fun share =>
          and_then (Double.to_int (Double.mul share Double.hundred)) (fun percent =>
          Ret (Z.min percent 100)))))
      end
  end.

(** The body of the inner [try], lines 275-279, for a line that contains
    the marker; it yields the new value of [last_progress]. *)
Definition progress_step (original_audio : option audio) (line : string)
    (last_progress : Z) : M world Z :=
  let! progress := lift (computed_progress original_audio line) in
  if (progress >? last_progress)%Z then
    bar_emit (BarUpdate (progress - last_progress)) >>> ret progress
  else ret last_progress.

(** The [while True] loop over the lines read from the subprocess: the
    list holds every [readline] result before the one that breaks the
    loop.  A caught error is [continue]: the line changes nothing. *)
Fixpoint monitor (original_audio : option audio) (lines : list string)
    (last_progress : Z) : M world Z :=
  match lines with
  | [] => ret last_progress
  | line :: rest =>
      if Str.contains "out_time_ms=" line then
        let! last_progress :=
          try_except_only value_or_attribute_error
            (progress_step original_audio line last_progress)
            (ret last_progress) in
        monitor original_audio rest last_progress
      else monitor original_audio rest last_progress
  end.

(** A line the monitor passes over: it has no marker, or computing its
    percentage raises one of the two errors the inner handler catches, or
    its percentage does not exceed the one displayed. *)
Definition passed_over (original_audio : option audio) (line : string)
    (displayed : Z) : Prop :=
  Str.contains "out_time_ms=" line = false
  \/ (exists ex, computed_progress original_audio line = Raise ex
                 /\ value_or_attribute_error (exn_kind ex) = true)
  \/ (exists p, computed_progress original_audio line = Ret p
                /\ (p <= displayed)%Z).

(** The number a line carries after the marker, where [int] reads one. *)
Definition time_ms_of (line : string) : option Z :=
  if Str.contains "out_time_ms=" line
  then Str.split "=" line !! 1%nat ≫= Str.py_int
  else None.

(** [time_ms / 1000] is beyond the range of a float. *)
Definition beyond_float_range (time_ms : Z) : bool :=
  match Double.int_true_div time_ms 1000 with
  | Raise _ => true
  | Ret _ => false
  end.

(** The world after [pbar.update(n)]. *)
Definition updated (n : Z) (w : world) : world :=
  fst (bar_emit (BarUpdate n) w).

(** Two file systems agree on which paths are free and which are
    directories. *)
Definition same_kinds (m m' : gmap string node) : Prop :=
  forall q, (m' !! q = None <-> m !! q = None)
            /\ (m' !! q = Some Dir <-> m !! q = Some Dir).

(** *** The conversion (lines 232-313) *)

(** [os.path.join(a, b)] *)
Definition path_join (sep a b : string) : string := Path.join sep a b.

(** What the encoder leaves at the output path; it cannot replace a
    directory. *)
Definition encoder_writes (output_file : string) (written : option file)
    (m : gmap string node) : gmap string node :=
  match written, m !! output_file with
  | Some f, Some Dir => m
  | Some f, _ => <[output_file := File f]> m
  | None, _ => m
  end.

(** [subprocess.Popen(cmd, ...)]: the handle gives the lines of standard
    output, the return code and the text of standard error. *)
Definition Popen (e : env) (cmd : list string) (output_file : string)
    : M world (list string * Z * string) :=
  match encoder e with
  | LaunchFails msg => raise FileNotFoundError msg
  | Runs lines rc err written =>
      record_spawn cmd >>>
      modify (with_fs (encoder_writes output_file written)) >>>
      ret (lines, rc, err)
  end.

(** [x.info] on the result of [mutagen.File]. *)
Definition attr_info (a : option audio) : M world StreamInfo :=
  match a with
  | Some a => ret (info a)
  | None => raise AttributeError "'NoneType' object has no attribute 'info'"
  end.

(** [original_audio and original_audio.tags]: a mutagen file object is
    truthy when it has at least one tag. *)
Definition has_tags (a : option audio) : option tag_items :=
  match a with
  | Some a => if tags_falsy (tags a) then None else tags a
  | None => None
  end.

(** [abs(x - y) > 0.1] *)
Definition differ (x y : Double.float) : bool :=
  Double.gtb (Double.abs (Double.sub x y)) Double.tenth.

Section Pipeline.
Variable e : env.
(** [self.config['ffmpeg_location']] *)
Variable ffmpeg_location : string.
(** [self.verify_audio_file]: the attribute is looked up on [self] at each
    call, so the body below is the same whatever method a subclass or an
    instance binds to that name. *)
Variable verify : string -> M world pyval.

(** Lines 235-241. *)
Definition convert_prepare (input_file : string) : M world (option audio) :=
  let! ok := verify input_file in
  if negb (truthy ok) then raise ValueError "Input file verification failed"
  else
    let! original_audio := mutagen_File input_file in
    let! input_size := os_path_getsize input_file in
    ret original_audio.

Definition ffmpeg_cmd (input_file output_file : string) : list string :=
  [ path_join (sep e) ffmpeg_location "ffmpeg";
    "-i"; input_file;
    "-c:a"; "flac";
    "-compression_level"; "12";
    "-sample_fmt"; "s32";
    "-ar"; "48000";
    "-progress"; "pipe:1";
    output_file ].

(** Lines 243-288. *)
Definition convert_encode (original_audio : option audio)
    (input_file output_file : string) : M world unit :=
  bar_emit (BarOpen "Converting to FLAC") >>>
  let! process := Popen e (ffmpeg_cmd input_file output_file) output_file in
  let '(lines, returncode, stderr) := process in
  let! last_progress := monitor original_audio lines 0 in
  bar_emit BarClose >>>
  print "Complete!" >>>
  if negb (returncode =? 0)%Z then
    raise RuntimeError ("FFmpeg conversion failed: " +:+ stderr)
  else ret tt.

(** Lines 290-298: the tags of the input are put into the comment of the
    output, which is then written. *)
Definition convert_check_output (original_audio : option audio)
    (output_file : string) : M world unit :=
  let! ok := verify output_file in
  if negb (truthy ok) then raise ValueError "Output file verification failed"
  else
    match has_tags original_audio with
    | Some original_tags =>
        let! flac_audio := FLAC output_file in
        let! comment :=
          lift (copy_items original_tags (default [] (tags flac_audio))) in
        save e output_file (with_tags flac_audio comment)
    | None => ret tt
    end.

(** Lines 300-307. *)
Definition convert_compare (input_file output_file : string) : M world pyval :=
  let! original := mutagen_File input_file in
  let! orig_info := attr_info original in
  let! converted := mutagen_File output_file in
  let! conv_info := attr_info converted in
  if differ (info_length orig_info) (info_length conv_info) then
    raise ValueError "Duration mismatch between input and output files"
  else ret (PyBool true).

(** Lines 235-298: everything before the comparison of durations. *)
Definition convert_until_compare (input_file output_file : string) : M world unit :=
  let! original_audio := convert_prepare input_file in
  convert_encode original_audio input_file output_file >>>
  convert_check_output original_audio output_file.

(** The body of the [try]. *)
Definition convert_body (input_file output_file : string) : M world pyval :=
  convert_until_compare input_file output_file >>>
  convert_compare input_file output_file.

(** The [except Exception as e] clause, lines 309-313. *)
Definition convert_failed (output_file : string) (ex : exn) : M world pyval :=
  print ("Conversion Failed: " +:+ str ex) >>>
  let! there := os_path_exists output_file in
  (if there then os_remove output_file else ret tt) >>>
  ret (PyBool false).

Definition convert_to_flac_with (input_file output_file : string) : M world pyval :=
  try_except (convert_body input_file output_file) (convert_failed output_file).
End Pipeline.

(** [DownloadManager.convert_to_flac] as shipped: the verification method
    is the class's own [verify_audio_file]. *)
Definition convert_to_flac (e : env) (ffmpeg_location : string)
    (input_file output_file : string) : M world pyval :=
  convert_to_flac_with e ffmpeg_location verify_audio_file input_file output_file.


(** A verification method that answers as the specification words it;
    used to exercise the stages that follow verification. *)
Definition verify_as_specified (filepath : string) : M world pyval :=
  fun w => (w, Ret (PyBool (accepted_by_spec w filepath))).

End Flac.

(** ** Start-up: the configuration file and the encoder locator *)

Module Setup.

(** JSON values as [json.load] gives them (numbers are integers here). *)
#[warnings="-register-all"]
Inductive json : Type :=
| JNull
| JBool (b : bool)
| JNum (n : Z)
| JStr (s : string)
| JArr (l : list json)
| JObj (o : gmap string json).

(** The text of a file: the rendering of a JSON value, or text that is
    not valid JSON. *)
Inductive text : Type :=
| Json (j : json)
| Unparsable.

Inductive node : Type :=
| File (t : text)
| Dir.

(** [DEFAULT_CONFIG] is one dictionary object, shared by everything that
    holds a reference to it; [defaults] is its current content.
    [ffmpeg_on_path] tells whether [os.system('ffmpeg -version > nul 2>&1')]
    returns 0, [open_fds] holds the file descriptors of the process that
    are open. *)
Record world : Type := {
  defaults : gmap string json;
  fs : gmap string node;
  ffmpeg_on_path : bool;
  open_fds : gset Z;
  sep : string;              (* os.sep *)
  stdout : list string
}.

(** A reference to a dictionary: the shared [DEFAULT_CONFIG] object, or a
    dictionary of its own. *)
Inductive dict_ref : Type :=
| DefaultsObject
| Fresh (d : gmap string json).

Definition deref (w : world) (r : dict_ref) : gmap string json :=
  match r with
  | DefaultsObject => defaults w
  | Fresh d => d
  end.

Definition CONFIG_FILE : string := "config.json".

(** The content of [DEFAULT_CONFIG] when the module is loaded, lines
    70-75, for a home directory [home]. *)
Definition DEFAULT_CONFIG (sep home : string) : gmap string json :=
  {[ "ffmpeg_location" := JStr "";
     "video_output" := JStr (Flac.path_join sep home "Videos");
     "audio_output" := JStr (Flac.path_join sep home "Music");
     "max_concurrent" := JNum 3 ]}.

Definition with_fs (f : gmap string node -> gmap string node) (w : world) : world :=
  {| defaults := defaults w; fs := f (fs w); ffmpeg_on_path := ffmpeg_on_path w;
     open_fds := open_fds w; sep := sep w; stdout := stdout w |}.

Definition with_defaults (f : gmap string json -> gmap string json) (w : world)
    : world :=
  {| defaults := f (defaults w); fs := fs w; ffmpeg_on_path := ffmpeg_on_path w;
     open_fds := open_fds w; sep := sep w; stdout := stdout w |}.

Definition print (line : string) : M world unit :=
  modify (fun w => {| defaults := defaults w; fs := fs w;
                      ffmpeg_on_path := ffmpeg_on_path w; open_fds := open_fds w;
                      sep := sep w; stdout := stdout w ++ [line] |}).

Definition os_path_exists (p : string) : M world bool :=
  fun w => (w, Ret (bool_decide (is_Some (fs w !! p)))).

(** [open(p, 'r')] followed by reading the whole file. *)
Definition open_read (p : string) : M world text :=
  fun w =>
    match fs w !! p with
    | Some (File t) => (w, Ret t)
    | Some Dir => (w, Raise (Exn OSError ("Is a directory: " +:+ p)))
    | None => (w, Raise (Exn FileNotFoundError ("No such file or directory: " +:+ p)))
    end.

(** [json.load] *)
Definition json_load (t : text) : M world json :=
  match t with
  | Json j => ret j
  | Unparsable => raise JSONDecodeError "Expecting value"
  end.

(** [{**base, **j}]: the keys of [j] win; anything but an object cannot
    be unpacked. *)
Definition merged_over (base : gmap string json) (j : json)
    : M world (gmap string json) :=
  match j with
  | JObj o => ret (o ∪ base)
  | _ => raise TypeError "object is not a mapping"
  end.

(** [open(p, 'w')] followed by [json.dump(d, f, indent=4)]. *)
Definition write_json (p : string) (d : gmap string json) : M world unit :=
  fun w =>
    match fs w !! p with
    | Some Dir => (w, Raise (Exn OSError ("Is a directory: " +:+ p)))
    | _ => (with_fs (insert p (File (Json (JObj d)))) w, Ret tt)
    end.

Definition is_FileNotFoundError (k : exn_class) : bool :=
  match k with
  | FileNotFoundError => true
  | _ => false
  end.

(** [load_config], lines 549-556.  The second branch returns the
    [DEFAULT_CONFIG] object itself. *)
Definition load_config : M world dict_ref :=
  try_except_only is_FileNotFoundError
    (let! t := open_read CONFIG_FILE in
     let! loaded := json_load t in
     let! w := get in
     let! merged := merged_over (defaults w) loaded in
     ret (Fresh merged))
    (let! w := get in
     write_json CONFIG_FILE (defaults w) >>>
     ret DefaultsObject).

(** *** The encoder locator, lines 77-96 *)

Definition common_locations : list string :=
  [ "C:\ffmpeg\bin";
    "C:\Program Files\ffmpeg\bin";
    "C:\ffmpeg\ffmpeg-master-latest-win64-gpl\bin";
    ".\ffmpeg\bin" ].

(** What the shell does with the redirection [> nul] of line 87.  On
    Windows [nul] is the null device.  Elsewhere it is a path in the
    working directory, which the shell opens for writing before it looks
    for the command: unless a directory stands there, a file of that name
    is created or emptied. *)
Definition redirected (w : world) : world :=
  if Path.windows (sep w) then w
  else
    match fs w !! "nul" with
    | Some Dir => w
    | _ => with_fs (insert "nul" (File Unparsable)) w
    end.

(** [os.system('ffmpeg -version > nul 2>&1') == 0] *)
Definition probe_path : M world bool :=
  fun w => (redirected w, Ret (ffmpeg_on_path w)).

(** The [for] loop over the locations. *)
Fixpoint first_location (locations : list string) : M world (option string) :=
  match locations with
  | [] => ret None
  | location :: rest =>
      let! w := get in
      let ffmpeg_path := Flac.path_join (sep w) location "ffmpeg.exe" in
      let! there := os_path_exists ffmpeg_path in
      if there then ret (Some location) else first_location rest
  end.

Definition find_ffmpeg : M world (option string) :=
  let! on_path := probe_path in
  if on_path then ret (Some "ffmpeg")
  else first_location common_locations.

(** [print_ffmpeg_instructions], lines 98-114 (colour codes and leading
    blank lines left out). *)
Definition ffmpeg_instructions : list string :=
  [ "FFmpeg not found! Please follow these steps to install FFmpeg:";
    "1. Download FFmpeg:";
    "   - Visit: https://github.com/BtbN/FFmpeg-Builds/releases";
    "   - Download: ffmpeg-master-latest-win64-gpl.zip";
    "2. Install FFmpeg:";
    "   - Extract the downloaded zip file";
    "   - Copy the extracted folder to C:\ffmpeg";
    "   - Ensure ffmpeg.exe is in C:\ffmpeg\bin";
    "Alternatively:";
    "- Use chocolatey: choco install ffmpeg";
    "- Use winget: winget install ffmpeg";
    "After installation, either:";
    "1. Add FFmpeg to your system PATH, or";
    "2. Update config.json with the correct ffmpeg_location";
    "For detailed instructions, visit: https://www.wikihow.com/Install-FFmpeg-on-Windows" ].

Fixpoint print_all (lines : list string) : M world unit :=
  match lines with
  | [] => ret tt
  | l :: rest => print l >>> print_all rest
  end.

Definition print_ffmpeg_instructions : M world unit :=
  print_all ffmpeg_instructions.

(** *** [DownloadManager.__init__], lines 148-176 *)

Record manager : Type := { config : dict_ref; last_percentage : Z }.

(** Python truthiness of a JSON value. *)
Definition truthy_json (j : json) : bool :=
  match j with
  | JNull => false
  | JBool b => b
  | JNum n => negb (n =? 0)%Z
  | JStr s => negb (String.eqb s "")
  | JArr l => negb (Nat.eqb (List.length l) 0)
  | JObj o => negb (Nat.eqb (size o) 0)
  end.

(** [config[key]] *)
Definition config_get (c : dict_ref) (key : string) : M world json :=
  fun w =>
    match deref w c !! key with
    | Some v => (w, Ret v)
    | None => (w, Raise (Exn KeyError key))
    end.

(** [config[key] = v]: a store into the object the reference names. *)
Definition config_set (c : dict_ref) (key : string) (v : json) : M world dict_ref :=
  match c with
  | DefaultsObject => modify (with_defaults (insert key v)) >>> ret DefaultsObject
  | Fresh d => ret (Fresh (<[key := v]> d))
  end.

(** [os.stat(n)] for an integer, which names a file descriptor: it has to
    fit a C [int]. *)
Definition fd_exists (n : Z) : M world bool :=
  fun w =>
    if (n <? - 2 ^ 31)%Z then (w, Raise (Exn OverflowError "fd is less than minimum"))
    else if (2 ^ 31 <=? n)%Z then (w, Raise (Exn OverflowError "fd is greater than maximum"))
    else (w, Ret (bool_decide (n ∈ open_fds w))).

(** [os.path.exists(v)] for a value of the configuration: a string is a
    path, an integer (and a boolean, which is one) a file descriptor. *)
Definition exists_value (v : json) : M world bool :=
  match v with
  | JStr s => os_path_exists s
  | JNum n => fd_exists n
  | JBool b => fd_exists (if b then 1 else 0)
  | JNull | JArr _ | JObj _ =>
      raise TypeError "stat: path should be string, bytes, os.PathLike or integer"
  end.

(** [str(v)] as the f-string of line 174 renders a value for which
    [os.path.exists] has answered. *)
Definition rendered (v : json) : string :=
  match v with
  | JStr s => s
  | JNum n => pretty n
  | JBool true => "True"
  | JBool false => "False"
  | _ => "None"
  end.

(** A configuration value used as the path of a directory. *)
Definition as_path (j : json) : M world string :=
  match j with
  | JStr s => ret s
  | _ => raise TypeError "expected str, bytes or os.PathLike object"
  end.

(** [os.makedirs(p, exist_ok=True)]; only the leaf is recorded. *)
Definition os_makedirs (p : string) : M world unit :=
  fun w =>
    if String.eqb p "" then
      (w, Raise (Exn FileNotFoundError "No such file or directory: ''"))
    else
      match fs w !! p with
      | Some Dir => (w, Ret tt)
      | Some (File _) => (w, Raise (Exn FileExistsError ("File exists: " +:+ p)))
      | None => (with_fs (insert p Dir) w, Ret tt)
      end.

(** The descriptor [open] hands out: the lowest one that is free. *)
Definition lowest_free (fds : gset Z) : Z :=
  default 0 (head (filter (fun n => n ∉ fds)
                     (seqZ 0 (Z.of_nat (size fds) + 1)))).

Definition with_open_fd (n : Z) (w : world) : world :=
  {| defaults := defaults w; fs := fs w; ffmpeg_on_path := ffmpeg_on_path w;
     open_fds := {[ n ]} ∪ open_fds w; sep := sep w; stdout := stdout w |}.

(** [setup_logging]: the file handler opens [download_log.txt] for
    appending and keeps it open. *)
Definition setup_logging : M world unit :=
  fun w =>
    match fs w !! "download_log.txt" with
    | Some Dir => (w, Raise (Exn OSError "Is a directory: download_log.txt"))
    | Some (File _) => (with_open_fd (lowest_free (open_fds w)) w, Ret tt)
    | None =>
        (with_open_fd (lowest_free (open_fds w))
           (with_fs (insert "download_log.txt" (File Unparsable)) w), Ret tt)
    end.

Definition verify_paths (c : dict_ref) : M world unit :=
  let! location := config_get c "ffmpeg_location" in
  let! there := exists_value location in
  if negb there then
    raise FileNotFoundError ("FFMPEG not found at " +:+ rendered location)
  else
    let! video := config_get c "video_output" in
    let! video := as_path video in
    os_makedirs video >>>
    let! audio := config_get c "audio_output" in
    let! audio := as_path audio in
    os_makedirs audio.

Definition not_found_message : string :=
  "FFmpeg is required but not found. Please install FFmpeg and try again.".

Definition init (c : dict_ref) : M world manager :=
  let! location := config_get c "ffmpeg_location" in
  let! c :=
    (if negb (truthy_json location) then
       let! ffmpeg_path := find_ffmpeg in
       match ffmpeg_path with
       | Some p =>
           if negb (String.eqb p "") then config_set c "ffmpeg_location" (JStr p)
           else print_ffmpeg_instructions >>> raise FileNotFoundError not_found_message
       | None =>
           print_ffmpeg_instructions >>> raise FileNotFoundError not_found_message
       end
     else ret c) in
  setup_logging >>>
  verify_paths c >>>
  ret {| config := c; last_percentage := 0 |}.

(** The directory [d] contains the encoder executable. *)
Definition has_encoder (w : world) (d : string) : Prop :=
  is_Some (fs w !! Flac.path_join (sep w) d "ffmpeg.exe").

(** The locator's contract as the specification words it: whatever the
    locator returns is a directory that contains the encoder
    executable. *)
Definition locator_returns_directory (w : world) : Prop :=
  forall w' d, find_ffmpeg w = (w', Ret (Some d)) -> has_encoder w' d.

End Setup.

(** ** Downloads: one URL, and a batch on the thread pool *)

Module Batch.

(** The upper-case form of a character: the letters [a]-[z] and the
    accented small letters 224-254 (the division sign 247 is no letter);
    the sharp s becomes two letters.  The capitals of the micro sign and
    of the y with diaeresis lie above 255; these two are left as they
    are. *)
Definition upper_char (c : ascii) : string :=
  let n := nat_of_ascii c in
  if ((Nat.leb 97 n && Nat.leb n 122)
      || (Nat.leb 224 n && Nat.leb n 254 && negb (Nat.eqb n 247)))%bool
  then String (ascii_of_nat (n - 32)) EmptyString
  else if Nat.eqb n 223 then "SS"
  else String c EmptyString.

(** [s.upper()] *)
Fixpoint upper (s : string) : string :=
  match s with
  | EmptyString => EmptyString
  | String c s' => upper_char c +:+ upper s'
  end.

(** The keyword arguments of [download]. *)
Record kwargs : Type := {
  audio_only : bool;
  resolution : option string;
  format_id : option string;
  filename : option string;
  audio_format : string
}.

(** The entries of [self.config] the downloads read. *)
Record settings : Type := {
  ffmpeg_location : string;
  video_output : string;
  audio_output : string;
  max_concurrent : Z;
  sep : string
}.

Record postprocessor : Type := {
  key : string;
  preferredcodec : option string;
  preferredquality : option string
}.

(** The options handed to yt-dlp; the entries that are the same for every
    request (hooks, [ignoreerrors], [continue], fragment count) are left
    out. *)
Record ydl_options : Type := {
  format : string;
  outtmpl : string;
  options_ffmpeg_location : string;
  cookiefile : option string;
  postprocessors : list postprocessor
}.

(** [x or d] for an optional string. *)
Definition or_else (x : option string) (d : string) : string :=
  match x with
  | Some s => if String.eqb s "" then d else s
  | None => d
  end.

(** [if x:] for an optional string. *)
Definition given (x : option string) : bool :=
  match x with
  | Some s => negb (String.eqb s "")
  | None => false
  end.

(** [get_download_options], lines 315-388. *)
Definition get_download_options (cfg : settings) (url : string) (k : kwargs)
    : ydl_options :=
  let output_path := if audio_only k then audio_output cfg else video_output cfg in
  let template :=
    Flac.path_join (sep cfg) output_path (or_else (filename k) "%(title)s" +:+ ".%(ext)s") in
  if Str.contains "tiktok.com" url then
    {| format := "best"; outtmpl := template;
       options_ffmpeg_location := ffmpeg_location cfg;
       cookiefile := Some "cookies.txt"; postprocessors := [] |}
  else
    let format_option :=
      if audio_only k then "bestaudio[ext=webm]/bestaudio[ext=m4a]/bestaudio"
      else if given (resolution k) then
        "bestvideo[height<=" +:+ or_else (resolution k) "" +:+ "]+bestaudio/best[height<="
        +:+ or_else (resolution k) "" +:+ "]/best"
      else "bestvideo+bestaudio/best" in
    let post :=
      if audio_only k then
        if String.eqb (audio_format k) "flac" then
          [ {| key := "FFmpegExtractAudio"; preferredcodec := Some "flac";
               preferredquality := Some "0" |};
            {| key := "FFmpegMetadata"; preferredcodec := None;
               preferredquality := None |} ]
        else
          [ {| key := "FFmpegExtractAudio"; preferredcodec := Some (audio_format k);
               preferredquality :=
                 Some (if String.eqb (audio_format k) "mp3" then "320" else "0") |} ]
      else [] in
    {| format := if given (format_id k) then or_else (format_id k) "" else format_option;
       outtmpl := template;
       options_ffmpeg_location := ffmpeg_location cfg;
       cookiefile := None; postprocessors := post |}.

(** What yt-dlp does with one request. *)
Inductive extract_outcome : Type :=
| Info (title format_name : string)
| NoInfo
| ExtractRaises (ex : exn).

Inductive fetch_outcome : Type :=
| Fetched
| FetchRaises (ex : exn).

(** [before] is an error raised before the extraction starts (while the
    [YoutubeDL] object is built, or while the shared progress bar is reset
    at the same time as by another worker).  [close] is an error raised
    when the [with] block of line 429 is left: [YoutubeDL.__exit__] closes
    the object and writes the cookie file. *)
Record ydl_behaviour : Type := {
  before : option exn;
  extract : extract_outcome;
  fetch : fetch_outcome;
  close : option exn
}.

Record world : Type := {
  stdout : list string;
  log : list string;
  pbar : bool;               (* hasattr(self, 'pbar') *)
  last_percentage : Z
}.

Definition print (line : string) : M world unit :=
  modify (fun w => {| stdout := stdout w ++ [line]; log := log w; pbar := pbar w;
                      last_percentage := last_percentage w |}).

Definition logging_error (line : string) : M world unit :=
  modify (fun w => {| stdout := stdout w; log := log w ++ [line]; pbar := pbar w;
                      last_percentage := last_percentage w |}).

(** Lines 425-427. *)
Definition reset_progress : M world unit :=
  modify (fun w => {| stdout := stdout w; log := log w; pbar := false;
                      last_percentage := 0 |}).

Definition is_DownloadError (k : exn_class) : bool :=
  match k with
  | DownloadError => true
  | _ => false
  end.

(** The inner [try], lines 431-450: its value is [Some false] when one of
    the two handlers returns [False], and [None] when control leaves the
    block at its end. *)
Definition download_inner (b : ydl_behaviour) (k : kwargs) : M world (option bool) :=
  try_except
    (let! info :=
       match extract b with
       | Info title format_name => ret (title, format_name)
       | NoInfo => raise ValueError "Could not fetch video information"
       | ExtractRaises ex => reraise ex
       end in
     (if audio_only k then
        print ("Found audio: " +:+ fst info) >>> print ("Format: " +:+ snd info)
      else ret tt) >>>
     match fetch b with
     | Fetched => ret None
     | FetchRaises ex => reraise ex
     end)
    (fun ex =>
       if is_DownloadError (exn_kind ex) then
         print ("Download Error: " +:+ str ex) >>>
         print "Try updating yt-dlp: pip install -U yt-dlp" >>>
         ret (Some false)
       else
         print ("Error: " +:+ str ex) >>> ret (Some false)).

(** [DownloadManager.download], lines 403-456.  [library] stands for
    yt-dlp: what it does with the options and the URL.  The [with] block
    is left, and the object closed, on both [return False] of the inner
    handlers and at the end of the block; an error raised there reaches
    the outer handler.  (The update of yt-dlp's default headers for
    TikTok URLs changes nothing the model tracks.) *)
Definition download (library : ydl_options -> string -> ydl_behaviour)
    (cfg : settings) (url : string) (k : kwargs) : M world bool :=
  try_except
    (print "Fetching video information..." >>>
     (if audio_only k then
        print ("Mode: Audio Only (" +:+ upper (audio_format k) +:+ ")")
      else
        print ("Mode: Video (Quality: " +:+ default "None" (resolution k) +:+ ")")) >>>
     reset_progress >>>
     let b := library (get_download_options cfg url k) url in
     match before b with
     | Some ex => reraise ex
     | None =>
         let! returned := download_inner b k in
         match close b with
         | Some ex => reraise ex
         | None =>
             match returned with
             | Some r => ret r
             | None => ret true
             end
         end
     end)
    (fun ex =>
       logging_error ("Error downloading " +:+ url +:+ ": " +:+ str ex) >>>
       ret false).

(** *** The thread pool, lines 458-461

    [futures] maps the position of a submitted task to what the task ended
    with.  The workers finish the tasks in some order [finished]; the model
    runs each task as one step.  [result()] on a future that never
    finishes does not return: [collect] is [None] then. *)

Definition run_task (library : nat -> ydl_options -> string -> ydl_behaviour)
    (cfg : settings) (k : kwargs) (urls : list string)
    (st : world * gmap nat (result bool)) (i : nat)
    : world * gmap nat (result bool) :=
  match urls !! i with
  | Some url =>
      let '(w', r) := download (library i) cfg url k (fst st) in
      (w', <[i := r]> (snd st))
  | None => st
  end.

Definition run_pool (library : nat -> ydl_options -> string -> ydl_behaviour)
    (cfg : settings) (k : kwargs) (urls : list string) (finished : list nat)
    (w : world) : world * gmap nat (result bool) :=
  foldl (run_task library cfg k urls) (w, ∅) finished.

(** [[f.result() for f in futures]] *)
Fixpoint collect (futures : gmap nat (result bool)) (positions : list nat)
    : option (result (list bool)) :=
  match positions with
  | [] => Some (Ret [])
  | i :: rest =>
      match futures !! i with
      | None => None
      | Some (Raise ex) => Some (Raise ex)
      | Some (Ret b) =>
          match collect futures rest with
          | Some (Ret bs) => Some (Ret (b :: bs))
          | other => other
          end
      end
  end.

(** [batch_download]; [ThreadPoolExecutor] refuses a width that is not
    positive. *)
Definition batch_download (library : nat -> ydl_options -> string -> ydl_behaviour)
    (cfg : settings) (urls : list string) (k : kwargs) (finished : list nat)
    (w : world) : world * option (result (list bool)) :=
  if (max_concurrent cfg <=? 0)%Z then
    (w, Some (Raise (Exn ValueError "max_workers must be greater than 0")))
  else
    let '(w', futures) := run_pool library cfg k urls finished w in
    (w', collect futures (seq 0 (List.length urls))).

End Batch.


(** ** Sample worlds used by the examples below *)

Module Samples.
Import Flac.

Definition stereo48 (seconds : Double.float) : StreamInfo :=
  {| channels := 2; sample_rate := 48000; info_length := seconds |}.

(** Five seconds, and five and a half. *)
Definition five : Double.float := Double.of_Z 5.

Definition titled : tag_items := [("title", Texts ["Example"])].

(** What the encoder writes into the comment of its output. *)
Definition encoder_tag : tag_items := [("encoder", Texts ["Lavf60.3.100"])].

(** A FLAC file of 2 MiB: two channels, 48 kHz, five seconds, tagged. *)
Definition good_flac : file :=
  {| size := 2 * 1024 * 1024;
     body := Media {| is_flac := true; info := stereo48 five; tags := Some titled |} |}.

(** A WAV file with the same stream properties and no tags. *)
Definition plain_wav_audio : audio :=
  {| is_flac := false; info := stereo48 five; tags := None |}.

Definition good_wav : file :=
  {| size := 2 * 1024 * 1024; body := Media plain_wav_audio |}.

(** The same WAV file with an ID3 title frame. *)
Definition id3_wav : file :=
  {| size := 2 * 1024 * 1024;
     body := Media {| is_flac := false; info := stereo48 five;
                      tags := Some [("TIT2", Object "TIT2(encoding=<Encoding.UTF8: 3>, text=['Example']) needs to be str for key 'TIT2'")] |} |}.

(** An Ogg Vorbis file with a title in its comment. *)
Definition ogg_audio : audio :=
  {| is_flac := false; info := stereo48 five; tags := Some titled |}.

Definition good_ogg : file :=
  {| size := 2 * 1024 * 1024; body := Media ogg_audio |}.

Definition empty_world : world :=
  {| fs := ∅; stdout := []; log := []; bar := []; spawned := [] |}.

Definition world_of (files : gmap string node) : world :=
  {| fs := files; stdout := []; log := []; bar := []; spawned := [] |}.

Definition quiet_env (enc : encoder_outcome) : env :=
  {| sep := "/"; encoder := enc; save_fails := false; saved_size := fun n => n |}.

(** An encoder run that reports progress, exits with 0 and writes [out]. *)
Definition encoder_ok (out : file) : encoder_outcome :=
  Runs [ "out_time_ms=1000"; "progress=continue";
         "out_time_ms=2500"; "out_time_ms=2500"; "out_time_ms=N/A";
         "out_time_ms=5000"; "progress=end" ]
       0 "" (Some out).

(** The FLAC file the encoder makes of the five seconds. *)
Definition encoded_audio : audio :=
  {| is_flac := true; info := stereo48 five; tags := Some encoder_tag |}.

Definition encoded_flac : file :=
  {| size := 2 * 1024 * 1024; body := Media encoded_audio |}.



Definition wav_world : world := world_of {[ "song.wav" := File good_wav ]}.

Definition ogg_world : world := world_of {[ "song.ogg" := File good_ogg ]}.

(** The WAV file next to a directory named [out]. *)
Definition dir_world : world :=
  world_of {[ "song.wav" := File good_wav; "out" := Dir ]}.



(** A machine with the encoder on the [PATH], in [C:\tools], and no
    configuration file. *)
Definition path_world : Setup.world :=
  {| Setup.defaults := Setup.DEFAULT_CONFIG "\" "C:\Users\me";
     Setup.fs := {[ "C:\tools" := Setup.Dir;
                    "C:\tools\ffmpeg.exe" := Setup.File Setup.Unparsable ]};
     Setup.ffmpeg_on_path := true;
     Setup.open_fds := {[ 0; 1; 2 ]};
     Setup.sep := "\";
     Setup.stdout := [] |}.

(** A machine without encoder and without configuration file. *)
Definition bare_world : Setup.world :=
  {| Setup.defaults := Setup.DEFAULT_CONFIG "\" "C:\Users\me";
     Setup.fs := ∅;
     Setup.ffmpeg_on_path := false;
     Setup.open_fds := {[ 0; 1; 2 ]};
     Setup.sep := "\";
     Setup.stdout := [] |}.

(** The same machine with a configuration file that sets the pool width. *)
Definition configured_world (t : Setup.text) : Setup.world :=
  Setup.with_fs (insert Setup.CONFIG_FILE (Setup.File t)) bare_world.

Definition width_five : gmap string Setup.json :=
  {[ "max_concurrent" := Setup.JNum 5 ]}.

Definition batch_settings : Batch.settings :=
  {| Batch.ffmpeg_location := "C:\ffmpeg\bin";
     Batch.video_output := "C:\Users\me\Videos";
     Batch.audio_output := "C:\Users\me\Music";
     Batch.max_concurrent := 3;
     Batch.sep := "\" |}.

Definition plain_request : Batch.kwargs :=
  {| Batch.audio_only := false; Batch.resolution := None;
     Batch.format_id := None; Batch.filename := None;
     Batch.audio_format := "mp3" |}.

(** A library that serves the first and third request and fails on the
    second. *)
Definition flaky_library (i : nat) (o : Batch.ydl_options) (url : string)
    : Batch.ydl_behaviour :=
  {| Batch.before := None;
     Batch.extract := Batch.Info "clip" "best";
     Batch.fetch :=
       if Nat.eqb i 1 then Batch.FetchRaises (Exn DownloadError "HTTP Error 404")
       else Batch.Fetched;
     Batch.close := None |}.

Definition idle : Batch.world :=
  {| Batch.stdout := []; Batch.log := []; Batch.pbar := false;
     Batch.last_percentage := 0 |}.

End Samples.


(** ** Auxiliary notions for the start-up properties *)

Module SetupNotions.
Import Setup.

(** Every entry of [m] is still in [m']. *)
Definition keeps (m m' : gmap string node) : Prop :=
  forall p x, m !! p = Some x -> m' !! p = Some x.

(** A computation that leaves the [DEFAULT_CONFIG] object as it is,
    whether it returns or raises. *)
Definition leaves_defaults {A} (c : M world A) : Prop :=
  forall w, defaults (fst (c w)) = defaults w.

End SetupNotions.

(** ** The progress bar and the two hooks handed to yt-dlp *)

Module Hooks.

(** [ColorProgressBar], lines 116-145: [position] is the count of the
    underlying tqdm bar, which starts at zero. *)
Record ColorProgressBar : Type := {
  total : Z;
  desc : string;
  position : Z;
  current_color_idx : nat;
  last_update : Double.float;
  closed : bool
}.

(** The four colours of [self.colors]. *)
Definition colors : list string := ["BLUE"; "CYAN"; "GREEN"; "YELLOW"].

(** [ColorProgressBar(total, desc)] *)
Definition new_bar (total : Z) (desc : string) : ColorProgressBar :=
  {| total := total; desc := desc; position := 0; current_color_idx := 0;
     last_update := Double.zero; closed := false |}.

(** [update(n)] at the time [current_time] read from the clock. *)
Definition bar_update (current_time : Double.float) (n : Z) (b : ColorProgressBar)
    : ColorProgressBar :=
  let turn :=
    Double.gtb (Double.sub current_time (last_update b)) Double.tenth in
  {| total := total b; desc := desc b;
     position := position b + n;
     current_color_idx :=
       if turn then (current_color_idx b + 1) mod List.length colors
       else current_color_idx b;
     last_update := if turn then current_time else last_update b;
     closed := closed b |}.

(** The fields of the manager the progress hook works on. *)
Record state : Type := {
  pbar : option ColorProgressBar;      (* None: no attribute [pbar] *)
  last_percentage : Z;
  stdout : list string
}.

(** The manager as [download] leaves it before it calls the library. *)
Definition fresh (out : list string) : state :=
  {| pbar := None; last_percentage := 0; stdout := out |}.

(** A number of the event dictionary: yt-dlp gives byte counts as
    integers and estimates as floats. *)
Inductive number : Type :=
| PyInt (z : Z)
| PyFloat (f : Double.float).

(** An entry of the event dictionary as [d.get(key)] sees it. *)
Inductive entry : Type :=
| Absent
| PyNull
| Num (n : number).

Record event : Type := {
  status : string;
  total_bytes : entry;
  total_bytes_estimate : entry;
  downloaded_bytes : entry
}.

(** Truthiness of a number: anything but zero. *)
Definition nonzero (n : number) : bool :=
  match n with
  | PyInt z => negb (z =? 0)%Z
  | PyFloat f => negb (Double.is_zero f)
  end.

(** [d.get(key, 0)]; [None] is Python's [None]. *)
Definition get_or_zero (x : entry) : option number :=
  match x with
  | Absent => Some (PyInt 0)
  | PyNull => None
  | Num n => Some n
  end.

(** [d.get('total_bytes') or d.get('total_bytes_estimate', 0)] *)
Definition event_total (d : event) : option number :=
  match total_bytes d with
  | Num n => if nonzero n then Some n else get_or_zero (total_bytes_estimate d)
  | _ => get_or_zero (total_bytes_estimate d)
  end.

(** [d.get('downloaded_bytes', 0)] *)
Definition event_downloaded (d : event) : option number :=
  get_or_zero (downloaded_bytes d).

(** [total > 0] *)
Definition positive (total : option number) : result bool :=
  match total with
  | None =>
      Raise (Exn TypeError
               "'>' not supported between instances of 'NoneType' and 'int'")
  | Some (PyInt z) => Ret (0 <? z)%Z
  | Some (PyFloat f) => Ret (Double.gtb f Double.zero)
  end.

(** A number as an operand of a float operation. *)
Definition as_float (n : number) : result Double.float :=
  match n with
  | PyInt z => Double.of_int z
  | PyFloat f => Ret f
  end.

(** [downloaded / total] *)
Definition quotient (downloaded : option number) (total : number)
    : result Double.float :=
  match downloaded, total with
  | None, _ =>
      Raise (Exn TypeError "unsupported operand type(s) for /: 'NoneType'")
  | Some (PyInt a), PyInt b => Double.int_true_div a b
  | Some x, y =>
      and_then (as_float x) (fun x =>
      and_then (as_float y) (fun y => Double.float_div x y))
  end.

(** [min(int((downloaded / total) * 100), 100)] *)
Definition percentage_of (downloaded : option number) (total : number)
    : result Z :=
  and_then (quotient downloaded total) (fun share =>
  and_then (Double.to_int (Double.mul share Double.hundred)) (fun percent =>
  Ret (Z.min percent 100))).

(** [progress_hook], lines 178-198, called at clock time [now]. *)
Definition progress_hook (now : Double.float) (d : event) : M state unit :=
  if String.eqb (status d) "downloading" then
    let total := event_total d in
    let downloaded := event_downloaded d in
    modify (fun s =>
              match pbar s with
              | Some _ => s
              | None => {| pbar := Some (new_bar 100 "Downloading");
                           last_percentage := last_percentage s;
                           stdout := stdout s |}
              end) >>>
    let! is_positive := lift (positive total) in
    if is_positive then
      match total with
      | None => ret tt
      | Some total =>
          let! percentage := lift (percentage_of downloaded total) in
          modify (fun s =>
                    if (percentage >? last_percentage s)%Z then
                      {| pbar := bar_update now (percentage - last_percentage s)
                                   <$> pbar s;
                         last_percentage := percentage;
                         stdout := stdout s |}
                    else s)
      end
    else ret tt
  else if String.eqb (status d) "finished" then
    modify (fun s =>
              {| pbar := None;
                 last_percentage := 0;
                 stdout :=
                   (match pbar s with
                    | Some _ => stdout s ++ ["Complete!"]
                    | None => stdout s
                    end) ++ ["Download Complete!"] |})
  else ret tt.

(** The bar and the percentage agree: the bar stands at the percentage
    last shown, which lies between 0 and 100; without a bar the percentage
    is zero. *)
Definition in_step (s : state) : Prop :=
  (0 <= last_percentage s <= 100)%Z
  /\ match pbar s with
     | Some b => position b = last_percentage s /\ total b = 100%Z
     | None => last_percentage s = 0%Z
     end.

(** The state after a series of calls; a call that raises leaves the state
    it had reached. *)
Definition after_events (calls : list (Double.float * event)) (s : state) : state :=
  foldl (fun s c => fst (progress_hook (fst c) (snd c) s)) s calls.

(** [os.path.basename] *)
Definition basename (sep : string) (s : string) : string := Path.basename sep s.

(** The event of the post-processor hook: [filename] is [None] when the
    key is absent, [title] is [d['info_dict']['title']] when present. *)
Record post_event : Type := {
  post_status : string;
  filename : option string;
  title : option string
}.

(** [post_process_hook], lines 390-401. *)
Definition post_process_hook (e : Flac.env) (d : post_event) : M Flac.world unit :=
  if String.eqb (post_status d) "started" then
    Flac.print ("Post-processing: " +:+ default "Unknown" (title d))
  else if String.eqb (post_status d) "finished" then
    let filename := default "" (filename d) in
    if Str.endswith ".flac" filename then
      let! ok := Flac.verify_audio_file filename in
      if truthy ok then
        Flac.print ("FLAC conversion successful: " +:+ basename (Flac.sep e) filename)
      else
        Flac.print ("FLAC verification failed: " +:+ basename (Flac.sep e) filename)
    else ret tt
  else ret tt.

End Hooks.

(** ** The interactive prompt, lines 471-547 *)

Module Interactive.
Import Batch.

(** [s.split()]: the maximal runs of characters that are not white
    space. *)
Fixpoint words (s : string) : list string :=
  match s with
  | EmptyString => []
  | String c s' =>
      if Str.is_space c then words s'
      else
        match s' with
        | EmptyString => [String c EmptyString]
        | String c' _ =>
            if Str.is_space c' then String c EmptyString :: words s'
            else
              match words s' with
              | w :: ws => String c w :: ws
              | [] => [String c EmptyString]
              end
        end
  end.

(** [args.index(x)]; [None] stands for [ValueError]. *)
Fixpoint index_of (x : string) (args : list string) : option nat :=
  match args with
  | [] => None
  | a :: rest => if String.eqb a x then Some 0%nat else S <$> index_of x rest
  end.

(** Lines 524-529 and 532-537: the token that follows the first
    occurrence of [flag]; an error of [index] or of the subscript is
    passed over. *)
Definition value_after (flag : string) (args : list string) : option string :=
  if existsb (String.eqb flag) args then
    match index_of flag args with
    | Some i => args !! (i + 1)%nat
    | None => None
    end
  else None.

(** Lines 517-537: the options built from the tokens of a line. *)
Definition parse_options (args : list string) : kwargs :=
  {| audio_only := existsb (String.eqb "--audio-only") args;
     resolution := value_after "--resolution" args;
     format_id := None;
     filename := None;
     audio_format := default "mp3" (value_after "--audio-format" args) |}.

(** [show_menu], lines 471-493 (colour codes and blank lines left
    out). *)
Definition menu : list string :=
  [ "Available Options:";
    "1. Just paste URL to download in highest quality";
    "2. Audio Options:";
    "   --audio-only                    Download audio only";
    "   --audio-format [format]         Choose audio format:";
    "      Available formats:";
    "      mp3  - Standard MP3 format (320kbps)";
    "      flac - Lossless audio format";
    "      wav  - Uncompressed audio";
    "      m4a  - AAC audio format";
    "3. Video Options:";
    "   --resolution [quality]          Set video quality (e.g., 720, 1080, 2160)";
    "Examples:";
    "- Download video: just paste the URL";
    "- MP3 audio: URL --audio-only";
    "- FLAC audio: URL --audio-only --audio-format flac";
    "- HD video: URL --resolution 1080";
    "Type --help to show this menu";
    "Type --Q to quit" ].

Fixpoint print_all (lines : list string) : M world unit :=
  match lines with
  | [] => ret tt
  | l :: rest => print l >>> print_all rest
  end.

Definition show_menu : M world unit := print_all menu.

(** How the model of the loop ends: the loop was left, or everything that
    reached the prompt so far has been handled and the prompt is
    waiting. *)
Inductive ended : Type :=
| Exited
| Waiting.

(** Lines 514-540: a line that is neither the quit token, nor empty, nor
    the help token. *)
Definition handle_request (library : ydl_options -> string -> ydl_behaviour)
    (cfg : settings) (user_input : string) : M world unit :=
  let args := words user_input in
  match args with
  | [] => raise IndexError "list index out of range"
  | url :: _ => download library cfg url (parse_options args) >>> ret tt
  end.

(** What reaches the prompt when [input] is called: a line, a keyboard
    interrupt, or the end of the input. *)
Inductive keyboard : Type :=
| Typed (raw : string)
| CtrlC
| EndOfInput.

(** The [while True] loop, lines 499-547, over what reaches the prompt;
    [n] counts the calls of [input], [library n] is what yt-dlp does for
    the request made at call [n].  When the list is used up the prompt is
    waiting.  The end of the input makes [input] raise [EOFError], which
    the last handler reports before the loop goes on. *)
Fixpoint interactive_loop (library : nat -> ydl_options -> string -> ydl_behaviour)
    (cfg : settings) (n : nat) (typed : list keyboard) : M world ended :=
  match typed with
  | [] => print "Enter URL and options: " >>> ret Waiting
  | CtrlC :: _ =>
      print "Enter URL and options: " >>>
      print "Exiting..." >>> ret Exited
  | EndOfInput :: rest =>
      print "Enter URL and options: " >>>
      print ("Error: " +:+ "EOF when reading a line") >>>
      print "Type --help to see available options" >>>
      interactive_loop library cfg (S n) rest
  | Typed raw :: rest =>
      print "Enter URL and options: " >>>
      let user_input := Str.strip raw in
      if String.eqb (Str.lower user_input) "--q" then
        print "Exiting..." >>> ret Exited
      else if String.eqb user_input "" then
        interactive_loop library cfg (S n) rest
      else if String.eqb (Str.lower user_input) "--help" then
        show_menu >>> interactive_loop library cfg (S n) rest
      else
        try_except
          (handle_request (library n) cfg user_input)
          (fun ex =>
             print ("Error: " +:+ str ex) >>>
             print "Type --help to see available options") >>>
        interactive_loop library cfg (S n) rest
  end.

Definition interactive_mode (library : nat -> ydl_options -> string -> ydl_behaviour)
    (cfg : settings) (typed : list keyboard) : M world ended :=
  print "Welcome to Universal Downloader!" >>>
  show_menu >>>
  interactive_loop library cfg 0 typed.


End Interactive.

(** Requests typed at the prompt, for the examples. *)
Module PromptSamples.

Definition always_fine (n : nat) (o : Batch.ydl_options) (url : string)
    : Batch.ydl_behaviour :=
  {| Batch.before := None;
     Batch.extract := Batch.Info "clip" "best";
     Batch.fetch := Batch.Fetched;
     Batch.close := None |}.

End PromptSamples.

(** ** The end of [main], lines 672-694: which downloads are run and the
    exit code *)

Module Dispatch.
Import Batch.

(** The parsed command line, as far as the downloads read it. *)
Record arguments : Type := {
  arg_url : option string;            (* --url *)
  arg_urls : list string;             (* positional URLs *)
  arg_audio_only : bool;
  arg_resolution : option string;
  arg_format_id : option string;
  arg_filename : option string;
  arg_audio_format : string
}.

(** [[args.url] if args.url else args.urls] *)
Definition all_urls (a : arguments) : list string :=
  match arg_url a with
  | Some u => if String.eqb u "" then arg_urls a else [u]
  | None => arg_urls a
  end.

(** The keyword arguments of the single download, lines 676-683. *)
Definition single_request (a : arguments) : kwargs :=
  {| audio_only := arg_audio_only a; resolution := arg_resolution a;
     format_id := arg_format_id a; filename := arg_filename a;
     audio_format := arg_audio_format a |}.

(** The keyword arguments of the batch, lines 685-691: no file name. *)
Definition batch_request (a : arguments) : kwargs :=
  {| audio_only := arg_audio_only a; resolution := arg_resolution a;
     format_id := arg_format_id a; filename := None;
     audio_format := arg_audio_format a |}.

(** The request every URL of the run is downloaded with. *)
Definition request_used (a : arguments) : kwargs :=
  match all_urls a with
  | [_] => single_request a
  | _ => batch_request a
  end.

(** [0 if success else 1] *)
Definition exit_code (success : bool) : Z := if success then 0 else 1.

(** Lines 672-694; the value is the argument of [sys.exit], [None] when
    the batch does not return. *)
Definition run_downloads (library : nat -> ydl_options -> string -> ydl_behaviour)
    (cfg : settings) (a : arguments) (finished : list nat) (w : world)
    : world * option (result Z) :=
  match all_urls a with
  | [url] =>
      match download (library 0%nat) cfg url (single_request a) w with
      | (w', Ret success) => (w', Some (Ret (exit_code success)))
      | (w', Raise ex) => (w', Some (Raise ex))
      end
  | urls =>
      match batch_download library cfg urls (batch_request a) finished w with
      | (w', Some (Ret successes)) =>
          (w', Some (Ret (exit_code (forallb (fun b => b) successes))))
      | (w', Some (Raise ex)) => (w', Some (Raise ex))
      | (w', None) => (w', None)
      end
  end.

End Dispatch.

(** * Properties *)

(** ** String helpers on sample inputs *)

Example lower_ex : Str.lower "Song.FLAC" = "song.flac".
Proof. reflexivity. Qed.
Example endswith_ex : Str.endswith ".flac" "song.flac" = true.
Proof. reflexivity. Qed.
Example endswith_short : Str.endswith ".flac" "lac" = false.
Proof. reflexivity. Qed.
Example split_ex : Str.split "=" "out_time_ms=5000" = ["out_time_ms"; "5000"].
Proof. reflexivity. Qed.
Example split_none : Str.split "=" "progress" = ["progress"].
Proof. reflexivity. Qed.
Example py_int_newline : Str.py_int ("1500" +:+ String "010" "") = Some 1500.
Proof. reflexivity. Qed.
Example py_int_neg : Str.py_int " -42 " = Some (-42).
Proof. reflexivity. Qed.
Example py_int_na : Str.py_int "N/A" = None.
Proof. reflexivity. Qed.
Example py_int_underscore : Str.py_int "1_000" = Some 1000.
Proof. reflexivity. Qed.
Example py_int_bad_underscore : Str.py_int "1__0" = None.
Proof. reflexivity. Qed.
Example py_int_empty : Str.py_int "" = None.
Proof. reflexivity. Qed.


(** ** The monad: running a computation step by step *)

Section MonadFacts.
Context {S A B : Type}.


Lemma bind_raise_run (c : M S A) (k : A -> M S B) s s' ex :
  c s = (s', Raise ex) -> bind c k s = (s', Raise ex).
Proof. intros H. unfold bind. now rewrite H. Qed.

Lemma try_except_ret_run (c : M S A) (h : exn -> M S A) s s' a :
  c s = (s', Ret a) -> try_except c h s = (s', Ret a).
Proof. intros H. unfold try_except. now rewrite H. Qed.

Lemma try_except_raise_run (c : M S A) (h : exn -> M S A) s s' ex :
  c s = (s', Raise ex) -> try_except c h s = h ex s'.
Proof. intros H. unfold try_except. now rewrite H. Qed.
End MonadFacts.

(** ** The verification method *)

Section VerifyFacts.
Import Flac.

Lemma same_kinds_refl m : same_kinds m m.
Proof. intros q. tauto. Qed.

Lemma same_kinds_rewrite_file m p f g :
  m !! p = Some (File f) -> same_kinds m (<[p := File g]> m).
Proof.
  intros Hp q. destruct (decide (p = q)) as [->|Hne].
  - rewrite lookup_insert_eq, Hp. split; split; intros H; discriminate H.
  - rewrite lookup_insert_ne by assumption. tauto.
Qed.

(** Saving keeps every path's kind and touches nothing but the file
    system, and there only the path saved to. *)
Lemma save_run e p a w :
  exists w' r, save e p a w = (w', r)
    /\ same_kinds (fs w) (fs w')
    /\ (forall q, q <> p -> fs w' !! q = fs w !! q)
    /\ stdout w' = stdout w /\ log w' = log w
    /\ bar w' = bar w /\ spawned w' = spawned w.
Proof.
  unfold save. destruct (save_fails e).
  - eexists _, _. split; [reflexivity|]. auto 10 using same_kinds_refl.
  - destruct (fs w !! p) as [[f|]|] eqn:Hp.
    + destruct (refused (default [] (tags a))).
      * eexists _, _. split; [reflexivity|]. auto 10 using same_kinds_refl.
      * eexists _, _. split; [reflexivity|]. simpl.
        split; [now apply same_kinds_rewrite_file with f|].
        split; [|auto]. intros q Hq. now apply lookup_insert_ne.
    + eexists _, _. split; [reflexivity|]. auto 10 using same_kinds_refl.
    + eexists _, _. split; [reflexivity|]. auto 10 using same_kinds_refl.
Qed.

(** What a call of [verify_audio_file] can do: it returns [None] or
    [False], never raises, and leaves the file system, the console, the
    progress bar and the process table as they were. *)
Lemma verify_audio_file_run p w :
  exists w' v, verify_audio_file p w = (w', Ret v)
    /\ (v = PyNone \/ v = PyBool false)
    /\ fs w' = fs w
    /\ stdout w' = stdout w /\ bar w' = bar w /\ spawned w' = spawned w.
Proof.
  unfold verify_audio_file.
  destruct (Str.endswith ".flac" (Str.lower p)).
  2:{ exists w, PyNone. simpl. auto 10. }
  unfold try_except. unfold bind at 1. unfold FLAC at 1.
  destruct (fs w !! p) as [[[n [a|]]|]|] eqn:Hp;
    try (eexists _, _; split; [reflexivity|]; simpl; auto 10).
  destruct (is_flac a);
    [|eexists _, _; split; [reflexivity|]; simpl; auto 10].
  unfold bind at 1.
  destruct (tags_falsy (tags a));
    [eexists _, _; split; [reflexivity|]; simpl; auto 10|].
  unfold ret at 1.
  destruct (negb (in_tuple (channels (info a)) [1; 2]));
    [eexists _, _; split; [reflexivity|]; simpl; auto 10|].
  destruct (negb (in_tuple (sample_rate (info a)) [44100; 48000; 96000]));
    [eexists _, _; split; [reflexivity|]; simpl; auto 10|].
  unfold bind at 1, os_path_getsize. rewrite Hp. cbn [size].
  destruct (n <? 1024 * 100)%Z;
    eexists _, _; (split; [reflexivity|]); simpl; auto 10.
Qed.



(** A FLAC file without tags never reaches the checks: line 208 raises,
    the handler writes one line to the log and answers [False]; the file
    is not touched. *)
Lemma verify_audio_file_untagged p w n a :
  Str.endswith ".flac" (Str.lower p) = true ->
  fs w !! p = Some (File {| size := n; body := Media a |}) ->
  is_flac a = true ->
  tags_falsy (tags a) = true ->
  verify_audio_file p w
  = (fst (logging_error
            ("Error verifying audio file " +:+ p +:+ ": "
             +:+ "module 'mutagen.flac' has no attribute 'VorbisComment'") w),
     Ret (PyBool false)).
Proof.
  intros Hname Hp Hflac Htags.
  unfold verify_audio_file, try_except. rewrite Hname.
  unfold bind, FLAC, raise. rewrite Hp, Hflac, Htags. reflexivity.
Qed.
End VerifyFacts.

(** ** The failure handler of the conversion *)

Section HandlerFacts.
Import Flac.

Lemma dir_or_not (m : gmap string node) p :
  m !! p = Some Dir \/ m !! p <> Some Dir.
Proof.
  destruct (m !! p) as [[f|]|];
    [right; discriminate | left; reflexivity | right; discriminate].
Qed.

(** When the output path is free or names a regular file, the handler
    prints its message, leaves the path free and answers [False]. *)
Lemma convert_failed_run output ex w :
  fs w !! output <> Some Dir ->
  exists w', convert_failed output ex w = (w', Ret (PyBool false))
    /\ fs w' = delete output (fs w)
    /\ stdout w' = (stdout w ++ ["Conversion Failed: " +:+ str ex])%list
    /\ log w' = log w /\ bar w' = bar w /\ spawned w' = spawned w.
Proof.
  intros Hdir. unfold convert_failed, bind, print, modify, os_path_exists,
    os_remove, ret. simpl.
  destruct (fs w !! output) as [[f|]|] eqn:Hout; simpl.
  - rewrite Hout. eexists. split; [reflexivity|]. simpl. auto.
  - congruence.
  - eexists. split; [reflexivity|]. simpl.
    split; [symmetry; now apply delete_id | auto].
Qed.

(** When the output path names a directory, [os.remove] raises inside the
    handler: the message has been printed, the directory stays, and the
    error leaves the method. *)
Lemma convert_failed_dir output ex w :
  fs w !! output = Some Dir ->
  exists w', convert_failed output ex w
             = (w', Raise (Exn OSError ("Is a directory: " +:+ output)))
    /\ fs w' = fs w
    /\ stdout w' = (stdout w ++ ["Conversion Failed: " +:+ str ex])%list
    /\ spawned w' = spawned w.
Proof.
  intros Hdir. unfold convert_failed, bind, print, modify, os_path_exists,
    os_remove, ret. simpl. rewrite Hdir. simpl. rewrite Hdir.
  eexists. split; [reflexivity|]. simpl. auto.
Qed.

(** The handler never answers anything but [False]. *)
Lemma convert_failed_not_True output ex w w' v :
  convert_failed output ex w = (w', Ret v) -> v = PyBool false.
Proof.
  destruct (fs w !! output) as [[f|]|] eqn:Hout.
  - destruct (convert_failed_run output ex w) as (w2 & Hrun & _);
      [rewrite Hout; discriminate|].
    rewrite Hrun. now intros [= _ <-].
  - destruct (convert_failed_dir output ex w Hout) as (w2 & Hrun & _).
    rewrite Hrun. discriminate.
  - destruct (convert_failed_run output ex w) as (w2 & Hrun & _);
      [rewrite Hout; discriminate|].
    rewrite Hrun. now intros [= _ <-].
Qed.

(** The shipped method never gets past its first step. *)
Lemma convert_prepare_shipped_raises input w :
  exists w', convert_prepare verify_audio_file input w
             = (w', Raise (Exn ValueError "Input file verification failed"))
    /\ fs w' = fs w
    /\ stdout w' = stdout w /\ bar w' = bar w /\ spawned w' = spawned w.
Proof.
  destruct (verify_audio_file_run input w)
    as (w1 & v & Hrun & Hv & Hk & Ho & Hb & Hs).
  exists w1. split; [|auto].
  unfold convert_prepare, bind. rewrite Hrun.
  destruct Hv as [-> | ->]; reflexivity.
Qed.

(** Hence the body of the shipped method raises at line 237, before the
    encoder is started, and the method is the handler run on that
    error. *)
Lemma convert_body_shipped_raises e loc input output w :
  exists w', convert_body e loc verify_audio_file input output w
             = (w', Raise (Exn ValueError "Input file verification failed"))
    /\ convert_to_flac e loc input output w
       = convert_failed output
           (Exn ValueError "Input file verification failed") w'
    /\ fs w' = fs w
    /\ stdout w' = stdout w /\ bar w' = bar w /\ spawned w' = spawned w.
Proof.
  destruct (convert_prepare_shipped_raises input w) as (w1 & Hprep & Hrest).
  assert (Hbody : convert_body e loc verify_audio_file input output w
                  = (w1, Raise (Exn ValueError "Input file verification failed"))).
  { unfold convert_body, convert_until_compare.
    erewrite bind_raise_run; [reflexivity|].
    erewrite bind_raise_run; [reflexivity | exact Hprep]. }
  exists w1. split; [exact Hbody|]. split; [|exact Hrest].
  unfold convert_to_flac, convert_to_flac_with.
  now apply try_except_raise_run.
Qed.


(** The shipped method with an output path that names a directory: the
    error of [os.remove] leaves the method. *)
Lemma convert_to_flac_shipped_dir e loc input output w :
  fs w !! output = Some Dir ->
  exists w',
    convert_to_flac e loc input output w
    = (w', Raise (Exn OSError ("Is a directory: " +:+ output)))
    /\ spawned w' = spawned w
    /\ stdout w' = (stdout w
          ++ ["Conversion Failed: Input file verification failed"])%list
    /\ fs w' = fs w.
Proof.
  intros Hdir.
  destruct (convert_body_shipped_raises e loc input output w)
    as (w1 & _ & Hrun & Hk & Ho & Hb & Hs).
  assert (Hdir1 : fs w1 !! output = Some Dir) by now rewrite Hk.
  destruct (convert_failed_dir output
              (Exn ValueError "Input file verification failed") w1 Hdir1)
    as (w2 & Hfail & Hfs & Hout & Hsp).
  exists w2. split; [now rewrite Hrun|].
  split; [congruence|]. split; [now rewrite Hout, Ho | congruence].
Qed.
End HandlerFacts.

(** ** C1 and C2: what the verification method answers *)

Section VerifyClaims.
Import Flac Samples.

(** C1.  The specification says the verification predicate returns true
    exactly for files with one or two channels, a sample rate of 44100,
    48000 or 96000 and a size of at least 100 KiB.  On such a file, a
    tagged stereo 48 kHz FLAC of 2 MiB, [verify_audio_file] leaves the
    world as it is and evaluates to [None], not [True]. *)
Theorem verify_audio_file_accepted_file_gives_None :
  let w := world_of {[ "song.flac" := File good_flac ]} in
  accepted_by_spec w "song.flac" = true
  /\ verify_audio_file "song.flac" w = (w, Ret PyNone)
  /\ truthy PyNone = false.
Proof. vm_compute. auto. Qed.


End VerifyClaims.

(** ** C6: the progress monitor *)

Section StringFacts.

Lemma append_nil_l (s : string) : "" +:+ s = s.
Proof. reflexivity. Qed.

Lemma append_cons c (a b : string) : String c a +:+ b = String c (a +:+ b).
Proof. reflexivity. Qed.

Lemma split_not_nil sep s : Str.split sep s <> [].
Proof.
  destruct s as [|c s]; simpl; [discriminate|].
  destruct (Ascii.eqb c sep); [discriminate|].
  destruct (Str.split sep s); discriminate.
Qed.

Lemma startswith_app p s :
  Str.startswith p s = true -> exists r, s = p +:+ r.
Proof.
  revert s. induction p as [|a p IH]; intros s H.
  - exists s. reflexivity.
  - destruct s as [|b s]; [discriminate|]. simpl in H.
    apply andb_true_iff in H as [Hab Hps]. apply Ascii.eqb_eq in Hab as ->.
    destruct (IH s Hps) as [r ->]. exists r. reflexivity.
Qed.

Lemma contains_app sub s :
  Str.contains sub s = true -> exists a b, s = a +:+ sub +:+ b.
Proof.
  induction s as [|c s IH]; intros H.
  - simpl in H. rewrite orb_false_r in H.
    apply startswith_app in H as [r ->]. exists "", r. reflexivity.
  - simpl in H. apply orb_true_iff in H as [H|H].
    + apply startswith_app in H as [r ->]. exists "", r. reflexivity.
    + destruct (IH H) as (a & b & ->). exists (String c a), b. reflexivity.
Qed.

(** A string that holds the separator splits into at least two pieces. *)
Lemma split_second sep a b :
  exists piece, Str.split sep (a +:+ String sep b) !! 1%nat = Some piece.
Proof.
  induction a as [|c a IH]; [rewrite append_nil_l | rewrite append_cons]; simpl.
  - rewrite Ascii.eqb_refl.
    destruct (Str.split sep b) as [|x l] eqn:Hb;
      [now apply split_not_nil in Hb | now exists x].
  - destruct IH as [piece IH]. destruct (Ascii.eqb c sep).
    + destruct (Str.split sep (a +:+ String sep b)) as [|x l] eqn:Hs;
        [now apply split_not_nil in Hs | now exists x].
    + destruct (Str.split sep (a +:+ String sep b)) as [|x l];
        [discriminate | now exists piece].
Qed.

Lemma string_app_assoc (a b c : string) : (a +:+ b) +:+ c = a +:+ (b +:+ c).
Proof.
  induction a as [|x a IH]; [reflexivity|].
  rewrite !append_cons. now rewrite IH.
Qed.

(** [line.split('=')[1]] exists for every line that holds the marker. *)
Lemma marker_line_has_value line :
  Str.contains "out_time_ms=" line = true ->
  exists piece, Str.split "=" line !! 1%nat = Some piece.
Proof.
  intros H. apply contains_app in H as (a & b & ->).
  replace (a +:+ "out_time_ms=" +:+ b)
    with ((a +:+ "out_time_ms") +:+ String "=" b)
    by (now rewrite string_app_assoc).
  apply split_second.
Qed.
End StringFacts.

Section MonitorFacts.
Import Flac.

Lemma monitor_no_marker orig line rest last w :
  Str.contains "out_time_ms=" line = false ->
  monitor orig (line :: rest) last w = monitor orig rest last w.
Proof. intros H. simpl. now rewrite H. Qed.

Lemma monitor_caught orig line rest last w ex :
  computed_progress orig line = Raise ex ->
  value_or_attribute_error (exn_kind ex) = true ->
  monitor orig (line :: rest) last w = monitor orig rest last w.
Proof.
  intros Hc Hk. simpl. destruct (Str.contains "out_time_ms=" line); [|reflexivity].
  unfold bind at 1, try_except_only, progress_step, bind, lift.
  rewrite Hc, Hk. reflexivity.
Qed.

Lemma monitor_not_above orig line rest last w p :
  computed_progress orig line = Ret p -> (p <= last)%Z ->
  monitor orig (line :: rest) last w = monitor orig rest last w.
Proof.
  intros Hc Hle. simpl. destruct (Str.contains "out_time_ms=" line); [|reflexivity].
  unfold bind at 1, try_except_only, progress_step, bind, lift.
  rewrite Hc. destruct (Z.gtb_spec p last); [lia | reflexivity].
Qed.

Lemma monitor_above orig line rest last w p :
  Str.contains "out_time_ms=" line = true ->
  computed_progress orig line = Ret p -> (last < p)%Z ->
  monitor orig (line :: rest) last w
  = monitor orig rest p (updated (p - last) w).
Proof.
  intros Hm Hc Hlt. simpl. rewrite Hm.
  unfold bind at 1, try_except_only, progress_step, bind, lift.
  rewrite Hc. destruct (Z.gtb_spec p last); [reflexivity | lia].
Qed.

Lemma monitor_uncaught orig line rest last w ex :
  Str.contains "out_time_ms=" line = true ->
  computed_progress orig line = Raise ex ->
  value_or_attribute_error (exn_kind ex) = false ->
  monitor orig (line :: rest) last w = (w, Raise ex).
Proof.
  intros Hm Hc Hk. simpl. rewrite Hm.
  unfold bind at 1, try_except_only, progress_step, bind, lift.
  rewrite Hc, Hk. reflexivity.
Qed.

Lemma monitor_passed_over orig line rest last w :
  passed_over orig line last ->
  monitor orig (line :: rest) last w = monitor orig rest last w.
Proof.
  intros [H | [(ex & Hc & Hk) | (p & Hc & Hle)]].
  - now apply monitor_no_marker.
  - now apply monitor_caught with ex.
  - now apply monitor_not_above with p.
Qed.

Lemma monitor_app orig l1 l2 last w :
  monitor orig (l1 ++ l2) last w
  = bind (monitor orig l1 last) (monitor orig l2) w.
Proof.
  revert last w. induction l1 as [|line l1 IH]; intros last w.
  - reflexivity.
  - simpl. destruct (Str.contains "out_time_ms=" line); [|apply IH].
    unfold bind in *.
    destruct (try_except_only _ _ _ w) as [w1 [last1|ex]]; [apply IH|reflexivity].
Qed.

(** Every update the loop sends to the bar is positive, the loop touches
    nothing but the bar, and the value it ends with is the starting value
    plus the updates sent. *)
Lemma monitor_trace orig lines : forall last w,
  exists w' r ups,
    monitor orig lines last w = (w', r)
    /\ bar w' = (bar w ++ map BarUpdate ups)%list
    /\ Forall (fun n => 0 < n)%Z ups
    /\ fs w' = fs w /\ stdout w' = stdout w /\ log w' = log w
    /\ spawned w' = spawned w
    /\ (forall final, r = Ret final -> final = (last + foldr Z.add 0 ups)%Z).
Proof.
  induction lines as [|line rest IH]; intros last w.
  - exists w, (Ret last), []. simpl. rewrite app_nil_r.
    repeat split; auto. intros final [= <-]. lia.
  - destruct (Str.contains "out_time_ms=" line) eqn:Hm.
    2:{ rewrite monitor_no_marker by assumption. apply IH. }
    destruct (computed_progress orig line) as [p|ex] eqn:Hc.
    + destruct (Z.lt_ge_cases last p) as [Hlt|Hge].
      * rewrite (monitor_above _ _ _ _ _ p) by assumption.
        destruct (IH p (updated (p - last) w))
          as (w' & r & ups & Hrun & Hbar & Hpos & Hfs & Ho & Hl & Hs & Hfin).
        exists w', r, ((p - last)%Z :: ups). split; [exact Hrun|].
        split; [rewrite Hbar; simpl; now rewrite <- app_assoc|].
        split; [constructor; [lia | assumption]|].
        repeat split; try assumption.
        intros final Hr. rewrite (Hfin final Hr). simpl. lia.
      * rewrite (monitor_not_above _ _ _ _ _ p) by (assumption || lia). apply IH.
    + destruct (value_or_attribute_error (exn_kind ex)) eqn:Hk.
      * rewrite (monitor_caught _ _ _ _ _ ex) by assumption. apply IH.
      * rewrite (monitor_uncaught _ _ _ _ _ ex) by assumption.
        exists w, (Raise ex), []. simpl. rewrite app_nil_r.
        repeat split; auto. intros final [=].
Qed.
End MonitorFacts.

Section MonitorClaim.
Import Flac Samples.

(** C6.  In the monitoring loop the bar is updated only when the newly
    computed percentage strictly exceeds the last one displayed: a marker
    line whose percentage [p] exceeds the displayed value [last] sends
    the update [p - last] and makes [p] the displayed value; a line
    without marker, a malformed line, or a line whose percentage is equal
    or smaller is skipped wherever it stands in the stream, the run being
    the same as without it; and over any stream every update sent is
    positive, so the displayed value only grows. *)
Theorem monitor_updates_only_on_increase :
  (forall orig line rest last w p,
      Str.contains "out_time_ms=" line = true ->
      computed_progress orig line = Ret p ->
      (last < p)%Z ->
      monitor orig (line :: rest) last w
      = monitor orig rest p (updated (p - last) w))
  /\ (forall orig before line after last w w1 displayed,
        monitor orig before last w = (w1, Ret displayed) ->
        passed_over orig line displayed ->
        monitor orig (before ++ line :: after) last w
        = monitor orig (before ++ after) last w)
  /\ (forall orig lines last w,
        exists w' r ups,
          monitor orig lines last w = (w', r)
          /\ bar w' = (bar w ++ map BarUpdate ups)%list
          /\ Forall (fun n => 0 < n)%Z ups
          /\ (forall final, r = Ret final ->
                            final = (last + foldr Z.add 0 ups)%Z)).
Proof.
  split; [|split].
  - intros. now apply monitor_above.
  - intros orig before line after last w w1 displayed Hrun Hskip.
    rewrite !monitor_app. unfold bind. rewrite Hrun.
    now apply monitor_passed_over.
  - intros orig lines last w.
    destruct (monitor_trace orig lines last w)
      as (w' & r & ups & Hrun & Hbar & Hpos & _ & _ & _ & _ & Hfin).
    exists w', r, ups. auto.
Qed.

Lemma monitor_updates_only_on_increase_witness :
  monitor (Some plain_wav_audio)
    ["out_time_ms=2500"; "progress=continue"] 20 empty_world
  = monitor (Some plain_wav_audio)
      ["progress=continue"] 50 (updated 30 empty_world)
  /\ monitor (Some plain_wav_audio)
       (["out_time_ms=2500"] ++ "out_time_ms=1000" :: ["out_time_ms=oops"])
       0 empty_world
     = monitor (Some plain_wav_audio)
         (["out_time_ms=2500"] ++ ["out_time_ms=oops"]) 0 empty_world.
Proof.
  pose proof monitor_updates_only_on_increase as (Hup & Hskip & _).
  split.
  - apply (Hup _ "out_time_ms=2500" _ 20 empty_world 50); [reflexivity | reflexivity | lia].
  - apply (Hskip _ ["out_time_ms=2500"] "out_time_ms=1000" _ 0 empty_world
             (updated 50 empty_world) 50); [reflexivity|].
    right. right. exists 20. split; [reflexivity | lia].
Defined.
End MonitorClaim.

(** ** C3, C4 and C5: how the conversion fails *)

Section ConvertFacts.
Import Flac.
Variable e : env.
Variable ffmpeg_location : string.
Variable verify : string -> M world pyval.



(** Once the subprocess has been started, the encoding stage changes the
    file system only by what the encoder writes, and it raises when the
    return code is not zero. *)
Lemma convert_encode_run orig input output lines rc err written w :
  encoder e = Runs lines rc err written ->
  exists w' r,
    convert_encode e ffmpeg_location orig input output w = (w', r)
    /\ fs w' = encoder_writes output written (fs w)
    /\ spawned w' = (spawned w ++ [ffmpeg_cmd e ffmpeg_location input output])%list
    /\ (rc <> 0%Z -> exists ex, r = Raise ex).
Proof.
  intros Henc. unfold convert_encode, Popen. rewrite Henc.
  unfold bind at 1. unfold bar_emit at 1, modify at 1.
  unfold bind at 1. unfold bind at 1. unfold record_spawn at 1, modify at 1.
  unfold bind at 1. unfold modify at 1. unfold ret at 1.
  set (w0 := with_fs _ _).
  assert (Hfs0 : fs w0 = encoder_writes output written (fs w)) by reflexivity.
  assert (Hsp0 : spawned w0
                 = (spawned w ++ [ffmpeg_cmd e ffmpeg_location input output])%list)
    by reflexivity.
  clearbody w0.
  destruct (monitor_trace orig lines 0%Z w0)
    as (w3 & r3 & ups & Hrun & _ & _ & Hfs & _ & _ & Hsp & _).
  rewrite Hfs0 in Hfs. rewrite Hsp0 in Hsp.
  unfold bind at 1. rewrite Hrun. destruct r3 as [final|ex].
  - unfold bind, bar_emit, print, modify. simpl.
    destruct (Z.eqb_spec rc 0) as [->|Hrc]; simpl.
    + eexists _, _. split; [reflexivity|]. simpl.
      split; [exact Hfs|]. split; [exact Hsp|]. congruence.
    + eexists _, _. split; [reflexivity|]. simpl.
      split; [exact Hfs|]. split; [exact Hsp|]. eauto.
  - eexists _, _. split; [reflexivity|].
    split; [exact Hfs|]. split; [exact Hsp|]. eauto.
Qed.

(** The comparison never changes the world, and what it returns is
    [True]. *)
Lemma convert_compare_run input output w :
  exists r, convert_compare input output w = (w, r)
    /\ (forall v, r = Ret v -> v = PyBool true).
Proof.
  unfold convert_compare, bind, mutagen_File, attr_info, ret, raise.
  destruct (fs w !! input) as [[[n [a|]]|]|];
    try (eexists; split; [reflexivity | intros v [=]]).
  destruct (fs w !! output) as [[[k [b|]]|]|];
    try (eexists; split; [reflexivity | intros v [=]]).
  destruct (differ _ _); eexists; (split; [reflexivity|]); intros v [=]; auto.
Qed.

Lemma convert_body_ret_True input output w w1 v :
  convert_body e ffmpeg_location verify input output w = (w1, Ret v) ->
  v = PyBool true.
Proof.
  unfold convert_body, bind.
  destruct (convert_until_compare _ _ _ _ _ w) as [w0 [[]|ex]]; [|discriminate].
  destruct (convert_compare_run input output w0) as (r & Hrun & Hv).
  rewrite Hrun. intros [= <- ->]. now apply Hv.
Qed.

(** The method is its body followed, on any error, by the handler. *)
Lemma convert_to_flac_with_raise input output w w1 ex :
  convert_body e ffmpeg_location verify input output w = (w1, Raise ex) ->
  convert_to_flac_with e ffmpeg_location verify input output w
  = convert_failed output ex w1.
Proof. intros H. unfold convert_to_flac_with. now apply try_except_raise_run. Qed.

Lemma convert_to_flac_with_ret input output w w1 v :
  convert_body e ffmpeg_location verify input output w = (w1, Ret v) ->
  convert_to_flac_with e ffmpeg_location verify input output w = (w1, Ret v).
Proof. intros H. unfold convert_to_flac_with. now apply try_except_ret_run. Qed.



End ConvertFacts.

Section ConvertClaims.
Import Flac Samples.







(** C5.  The specification says that [convert_to_flac] always returns a
    boolean and lets no exception out.  With a directory at the output
    path the method as shipped fails its input verification, the handler
    prints its message and calls [os.remove] on the directory, which
    raises: [OSError] leaves the call. *)
Theorem convert_to_flac_on_directory_raises :
  exists w',
    convert_to_flac (quiet_env (encoder_ok encoded_flac)) "/usr/bin"
      "song.wav" "out" dir_world
    = (w', Raise (Exn OSError "Is a directory: out"))
    /\ fs w' = fs dir_world
    /\ stdout w' = ["Conversion Failed: Input file verification failed"].
Proof. eexists. vm_compute. auto. Qed.

(** What holds of every call, whatever the verification method, the
    inspections and the encoder do.  If the body of the [try] runs to its
    end the call returns [True].  If the body raises, the handler prints
    a message that carries the error; then, where the output path is free
    or names a regular file, the path is left free and the call returns
    [False], and where it names a directory, [OSError] leaves the call
    and nothing is removed.  No other outcome exists. *)
Theorem convert_to_flac_returns_bool :
  forall e ffmpeg_location verify input_file output_file w w1 outcome,
    convert_body e ffmpeg_location verify input_file output_file w
    = (w1, outcome) ->
    exists w' r,
      convert_to_flac_with e ffmpeg_location verify input_file output_file w
      = (w', r)
      /\ match outcome with
         | Ret v => v = PyBool true /\ r = Ret (PyBool true) /\ w' = w1
         | Raise ex =>
             stdout w' = (stdout w1 ++ ["Conversion Failed: " +:+ str ex])%list
             /\ (fs w1 !! output_file <> Some Dir ->
                 r = Ret (PyBool false) /\ fs w' !! output_file = None)
             /\ (fs w1 !! output_file = Some Dir ->
                 r = Raise (Exn OSError ("Is a directory: " +:+ output_file))
                 /\ fs w' = fs w1)
         end.
Proof.
  intros e loc verify input output w w1 outcome Hbody.
  destruct outcome as [v|ex].
  - pose proof (convert_body_ret_True _ _ _ _ _ _ _ _ Hbody) as ->.
    exists w1, (Ret (PyBool true)). split; [|auto].
    now apply convert_to_flac_with_ret.
  - rewrite (convert_to_flac_with_raise _ _ _ _ _ _ _ _ Hbody).
    destruct (dir_or_not (fs w1) output) as [Hdir|Hdir].
    + destruct (convert_failed_dir output ex w1 Hdir)
        as (w' & Hfail & Hfs & Hprint & _).
      exists w', (Raise (Exn OSError ("Is a directory: " +:+ output))).
      split; [exact Hfail|]. split; [exact Hprint|].
      split; [congruence | auto].
    + destruct (convert_failed_run output ex w1 Hdir)
        as (w' & Hfail & Hfs & Hprint & _).
      exists w', (Ret (PyBool false)).
      split; [exact Hfail|]. split; [exact Hprint|].
      split; [|congruence]. intros _. split; [reflexivity|].
      rewrite Hfs. apply lookup_delete_eq.
Qed.

Lemma convert_to_flac_returns_bool_witness :
  (exists w',
     convert_to_flac_with (quiet_env (encoder_ok encoded_flac)) "/usr/bin"
       verify_as_specified "song.wav" "out.flac" wav_world
     = (w', Ret (PyBool true)))
  /\ (exists w',
        convert_to_flac_with (quiet_env (encoder_ok encoded_flac)) "/usr/bin"
          verify_as_specified "song.wav" "out.flac"
          (world_of {[ "song.wav" := File id3_wav ]})
        = (w', Ret (PyBool false))
        /\ fs w' !! "out.flac" = None).
Proof.
  split.
  - destruct (convert_to_flac_returns_bool
                (quiet_env (encoder_ok encoded_flac)) "/usr/bin"
                verify_as_specified "song.wav" "out.flac" wav_world
                (fst (convert_body (quiet_env (encoder_ok encoded_flac)) "/usr/bin"
                        verify_as_specified "song.wav" "out.flac" wav_world))
                (Ret (PyBool true)))
      as (w' & r & Hrun & _ & -> & _); [vm_compute; reflexivity|].
    exists w'. exact Hrun.
  - destruct (convert_to_flac_returns_bool
                (quiet_env (encoder_ok encoded_flac)) "/usr/bin"
                verify_as_specified "song.wav" "out.flac"
                (world_of {[ "song.wav" := File id3_wav ]})
                (fst (convert_body (quiet_env (encoder_ok encoded_flac)) "/usr/bin"
                        verify_as_specified "song.wav" "out.flac"
                        (world_of {[ "song.wav" := File id3_wav ]})))
                (Raise (Exn ValueError "TIT2(encoding=<Encoding.UTF8: 3>, text=['Example']) needs to be str for key 'TIT2'")))
      as (w' & r & Hrun & _ & Hfile & _); [vm_compute; reflexivity|].
    destruct Hfile as [-> Hfree]; [vm_compute; discriminate|].
    exists w'. split; assumption.
Defined.
End ConvertClaims.

(** ** C8 and C10: loading the configuration *)

Section ConfigClaims.
Import Setup Samples.

Lemma load_config_missing w :
  fs w !! CONFIG_FILE = None ->
  load_config w
  = (with_fs (insert CONFIG_FILE (File (Json (JObj (defaults w))))) w,
     Ret DefaultsObject).
Proof.
  intros Hnone.
  unfold load_config, try_except_only, bind, open_read, write_json, get, ret.
  rewrite Hnone. simpl. rewrite Hnone. reflexivity.
Qed.

Lemma load_config_object w o :
  fs w !! CONFIG_FILE = Some (File (Json (JObj o))) ->
  load_config w = (w, Ret (Fresh (o ∪ defaults w))).
Proof.
  intros Hfile.
  unfold load_config, try_except_only, bind, open_read, get. rewrite Hfile.
  reflexivity.
Qed.

Lemma DEFAULT_CONFIG_keys sep home :
  dom (DEFAULT_CONFIG sep home)
  = ({[ "ffmpeg_location"; "video_output"; "audio_output"; "max_concurrent" ]}
     : gset string).
Proof.
  unfold DEFAULT_CONFIG. rewrite !dom_insert_L, ?dom_singleton_L, ?dom_empty_L.
  set_solver.
Qed.

(** C8.  When the configuration file is absent, [load_config] writes a
    file whose content is exactly the current defaults and returns the
    defaults object; in a fresh process these are the four keys
    [ffmpeg_location], [video_output], [audio_output] and [max_concurrent]
    with their initial values.  When the file holds a JSON object, the
    result is a new dictionary in which each key of the file has the
    file's value and each other key has the default's. *)
Theorem load_config_creates_or_merges :
  (forall w,
      fs w !! CONFIG_FILE = None ->
      exists w',
        load_config w = (w', Ret DefaultsObject)
        /\ fs w' !! CONFIG_FILE = Some (File (Json (JObj (defaults w))))
        /\ deref w' DefaultsObject = defaults w
        /\ (forall p, p <> CONFIG_FILE -> fs w' !! p = fs w !! p))
  /\ (forall w sep home,
        defaults w = DEFAULT_CONFIG sep home ->
        fs w !! CONFIG_FILE = None ->
        exists w',
          load_config w = (w', Ret DefaultsObject)
          /\ fs w' !! CONFIG_FILE
             = Some (File (Json (JObj (DEFAULT_CONFIG sep home))))
          /\ dom (deref w' DefaultsObject)
             = ({[ "ffmpeg_location"; "video_output"; "audio_output";
                   "max_concurrent" ]} : gset string))
  /\ (forall w o,
        fs w !! CONFIG_FILE = Some (File (Json (JObj o))) ->
        exists merged,
          load_config w = (w, Ret (Fresh merged))
          /\ forall key,
               merged !! key
               = match o !! key with
                 | Some v => Some v
                 | None => defaults w !! key
                 end).
Proof.
  split; [|split].
  - intros w Hnone. eexists. split; [now apply load_config_missing|].
    simpl. split; [apply lookup_insert_eq|]. split; [reflexivity|].
    intros p Hp. now apply lookup_insert_ne.
  - intros w sep home Hdef Hnone. eexists.
    split; [now apply load_config_missing|]. simpl.
    split; [rewrite Hdef; apply lookup_insert_eq|].
    rewrite Hdef. apply DEFAULT_CONFIG_keys.
  - intros w o Hfile. exists (o ∪ defaults w).
    split; [now apply load_config_object|].
    intros key. rewrite lookup_union. destruct (o !! key), (defaults w !! key); reflexivity.
Qed.

Lemma load_config_creates_or_merges_witness :
  (exists w', load_config bare_world = (w', Ret DefaultsObject)
     /\ fs w' !! CONFIG_FILE
        = Some (File (Json (JObj (DEFAULT_CONFIG "\" "C:\Users\me")))))
  /\ (exists merged,
        load_config (configured_world (Json (JObj width_five)))
        = (configured_world (Json (JObj width_five)), Ret (Fresh merged))
        /\ merged !! "max_concurrent" = Some (JNum 5)
        /\ merged !! "ffmpeg_location" = Some (JStr "")).
Proof.
  pose proof load_config_creates_or_merges as (_ & Hfresh & Hmerge).
  split.
  - destruct (Hfresh bare_world "\" "C:\Users\me") as (w' & Hrun & Hfile & _);
      [reflexivity | reflexivity |].
    exists w'. split; assumption.
  - destruct (Hmerge (configured_world (Json (JObj width_five))) width_five)
      as (merged & Hrun & Hkeys); [reflexivity|].
    exists merged. split; [exact Hrun|].
    split; rewrite Hkeys; reflexivity.
Defined.

(** C10.  [load_config] handles the missing file only: when the file
    exists and does not hold valid JSON, the parse error leaves
    [load_config]; nothing is written and no defaults are returned. *)
Theorem load_config_malformed_propagates :
  forall w,
    fs w !! CONFIG_FILE = Some (File Unparsable) ->
    load_config w = (w, Raise (Exn JSONDecodeError "Expecting value")).
Proof.
  intros w Hfile.
  unfold load_config, try_except_only, bind, open_read, get. rewrite Hfile.
  reflexivity.
Qed.

Lemma load_config_malformed_propagates_witness :
  load_config (configured_world Unparsable)
  = (configured_world Unparsable, Raise (Exn JSONDecodeError "Expecting value")).
Proof.
  apply load_config_malformed_propagates. reflexivity.
Defined.

End ConfigClaims.

(** ** C9: the encoder locator and the construction of the manager *)

Section LocatorFacts.
Import Setup.

(** The loop returns the first listed location that holds [ffmpeg.exe]. *)
Lemma first_location_run locations w :
  exists r,
    first_location locations w = (w, Ret r)
    /\ match r with
       | Some d =>
           exists i, locations !! i = Some d /\ has_encoder w d
             /\ forall j d', (j < i)%nat -> locations !! j = Some d' ->
                             ~ has_encoder w d'
       | None => forall d, d ∈ locations -> ~ has_encoder w d
       end.
Proof.
  induction locations as [|location rest IH].
  - exists None. split; [reflexivity|]. intros d Hd. inversion Hd.
  - simpl. unfold bind at 1. unfold get at 1. unfold bind at 1.
    unfold os_path_exists at 1.
    destruct (bool_decide (is_Some (fs w !! Flac.path_join (sep w) location "ffmpeg.exe")))
      eqn:Hthere.
    + apply bool_decide_eq_true in Hthere.
      exists (Some location). split; [reflexivity|].
      exists 0%nat. split; [reflexivity|]. split; [exact Hthere|].
      intros j d' Hj. lia.
    + apply bool_decide_eq_false in Hthere.
      destruct IH as (r & Hrun & Hr). exists r. split; [exact Hrun|].
      destruct r as [d|].
      * destruct Hr as (i & Hi & Hd & Hearlier).
        exists (S i). split; [exact Hi|]. split; [exact Hd|].
        intros [|j] d' Hj Hlook.
        -- simpl in Hlook. injection Hlook as <-. exact Hthere.
        -- apply (Hearlier j d'); [lia | exact Hlook].
      * intros d Hd. apply elem_of_cons in Hd as [-> | Hd]; [exact Hthere | now apply Hr].
Qed.

Lemma print_all_run lines w :
  exists w',
    print_all lines w = (w', Ret tt)
    /\ stdout w' = (stdout w ++ lines)%list
    /\ fs w' = fs w /\ defaults w' = defaults w.
Proof.
  revert w. induction lines as [|l rest IH]; intros w.
  - exists w. simpl. rewrite app_nil_r. auto.
  - simpl. unfold bind at 1. unfold print at 1, modify at 1.
    match goal with |- context [print_all rest ?w0] =>
      destruct (IH w0) as (w' & Hrun & Hout & Hfs & Hdef) end.
    exists w'. split; [exact Hrun|]. simpl in *.
    rewrite Hout, <- app_assoc. auto.
Qed.

(** The probe of the [PATH] changes nothing but the file [nul], and that
    only where [nul] is no device. *)
Lemma redirected_facts w :
  defaults (redirected w) = defaults w
  /\ stdout (redirected w) = stdout w
  /\ sep (redirected w) = sep w
  /\ ffmpeg_on_path (redirected w) = ffmpeg_on_path w
  /\ open_fds (redirected w) = open_fds w
  /\ (forall p, p <> "nul" -> fs (redirected w) !! p = fs w !! p)
  /\ (Path.windows (sep w) = true -> redirected w = w).
Proof.
  unfold redirected. destruct (Path.windows (sep w)); [auto 10|].
  destruct (fs w !! "nul") as [[t|]|]; simpl;
    repeat split; auto; try discriminate;
    intros p Hp; now apply lookup_insert_ne.
Qed.

(** The locator: the probe, then the listed locations. *)
Lemma find_ffmpeg_run w :
  find_ffmpeg w
  = if ffmpeg_on_path w then (redirected w, Ret (Some "ffmpeg"))
    else first_location common_locations (redirected w).
Proof.
  unfold find_ffmpeg, bind, probe_path. now destruct (ffmpeg_on_path w).
Qed.

Lemma init_not_found c w w1 location :
  deref w c !! "ffmpeg_location" = Some location ->
  truthy_json location = false ->
  find_ffmpeg w = (w1, Ret None) ->
  exists w',
    init c w = (w', Raise (Exn FileNotFoundError not_found_message))
    /\ stdout w' = (stdout w1 ++ ffmpeg_instructions)%list
    /\ fs w' = fs w1 /\ defaults w' = defaults w1.
Proof.
  intros Hloc Hfalsy Hfind.
  destruct (print_all_run ffmpeg_instructions w1) as (w' & Hrun & Hout & Hfs & Hdef).
  exists w'. split; [|auto].
  unfold init. unfold bind at 1. unfold config_get at 1. rewrite Hloc, Hfalsy.
  simpl negb. cbv iota. unfold bind at 1. unfold bind at 1. rewrite Hfind.
  unfold bind at 1. unfold print_ffmpeg_instructions. rewrite Hrun. reflexivity.
Qed.

End LocatorFacts.

Section LocatorClaims.
Import Setup Samples.

(** C9.  The specification says the locator returns a directory that
    contains the encoder executable.  On a machine with the encoder on the
    [PATH] (in [C:\tools]) and no configured location, the locator answers
    with the bare command name [ffmpeg], which is no directory that holds
    the executable, while the listed locations are answered as
    directories; the constructor stores the name as the location, and
    [verify_paths], which looks for a path of that name, makes the
    construction fail. *)
Theorem find_ffmpeg_path_hit_is_not_a_directory :
  find_ffmpeg path_world = (path_world, Ret (Some "ffmpeg"))
  /\ ~ has_encoder path_world "ffmpeg"
  /\ ~ locator_returns_directory path_world
  /\ snd (init DefaultsObject path_world)
     = Raise (Exn FileNotFoundError "FFMPEG not found at ffmpeg").
Proof.
  assert (Hno : ~ has_encoder path_world "ffmpeg").
  { intros [x Hx]. vm_compute in Hx. discriminate Hx. }
  split; [reflexivity|]. split; [exact Hno|]. split; [|reflexivity].
  intros H. apply Hno. now apply (H path_world).
Qed.

(** The order of the search and its end.  Given no configured path, the
    locator first probes the [PATH] and, when the probe succeeds, returns
    the command name [ffmpeg]; otherwise it goes through the fixed list of
    locations in order and returns the first that contains [ffmpeg.exe],
    or [None] when none does.  The probe leaves the world as the shell's
    redirection leaves it.  On [None] the construction of the manager
    prints the installation instructions and raises [FileNotFoundError];
    nothing else is changed. *)
Theorem find_ffmpeg_path_then_locations :
  (forall w, ffmpeg_on_path w = true ->
             find_ffmpeg w = (redirected w, Ret (Some "ffmpeg")))
  /\ (forall w,
        ffmpeg_on_path w = false ->
        exists r,
          find_ffmpeg w = (redirected w, Ret r)
          /\ match r with
             | Some d =>
                 exists i, common_locations !! i = Some d
                   /\ has_encoder (redirected w) d
                   /\ forall j d', (j < i)%nat -> common_locations !! j = Some d' ->
                                   ~ has_encoder (redirected w) d'
             | None => forall d, d ∈ common_locations -> ~ has_encoder (redirected w) d
             end)
  /\ (forall c w w1 location,
        deref w c !! "ffmpeg_location" = Some location ->
        truthy_json location = false ->
        find_ffmpeg w = (w1, Ret None) ->
        exists w',
          init c w = (w', Raise (Exn FileNotFoundError not_found_message))
          /\ stdout w' = (stdout w1 ++ ffmpeg_instructions)%list
          /\ fs w' = fs w1 /\ defaults w' = defaults w1).
Proof.
  split; [|split].
  - intros w Hpath. rewrite find_ffmpeg_run. now rewrite Hpath.
  - intros w Hpath. rewrite find_ffmpeg_run. rewrite Hpath.
    apply first_location_run.
  - apply init_not_found.
Qed.

Lemma find_ffmpeg_path_then_locations_witness :
  find_ffmpeg path_world = (path_world, Ret (Some "ffmpeg"))
  /\ (exists w',
        init DefaultsObject bare_world
        = (w', Raise (Exn FileNotFoundError not_found_message))
        /\ stdout w' = ffmpeg_instructions).
Proof.
  pose proof find_ffmpeg_path_then_locations as (Hpath & _ & Hinit).
  split.
  - apply (Hpath path_world). reflexivity.
  - destruct (Hinit DefaultsObject bare_world bare_world (JStr ""))
      as (w' & Hrun & Hout & _); [reflexivity | reflexivity | reflexivity |].
    exists w'. split; assumption.
Defined.

End LocatorClaims.

(** ** C7: a batch on the thread pool *)

Section BatchFacts.
Import Batch.
Variable library : nat -> ydl_options -> string -> ydl_behaviour.
Variable cfg : settings.
Variable k : kwargs.

(** A download always returns a boolean, and which one depends on what
    the library does, not on the state it runs in. *)
Lemma download_returns lib url :
  exists b, forall w, exists w', download lib cfg url k w = (w', Ret b).
Proof.
  unfold download, try_except, bind, print, reset_progress, logging_error, modify, ret.
  generalize (lib (get_download_options cfg url k) url). intros b.
  destruct b as [[ex|] ext fet [cl|]]; simpl.
  - exists false. intros w. destruct (audio_only k); eexists; reflexivity.
  - exists false. intros w. destruct (audio_only k); eexists; reflexivity.
  - exists false. intros w.
    unfold download_inner, try_except, bind, print, modify, ret, raise, reraise.
    destruct ext as [title fmt| |ex]; destruct fet as [|ex'];
      try destruct (is_DownloadError (exn_kind ex)) eqn:?;
      try destruct (is_DownloadError (exn_kind ex')) eqn:?;
      destruct (audio_only k); simpl; rewrite ?Heqb; simpl;
      eexists; reflexivity.
  - unfold download_inner, try_except, bind, print, modify, ret, raise, reraise.
    simpl.
    destruct ext as [title fmt| |ex]; destruct fet as [|ex'];
      try destruct (is_DownloadError (exn_kind ex)) eqn:?;
      try destruct (is_DownloadError (exn_kind ex')) eqn:?;
      simpl;
      try (exists true; intros w; destruct (audio_only k); simpl;
           eexists; reflexivity);
      try (exists false; intros w; destruct (audio_only k); simpl;
           rewrite ?Heqb; eexists; reflexivity).
Qed.

(** After the pool has run the tasks listed in [finished], the future of
    a task holds the boolean its download returns exactly when the task
    is listed and was submitted; all other futures are still pending. *)
Lemma run_pool_futures urls finished w :
  exists w' futures,
    run_pool library cfg k urls finished w = (w', futures)
    /\ forall i,
         (i ∈ finished -> (i < length urls)%nat ->
          exists url b, urls !! i = Some url
            /\ futures !! i = Some (Ret b)
            /\ forall w0, exists w1,
                 download (library i) cfg url k w0 = (w1, Ret b))
         /\ (~ (i ∈ finished /\ (i < length urls)%nat) -> futures !! i = None).
Proof.
  unfold run_pool. induction finished as [|j l IH] using rev_ind.
  - exists w, ∅. split; [reflexivity|]. intros i. split.
    + intros Hi. inversion Hi.
    + intros _. apply lookup_empty.
  - destruct IH as (w1 & fut & Hrun & Hfut).
    rewrite foldl_app. simpl. rewrite Hrun. unfold run_task. simpl.
    destruct (urls !! j) as [url|] eqn:Hj.
    + destruct (download_returns (library j) url) as [b Hb].
      destruct (Hb w1) as [w2 Hdl]. rewrite Hdl.
      exists w2, (<[j := Ret b]> fut). split; [reflexivity|].
      intros i. destruct (decide (i = j)) as [->|Hne].
      * split.
        -- intros _ _. exists url, b. rewrite lookup_insert_eq. auto.
        -- intros Hnot. exfalso. apply Hnot. split.
           ++ apply elem_of_app. right. apply list_elem_of_singleton. reflexivity.
           ++ now apply lookup_lt_Some with url.
      * rewrite lookup_insert_ne by congruence. split.
        -- intros Hi Hlt. apply (Hfut i); [|exact Hlt].
           apply elem_of_app in Hi as [Hi|Hi]; [exact Hi|].
           apply list_elem_of_singleton in Hi. congruence.
        -- intros Hnot. apply (Hfut i). intros [Hi Hlt]. apply Hnot.
           split; [apply elem_of_app; now left | exact Hlt].
    + exists w1, fut. split; [reflexivity|].
      apply lookup_ge_None in Hj.
      intros i. split.
      * intros Hi Hlt. apply (Hfut i); [|exact Hlt].
        apply elem_of_app in Hi as [Hi|Hi]; [exact Hi|].
        apply list_elem_of_singleton in Hi. subst i. lia.
      * intros Hnot. apply (Hfut i). intros [Hi Hlt]. apply Hnot.
        split; [apply elem_of_app; now left | exact Hlt].
Qed.

(** Reading futures that have all finished with a value gives one value
    per position, in the order of the positions. *)
Lemma collect_all (futures : gmap nat (result bool)) positions :
  (forall i, i ∈ positions -> exists b, futures !! i = Some (Ret b)) ->
  exists bs,
    collect futures positions = Some (Ret bs)
    /\ length bs = length positions
    /\ forall n i, positions !! n = Some i ->
                   exists b, bs !! n = Some b /\ futures !! i = Some (Ret b).
Proof.
  induction positions as [|p rest IH]; intros Hall.
  - exists []. split; [reflexivity|]. split; [reflexivity|].
    intros n i Hn. discriminate Hn.
  - destruct (Hall p) as [b Hb]; [apply list_elem_of_here|].
    destruct IH as (bs & Hcol & Hlen & Hnth).
    { intros i Hi. apply Hall. now apply list_elem_of_further. }
    exists (b :: bs). simpl. rewrite Hb, Hcol.
    split; [reflexivity|]. split; [now rewrite Hlen|].
    intros [|n] i Hn.
    + injection Hn as <-. exists b. auto.
    + now apply Hnth.
Qed.
End BatchFacts.

Section BatchClaim.
Import Batch Samples.

(** C7.  For every list of N URLs, [batch_download] produces exactly N
    booleans in the order of the URLs, whatever the library does with each
    request and in whatever order the workers finish: the result at
    position i is the boolean the download of the i-th URL returns.  (The
    pool width is positive, as [ThreadPoolExecutor] requires, and every
    task finishes, once.) *)
Theorem batch_download_results_in_order :
  forall library cfg urls k finished w,
    (0 < max_concurrent cfg)%Z ->
    finished ≡ₚ seq 0 (length urls) ->
    exists w' results,
      batch_download library cfg urls k finished w = (w', Some (Ret results))
      /\ length results = length urls
      /\ forall i url,
           urls !! i = Some url ->
           exists b,
             results !! i = Some b
             /\ forall w0, exists w1,
                  download (library i) cfg url k w0 = (w1, Ret b).
Proof.
  intros library cfg urls k finished w Hwidth Hperm.
  destruct (run_pool_futures library cfg k urls finished w)
    as (w' & futures & Hrun & Hfut).
  assert (Hdone : forall i, i ∈ seq 0 (length urls) ->
            exists url b, urls !! i = Some url
              /\ futures !! i = Some (Ret b)
              /\ forall w0, exists w1,
                   download (library i) cfg url k w0 = (w1, Ret b)).
  { intros i Hi. apply (Hfut i).
    - now rewrite Hperm.
    - apply list_elem_of_In, in_seq in Hi. lia. }
  destruct (collect_all futures (seq 0 (length urls))) as (bs & Hcol & Hlen & Hnth).
  { intros i Hi. destruct (Hdone i Hi) as (url & b & _ & Hb & _). eauto. }
  exists w', bs. unfold batch_download.
  destruct (Z.leb_spec (max_concurrent cfg) 0) as [Hle|_]; [lia|].
  rewrite Hrun, Hcol. split; [reflexivity|].
  split; [now rewrite Hlen, length_seq|].
  intros i url Hurl.
  assert (Hlt : (i < length urls)%nat) by now apply lookup_lt_Some with url.
  destruct (Hnth i i) as (b & Hb & Hfi).
  { now apply lookup_seq_lt. }
  exists b. split; [exact Hb|].
  destruct (Hdone i) as (url' & b' & Hurl' & Hb' & Hdl).
  { apply list_elem_of_In, in_seq. lia. }
  assert (url' = url) as -> by congruence.
  assert (b' = b) as -> by congruence.
  exact Hdl.
Qed.

Lemma batch_download_results_in_order_witness :
  exists w',
    batch_download flaky_library batch_settings ["a"; "b"; "c"] plain_request
      [2; 0; 1]%nat idle
    = (w', Some (Ret [true; false; true])).
Proof.
  destruct (batch_download_results_in_order flaky_library batch_settings
              ["a"; "b"; "c"] plain_request [2; 0; 1]%nat idle)
    as (w' & results & Hrun & Hlen & Hnth).
  - reflexivity.
  - exact (Permutation_cons_append [0; 1]%nat 2%nat).
  - exists w'. rewrite Hrun. vm_compute in Hrun. injection Hrun as _ <-.
    reflexivity.
Defined.

End BatchClaim.

(** * Further properties of the code *)

(** ** Inverting a run of the monad *)

Section MonadInversion.
Context {S A B : Type}.

Lemma bind_ret_inv (c : M S A) (k : A -> M S B) s s' b :
  bind c k s = (s', Ret b) ->
  exists s1 a, c s = (s1, Ret a) /\ k a s1 = (s', Ret b).
Proof.
  unfold bind. destruct (c s) as [s1 [a|ex]]; intros H.
  - exists s1, a. auto.
  - discriminate H.
Qed.

Lemma try_except_ret_inv (c : M S A) (h : exn -> M S A) s s' a :
  try_except c h s = (s', Ret a) ->
  c s = (s', Ret a) \/ exists s1 ex, c s = (s1, Raise ex) /\ h ex s1 = (s', Ret a).
Proof.
  unfold try_except. destruct (c s) as [s1 [a1|ex]]; intros H.
  - left. exact H.
  - right. exists s1, ex. auto.
Qed.
End MonadInversion.

(** ** What [verify_audio_file] answers and what it writes *)

Section VerifyMore.
Import Flac Samples.

(** On a tagged FLAC file the method answers [False] exactly for the files
    the three checks reject, with one line in the log, and [None] for the
    others; the file system is not touched. *)
Theorem verify_audio_file_False_iff_rejected :
  forall p w n a,
    Str.endswith ".flac" (Str.lower p) = true ->
    fs w !! p = Some (File {| size := n; body := Media a |}) ->
    is_flac a = true ->
    tags_falsy (tags a) = false ->
    exists w',
      verify_audio_file p w
      = (w', Ret (if accepted_by_spec w p then PyNone else PyBool false))
      /\ fs w' = fs w /\ stdout w' = stdout w
      /\ (accepted_by_spec w p = true -> w' = w)
      /\ (accepted_by_spec w p = false ->
          exists line, log w' = (log w ++ [line])%list).
Proof.
  intros p w n a Hname Hp Hflac Htags.
  unfold accepted_by_spec. rewrite Hp.
  unfold verify_audio_file, try_except. rewrite Hname.
  unfold bind, FLAC, os_path_getsize, ret, logging_error, modify.
  rewrite Hp, Hflac, Htags.
  generalize (in_tuple (channels (info a)) [1; 2]).
  generalize (in_tuple (sample_rate (info a)) [44100; 48000; 96000]).
  intros sr ch. destruct ch; cbn [negb andb].
  2:{ eexists. split; [reflexivity|]. cbn [fs stdout log].
      repeat split; eauto. discriminate. }
  destruct sr; cbn [negb andb].
  2:{ eexists. split; [reflexivity|]. cbn [fs stdout log].
      repeat split; eauto. discriminate. }
  rewrite Hp. cbn [size].
  destruct (Z.ltb_spec n (1024 * 100)) as [Hlt|Hge];
    destruct (Z.leb_spec (100 * 1024) n) as [Hle|Hgt]; try lia.
  - eexists. split; [reflexivity|]. repeat split; eauto. discriminate.
  - eexists. split; [reflexivity|]. cbn [fs stdout log].
    repeat split; eauto. discriminate.
Qed.

Lemma verify_audio_file_False_iff_rejected_witness :
  exists w',
    verify_audio_file "small.flac"
      (world_of {[ "small.flac" :=
                     File {| size := 4096;
                             body := Media {| is_flac := true; info := stereo48 five;
                                              tags := Some titled |} |} ]})
    = (w', Ret (PyBool false)).
Proof.
  destruct (verify_audio_file_False_iff_rejected
              "small.flac"
              (world_of {[ "small.flac" :=
                     File {| size := 4096;
                             body := Media {| is_flac := true; info := stereo48 five;
                                              tags := Some titled |} |} ]})
              4096
              {| is_flac := true; info := stereo48 five; tags := Some titled |})
    as (w' & Hrun & _); [reflexivity | reflexivity | reflexivity | reflexivity |].
  exists w'. exact Hrun.
Defined.

(** Verification never writes: whatever the path holds, the file system
    is the same after the call.  In particular a FLAC file without tags
    is not given a tag block: line 208 raises [AttributeError], the call
    writes one line to the log and answers [False], whatever the stream
    properties of the file are. *)
Theorem verify_audio_file_never_initialises_tags :
  (forall p w, fs (fst (verify_audio_file p w)) = fs w)
  /\ (forall p w n a,
        Str.endswith ".flac" (Str.lower p) = true ->
        fs w !! p = Some (File {| size := n; body := Media a |}) ->
        is_flac a = true ->
        tags_falsy (tags a) = true ->
        verify_audio_file p w
        = (fst (logging_error
                  ("Error verifying audio file " +:+ p +:+ ": "
                   +:+ "module 'mutagen.flac' has no attribute 'VorbisComment'") w),
           Ret (PyBool false))).
Proof.
  split.
  - intros p w.
    destruct (verify_audio_file_run p w) as (w' & v & Hrun & _ & Hfs & _).
    now rewrite Hrun.
  - apply verify_audio_file_untagged.
Qed.

Lemma verify_audio_file_never_initialises_tags_witness :
  let bare := {| is_flac := true; info := stereo48 five; tags := None |} in
  let w := world_of {[ "bare.flac" := File {| size := 2 * 1024 * 1024;
                                              body := Media bare |} ]} in
  accepted_by_spec w "bare.flac" = true
  /\ snd (verify_audio_file "bare.flac" w) = Ret (PyBool false)
  /\ fs (fst (verify_audio_file "bare.flac" w)) = fs w.
Proof.
  intros bare w.
  pose proof verify_audio_file_never_initialises_tags as [Hfs Hbare].
  split; [reflexivity|]. split; [|apply Hfs].
  rewrite (Hbare "bare.flac" w (2 * 1024 * 1024)%Z bare);
    reflexivity.
Defined.

(** A path with a [.flac] name that cannot be read as FLAC (missing, a
    directory, or other content) is answered with [False] and one line in
    the log that names the path; nothing else changes. *)
Theorem verify_audio_file_unreadable_is_False :
  forall p w,
    Str.endswith ".flac" (Str.lower p) = true ->
    (forall n a, fs w !! p = Some (File {| size := n; body := Media a |}) ->
                 is_flac a = false) ->
    exists msg,
      verify_audio_file p w
      = (fst (logging_error ("Error verifying audio file " +:+ p +:+ ": " +:+ msg) w),
         Ret (PyBool false)).
Proof.
  intros p w Hname Hbad. unfold verify_audio_file, try_except. rewrite Hname.
  unfold bind at 1. unfold FLAC at 1.
  destruct (fs w !! p) as [[[n [a|]]|]|] eqn:Hp;
    try (eexists; reflexivity).
  rewrite (Hbad n a eq_refl). eexists. reflexivity.
Qed.

Lemma verify_audio_file_unreadable_is_False_witness :
  exists msg,
    verify_audio_file "gone.flac" empty_world
    = (fst (logging_error ("Error verifying audio file gone.flac: " +:+ msg)
              empty_world),
       Ret (PyBool false)).
Proof.
  apply (verify_audio_file_unreadable_is_False "gone.flac" empty_world).
  - reflexivity.
  - intros n a H. discriminate H.
Defined.

End VerifyMore.

(** ** More on the progress monitor *)

Section MonitorMore.
Import Flac Samples.

Lemma computed_progress_at_most_100 orig line p :
  computed_progress orig line = Ret p -> (p <= 100)%Z.
Proof.
  unfold computed_progress.
  destruct (Str.split "=" line !! 1%nat) as [piece|]; [|discriminate].
  destruct (Str.py_int piece) as [t|]; [|discriminate].
  destruct (Double.int_true_div t 1000) as [seconds|]; [|discriminate].
  cbn [and_then].
  destruct (length_of orig) as [length|]; [|discriminate]. cbn [and_then].
  destruct (Double.float_div seconds length) as [share|]; [|discriminate].
  cbn [and_then].
  destruct (Double.to_int (Double.mul share Double.hundred)) as [percent|];
    [|discriminate].
  cbn [and_then]. intros [= <-]. apply Z.le_min_r.
Qed.

Lemma int_true_div_1000_raises t ex :
  Double.int_true_div t 1000 = Raise ex ->
  ex = Exn OverflowError "integer division result too large for a float".
Proof.
  unfold Double.int_true_div. cbn [Z.eqb].
  destruct (t =? 0)%Z; [discriminate|].
  destruct (Double.is_infinite _); [|discriminate].
  now intros [= <-].
Qed.

Example beyond_float_range_sample :
  beyond_float_range (10 ^ 400) = true /\ beyond_float_range (10 ^ 300) = false.
Proof. split; vm_compute; reflexivity. Qed.

(** The bar is created with a total of 100: whatever the subprocess
    prints, the value displayed never exceeds 100, so the updates sent to
    a bar that stands at [last] add up to at most [100 - last]. *)
Theorem monitor_never_exceeds_100 :
  forall orig lines last w,
    (last <= 100)%Z ->
    exists w' r ups,
      monitor orig lines last w = (w', r)
      /\ bar w' = (bar w ++ map BarUpdate ups)%list
      /\ (last + foldr Z.add 0 ups <= 100)%Z
      /\ (forall final, r = Ret final -> (final <= 100)%Z).
Proof.
  intros orig lines. induction lines as [|line rest IH]; intros last w Hlast.
  - exists w, (Ret last), []. simpl. rewrite app_nil_r.
    repeat split; [lia|]. intros final [= <-]. exact Hlast.
  - destruct (Str.contains "out_time_ms=" line) eqn:Hm.
    2:{ rewrite monitor_no_marker by assumption. now apply IH. }
    destruct (computed_progress orig line) as [p|ex] eqn:Hc.
    + pose proof (computed_progress_at_most_100 _ _ _ Hc) as Hp.
      destruct (Z.lt_ge_cases last p) as [Hlt|Hge].
      * rewrite (monitor_above _ _ _ _ _ p) by assumption.
        destruct (IH p (updated (p - last) w) Hp)
          as (w' & r & ups & Hrun & Hbar & Hsum & Hfin).
        exists w', r, ((p - last)%Z :: ups). split; [exact Hrun|].
        split; [rewrite Hbar; simpl; now rewrite <- app_assoc|].
        split; [simpl; lia | exact Hfin].
      * rewrite (monitor_not_above _ _ _ _ _ p) by (assumption || lia).
        now apply IH.
    + destruct (value_or_attribute_error (exn_kind ex)) eqn:Hk.
      * rewrite (monitor_caught _ _ _ _ _ ex) by assumption. now apply IH.
      * rewrite (monitor_uncaught _ _ _ _ _ ex) by assumption.
        exists w, (Raise ex), []. simpl. rewrite app_nil_r.
        repeat split; [lia|]. intros final [=].
Qed.

Lemma monitor_never_exceeds_100_witness :
  exists w' r ups,
    monitor (Some plain_wav_audio)
      ["out_time_ms=2500"; "out_time_ms=99000"] 0 empty_world = (w', r)
    /\ bar w' = (bar empty_world ++ map BarUpdate ups)%list
    /\ (0 + foldr Z.add 0 ups <= 100)%Z.
Proof.
  destruct (monitor_never_exceeds_100
              (Some plain_wav_audio)
              ["out_time_ms=2500"; "out_time_ms=99000"] 0 empty_world)
    as (w' & r & ups & Hrun & Hbar & Hsum & _); [lia|].
  exists w', r, ups. auto.
Defined.

(** When mutagen does not recognise the input ([mutagen.File] gave
    [None]) the bar never moves.  A marker line whose number has a float
    as its thousandth ends in [AttributeError], which the inner handler
    catches, as it catches the [ValueError] of an unreadable number; the
    first marker line whose number is beyond the float range ends the loop
    with [OverflowError] at [time_ms / 1000], which it does not catch. *)
Theorem monitor_without_original_never_updates :
  forall lines last w,
    monitor None lines last w
    = (w, if existsb (fun line =>
                        from_option beyond_float_range false (time_ms_of line))
                     lines
          then Raise (Exn OverflowError
                        "integer division result too large for a float")
          else Ret last).
Proof.
  induction lines as [|line rest IH]; intros last w; [reflexivity|].
  cbn [existsb]. unfold time_ms_of at 1.
  destruct (Str.contains "out_time_ms=" line) eqn:Hm.
  2:{ cbn [from_option orb]. rewrite monitor_no_marker by assumption. apply IH. }
  destruct (marker_line_has_value line Hm) as [piece Hpiece].
  rewrite Hpiece. cbn [mbind option_bind].
  destruct (Str.py_int piece) as [t|] eqn:Hint; cbn [from_option].
  - unfold beyond_float_range at 1.
    destruct (Double.int_true_div t 1000) as [seconds|ex] eqn:Hdiv; cbn [orb].
    + rewrite (monitor_caught None line rest last w
                 (Exn AttributeError "'NoneType' object has no attribute 'info'")).
      * apply IH.
      * unfold computed_progress. now rewrite Hpiece, Hint, Hdiv.
      * reflexivity.
    + pose proof (int_true_div_1000_raises _ _ Hdiv) as ->.
      apply monitor_uncaught; [assumption | | reflexivity].
      unfold computed_progress. now rewrite Hpiece, Hint, Hdiv.
  - cbn [orb].
    rewrite (monitor_caught None line rest last w
               (Exn ValueError
                  ("invalid literal for int() with base 10: " +:+ piece))).
    + apply IH.
    + unfold computed_progress. now rewrite Hpiece, Hint.
    + reflexivity.
Qed.

(** An input of duration zero: the first marker line with a readable
    number ends the loop with an error the inner handler does not catch,
    [OverflowError] when the number is beyond the float range and
    [ZeroDivisionError] otherwise.  The loop never updates the bar; it
    ends normally only when no line carries a readable number. *)
Theorem monitor_zero_length_divides_by_zero :
  forall a lines last w,
    Double.is_zero (info_length (info a)) = true ->
    monitor (Some a) lines last w
    = (w, match head (omap time_ms_of lines) with
          | Some time_ms =>
              Raise (if beyond_float_range time_ms
                     then Exn OverflowError
                            "integer division result too large for a float"
                     else Exn ZeroDivisionError "float division by zero")
          | None => Ret last
          end).
Proof.
  intros a lines last w Hzero. induction lines as [|line rest IH]; [reflexivity|].
  cbn [omap list_omap]. unfold time_ms_of at 1.
  destruct (Str.contains "out_time_ms=" line) eqn:Hm.
  2:{ rewrite monitor_no_marker by assumption. exact IH. }
  destruct (marker_line_has_value line Hm) as [piece Hpiece].
  rewrite Hpiece. cbn [mbind option_bind].
  destruct (Str.py_int piece) as [t|] eqn:Hint.
  - cbn [head]. unfold beyond_float_range.
    destruct (Double.int_true_div t 1000) as [seconds|ex] eqn:Hdiv.
    + apply monitor_uncaught; [assumption | | reflexivity].
      unfold computed_progress. rewrite Hpiece, Hint, Hdiv.
      cbn [and_then length_of]. unfold Double.float_div. now rewrite Hzero.
    + pose proof (int_true_div_1000_raises _ _ Hdiv) as ->.
      apply monitor_uncaught; [assumption | | reflexivity].
      unfold computed_progress. now rewrite Hpiece, Hint, Hdiv.
  - rewrite (monitor_caught (Some a) line rest last w
               (Exn ValueError
                  ("invalid literal for int() with base 10: " +:+ piece)));
      [exact IH | | reflexivity].
    unfold computed_progress. now rewrite Hpiece, Hint.
Qed.

Lemma monitor_zero_length_divides_by_zero_witness :
  monitor (Some {| is_flac := false; info := stereo48 Double.zero; tags := None |})
    ["progress=continue"; "out_time_ms=N/A"; "out_time_ms=0"] 0 empty_world
  = (empty_world, Raise (Exn ZeroDivisionError "float division by zero")).
Proof.
  apply (monitor_zero_length_divides_by_zero
           {| is_flac := false; info := stereo48 Double.zero; tags := None |}
           ["progress=continue"; "out_time_ms=N/A"; "out_time_ms=0"]
           0 empty_world).
  reflexivity.
Defined.

End MonitorMore.

(** ** What a successful conversion implies *)

Section TagCopy.
Import Flac.

Lemma lower_char_idem c : Str.lower_char (Str.lower_char c) = Str.lower_char c.
Proof. destruct c as [[] [] [] [] [] [] [] []]; reflexivity. Qed.

Lemma lower_idem s : Str.lower (Str.lower s) = Str.lower s.
Proof.
  induction s as [|c s IH]; [reflexivity|].
  cbn [Str.lower]. now rewrite lower_char_idem, IH.
Qed.

Lemma copy_items_app l1 l2 c :
  copy_items (l1 ++ l2)%list c = and_then (copy_items l1 c) (copy_items l2).
Proof.
  revert c. induction l1 as [|[key value] l1 IH]; intros c; [reflexivity|].
  cbn [app copy_items]. destruct (vorbis_set key value c); [apply IH | reflexivity].
Qed.

Lemma copy_items_valid_keys items : forall c c',
  copy_items items c = Ret c' ->
  Forall (fun item => is_valid_key (fst item) = true) items.
Proof.
  induction items as [|[key value] rest IH]; intros c c' H; [constructor|].
  cbn [copy_items] in H. unfold vorbis_set in H.
  destruct (is_valid_key key) eqn:Hkey; [|discriminate H].
  cbn [and_then] in H. constructor; [exact Hkey | eapply IH, H].
Qed.

Lemma copy_items_keeps item items : forall c c',
  Forall (fun other => same_key (fst other) (fst item) = false) items ->
  fst item = Str.lower (fst item) ->
  In item c ->
  copy_items items c = Ret c' ->
  In item c'.
Proof.
  induction items as [|[key value] rest IH]; intros c c' Hother Hlow Hin H.
  - now injection H as <-.
  - cbn [copy_items] in H. unfold vorbis_set in H.
    destruct (is_valid_key key); [|discriminate H]. cbn [and_then] in H.
    inversion Hother as [|? ? Hkey Hrest]; subst.
    eapply IH; [exact Hrest | exact Hlow | | exact H].
    apply in_or_app. left. apply filter_In. split; [exact Hin|].
    cbn [fst] in Hkey. unfold same_key in *.
    rewrite String.eqb_sym. now rewrite Hkey.
Qed.

(** The item written last under a key is in the comment when the loop
    ends. *)
Lemma copy_items_last before key value after c c' :
  copy_items (before ++ (key, value) :: after)%list c = Ret c' ->
  Forall (fun other => same_key (fst other) key = false) after ->
  value <> Texts [] ->
  In (Str.lower key, value) c'.
Proof.
  intros H Hafter Hvalue. rewrite copy_items_app in H.
  destruct (copy_items before c) as [c1|]; [|discriminate H].
  cbn [and_then copy_items] in H. unfold vorbis_set in H.
  destruct (is_valid_key key); [|discriminate H]. cbn [and_then] in H.
  eapply (copy_items_keeps (Str.lower key, value)); [| | | exact H].
  - eapply Forall_impl; [exact Hafter|]. intros other Hother. cbn [fst].
    unfold same_key in *. now rewrite lower_idem.
  - cbn [fst]. now rewrite lower_idem.
  - apply in_or_app. right. destruct value as [[|v vs]|refusal];
      [now destruct Hvalue | now left | now left].
Qed.

End TagCopy.

Section ConvertMore.
Import Flac Samples.
Variable e : env.
Variable ffmpeg_location : string.
Variable verify : string -> M world pyval.

Lemma convert_to_flac_with_True_inv input output w w' :
  convert_to_flac_with e ffmpeg_location verify input output w
  = (w', Ret (PyBool true)) ->
  convert_body e ffmpeg_location verify input output w = (w', Ret (PyBool true)).
Proof.
  intros H. apply try_except_ret_inv in H as [H | (w1 & ex & _ & H)]; [exact H|].
  apply convert_failed_not_True in H. discriminate H.
Qed.

Lemma convert_compare_inv input output w w' v :
  convert_compare input output w = (w', Ret v) ->
  w' = w /\ v = PyBool true
  /\ exists a_in a_out,
       mutagen_File input w = (w, Ret (Some a_in))
       /\ mutagen_File output w = (w, Ret (Some a_out))
       /\ differ (info_length (info a_in)) (info_length (info a_out)) = false.
Proof.
  unfold convert_compare, bind, mutagen_File, attr_info, ret, raise.
  destruct (fs w !! input) as [[[n [a|]]|]|]; try discriminate.
  destruct (fs w !! output) as [[[k [b|]]|]|]; try discriminate.
  destruct (differ _ _) eqn:Hgt; [discriminate|].
  intros [= <- <-]. repeat split. exists a, b. auto.
Qed.

Lemma convert_encode_inv orig input output w w' :
  convert_encode e ffmpeg_location orig input output w = (w', Ret tt) ->
  exists lines err written,
    encoder e = Runs lines 0 err written
    /\ fs w' = encoder_writes output written (fs w).
Proof.
  destruct (encoder e) as [msg|lines rc err written] eqn:Henc.
  - unfold convert_encode, Popen. rewrite Henc.
    unfold bind, bar_emit, modify, raise. discriminate.
  - destruct (convert_encode_run e ffmpeg_location orig input output
                lines rc err written w Henc)
      as (w2 & r & Hrun & Hfs & _ & Hraise).
    rewrite Hrun. intros [= <- ->].
    destruct (Z.eq_dec rc 0) as [->|Hrc].
    + exists lines, err, written. auto.
    + destruct (Hraise Hrc) as [ex Hex]. discriminate Hex.
Qed.

Lemma convert_check_output_inv orig output w w' :
  convert_check_output e verify orig output w = (w', Ret tt) ->
  exists w1 v,
    verify output w = (w1, Ret v) /\ truthy v = true
    /\ match has_tags orig with
       | None => w' = w1
       | Some t =>
           exists f b comment,
             fs w1 !! output = Some (File {| size := size f; body := Media b |})
             /\ is_flac b = true
             /\ copy_items t (default [] (tags b)) = Ret comment
             /\ refused comment = None
             /\ fs w' = <[output := File {| size := saved_size e (size f);
                                            body := Media (with_tags b comment) |}]>
                          (fs w1)
       end.
Proof.
  unfold convert_check_output. intros H.
  apply bind_ret_inv in H as (w1 & v & Hv & H).
  exists w1, v. split; [exact Hv|].
  destruct (truthy v); [|discriminate H]. split; [reflexivity|].
  cbn [negb] in H. destruct (has_tags orig) as [t|].
  - apply bind_ret_inv in H as (w2 & b & Hb & H).
    unfold FLAC in Hb.
    destruct (fs w1 !! output) as [[[n [b'|]]|]|] eqn:Hout; try discriminate Hb.
    destruct (is_flac b') eqn:Hflac; [|discriminate Hb].
    injection Hb as <- <-.
    apply bind_ret_inv in H as (w3 & comment & Hcopy & H).
    unfold lift in Hcopy. injection Hcopy as <- Hcopy.
    unfold save in H. destruct (save_fails e); [discriminate H|].
    rewrite Hout in H. cbn [with_tags tags from_option id] in H.
    destruct (refused comment) eqn:Hrefused; [discriminate H|].
    injection H as <-.
    exists {| size := n; body := Media b' |}, b', comment. auto 10.
  - unfold ret in H. now injection H as <-.
Qed.

(** A call that returns [True] has run the encoder to a return code of
    zero and ends in a world in which both files can be read and their
    durations do not differ by more than a tenth of a second. *)
Theorem convert_to_flac_True_implies_checks :
  forall input_file output_file w w',
    convert_to_flac_with e ffmpeg_location verify input_file output_file w
    = (w', Ret (PyBool true)) ->
    (exists lines stderr written, encoder e = Runs lines 0 stderr written)
    /\ exists a_in a_out,
         mutagen_File input_file w' = (w', Ret (Some a_in))
         /\ mutagen_File output_file w' = (w', Ret (Some a_out))
         /\ differ (info_length (info a_in)) (info_length (info a_out)) = false.
Proof.
  intros input output w w' H.
  apply convert_to_flac_with_True_inv in H. unfold convert_body in H.
  apply bind_ret_inv in H as (w0 & [] & Hpre & Hcmp).
  apply convert_compare_inv in Hcmp as (-> & _ & a_in & a_out & Hin & Hout & Hgt).
  split.
  - unfold convert_until_compare in Hpre.
    apply bind_ret_inv in Hpre as (w1 & orig & _ & Hpre).
    apply bind_ret_inv in Hpre as (w2 & [] & Henc & _).
    apply convert_encode_inv in Henc as (lines & err & written & Henc & _).
    eauto.
  - exists a_in, a_out. auto.
Qed.

(** Metadata carry-over: when the input had tags and the call returns
    [True], every key of the input was one a Vorbis comment takes, and the
    output is a FLAC file whose comment holds text values only and, for
    every key of the input, the values the input gave it last, under the
    key in lower case. *)
Theorem convert_to_flac_True_carries_tags :
  forall input_file output_file w w1 w' a t,
    convert_prepare verify input_file w = (w1, Ret (Some a)) ->
    has_tags (Some a) = Some t ->
    convert_to_flac_with e ffmpeg_location verify input_file output_file w
    = (w', Ret (PyBool true)) ->
    exists n b comment,
      fs w' !! output_file = Some (File {| size := n; body := Media b |})
      /\ is_flac b = true
      /\ tags b = Some comment
      /\ refused comment = None
      /\ Forall (fun item => is_valid_key (fst item) = true) t
      /\ forall before key value after,
           t = (before ++ (key, value) :: after)%list ->
           Forall (fun other => same_key (fst other) key = false) after ->
           value <> Texts [] ->
           In (Str.lower key, value) comment.
Proof.
  intros input output w w1 w' a t Hprep Hhas H.
  apply convert_to_flac_with_True_inv in H. unfold convert_body in H.
  apply bind_ret_inv in H as (w0 & [] & Hpre & Hcmp).
  apply convert_compare_inv in Hcmp as (-> & _).
  unfold convert_until_compare in Hpre.
  apply bind_ret_inv in Hpre as (w1' & orig & Hprep' & Hpre).
  rewrite Hprep in Hprep'. injection Hprep' as <- <-.
  apply bind_ret_inv in Hpre as (w2 & [] & _ & Hchk).
  apply convert_check_output_inv in Hchk as (w3 & v & _ & _ & Hcopy).
  rewrite Hhas in Hcopy.
  destruct Hcopy as (f & b & comment & _ & Hflac & Hitems & Hrefused & Hfs).
  exists (saved_size e (size f)), (with_tags b comment), comment.
  split; [rewrite Hfs; apply lookup_insert_eq|].
  split; [exact Hflac|]. split; [reflexivity|]. split; [exact Hrefused|].
  split; [eapply copy_items_valid_keys, Hitems|].
  intros before key value after -> Hafter Hvalue.
  eapply copy_items_last; eassumption.
Qed.

End ConvertMore.

Section ConvertMoreWitnesses.
Import Flac Samples.

Lemma convert_to_flac_True_implies_checks_witness :
  let w' := fst (convert_to_flac_with (quiet_env (encoder_ok encoded_flac))
                   "/usr/bin" verify_as_specified "song.wav" "out.flac"
                   wav_world) in
  exists a_in a_out,
    mutagen_File "song.wav" w' = (w', Ret (Some a_in))
    /\ mutagen_File "out.flac" w' = (w', Ret (Some a_out))
    /\ differ (info_length (info a_in)) (info_length (info a_out)) = false.
Proof.
  intros w'.
  destruct (convert_to_flac_True_implies_checks
              (quiet_env (encoder_ok encoded_flac)) "/usr/bin" verify_as_specified
              "song.wav" "out.flac" wav_world w')
    as [_ Hfiles]; [vm_compute; reflexivity | exact Hfiles].
Defined.

Lemma convert_to_flac_True_carries_tags_witness :
  exists n b comment,
    fs (fst (convert_to_flac_with (quiet_env (encoder_ok encoded_flac))
               "/usr/bin" verify_as_specified "song.ogg" "out.flac" ogg_world))
       !! "out.flac"
    = Some (File {| size := n; body := Media b |})
    /\ tags b = Some comment
    /\ In ("title", Texts ["Example"]) comment.
Proof.
  destruct (convert_to_flac_True_carries_tags
              (quiet_env (encoder_ok encoded_flac)) "/usr/bin" verify_as_specified
              "song.ogg" "out.flac" ogg_world ogg_world
              (fst (convert_to_flac_with (quiet_env (encoder_ok encoded_flac))
                      "/usr/bin" verify_as_specified "song.ogg" "out.flac"
                      ogg_world))
              ogg_audio titled)
    as (n & b & comment & Hfile & _ & Htags & _ & _ & Hkeys).
  - reflexivity.
  - reflexivity.
  - vm_compute. reflexivity.
  - exists n, b, comment. split; [exact Hfile|]. split; [exact Htags|].
    apply (Hkeys [] "title" (Texts ["Example"]) []);
      [reflexivity | constructor | discriminate].
Defined.

End ConvertMoreWitnesses.

(** ** More on the configuration and on the construction of the manager *)

Section SetupMore.
Import Setup Samples.

(** Round trip: the file written for a missing configuration reads back as
    the defaults.  The second call returns a dictionary of its own with
    the content of the defaults and changes nothing. *)
Theorem load_config_reads_back_what_it_wrote :
  forall w,
    fs w !! CONFIG_FILE = None ->
    exists w1,
      load_config w = (w1, Ret DefaultsObject)
      /\ load_config w1 = (w1, Ret (Fresh (defaults w))).
Proof.
  intros w Hnone. eexists. split; [now apply load_config_missing|].
  erewrite load_config_object by (cbn [fs with_fs]; apply lookup_insert_eq).
  cbn [defaults with_fs]. now rewrite (idemp (∪) (defaults w)).
Qed.

Lemma load_config_reads_back_what_it_wrote_witness :
  exists w1,
    load_config bare_world = (w1, Ret DefaultsObject)
    /\ load_config w1 = (w1, Ret (Fresh (DEFAULT_CONFIG "\" "C:\Users\me"))).
Proof.
  apply (load_config_reads_back_what_it_wrote bare_world). reflexivity.
Defined.

(** Only the missing file is recovered from: when the configuration path
    is a directory, or holds JSON that is not an object, the error leaves
    [load_config] and nothing is written. *)
Theorem load_config_other_errors_propagate :
  forall w,
    (fs w !! CONFIG_FILE = Some Dir
     \/ exists j, fs w !! CONFIG_FILE = Some (File (Json j))
                  /\ forall o, j <> JObj o) ->
    exists ex,
      load_config w = (w, Raise ex)
      /\ (exn_kind ex = OSError \/ exn_kind ex = TypeError).
Proof.
  intros w [Hdir | (j & Hfile & Hj)];
    unfold load_config, try_except_only, bind, open_read, get.
  - rewrite Hdir. eexists. split; [reflexivity | now left].
  - rewrite Hfile. cbn [json_load ret].
    destruct j; try (eexists; split; [reflexivity | now right]).
    now destruct (Hj o).
Qed.

Lemma load_config_other_errors_propagate_witness :
  exists ex,
    load_config (configured_world (Json (JArr [])))
    = (configured_world (Json (JArr [])), Raise ex).
Proof.
  destruct (load_config_other_errors_propagate (configured_world (Json (JArr []))))
    as (ex & Hrun & _).
  - right. exists (JArr []). split; [reflexivity | discriminate].
  - exists ex. exact Hrun.
Defined.

(** Whatever [load_config] returns has every key of the defaults, so the
    lookups of [ffmpeg_location], [video_output] and [audio_output] in the
    manager cannot fail on it; keys that only the file has are kept. *)
Theorem load_config_result_has_default_keys :
  forall w w' c,
    load_config w = (w', Ret c) ->
    defaults w' = defaults w
    /\ (forall key, is_Some (defaults w !! key) -> is_Some (deref w' c !! key))
    /\ (forall o key v,
          fs w !! CONFIG_FILE = Some (File (Json (JObj o))) ->
          o !! key = Some v -> deref w' c !! key = Some v).
Proof.
  intros w w' c. destruct (fs w !! CONFIG_FILE) as [[[j|]|]|] eqn:Hfile.
  - destruct j as [| | | | |o];
      try (unfold load_config, try_except_only, bind, open_read, get;
           rewrite Hfile; discriminate).
    rewrite (load_config_object w o Hfile). intros [= <- <-].
    split; [reflexivity|]. cbn [deref]. split.
    + intros key [x Hx]. rewrite lookup_union.
      rewrite Hx. destruct (o !! key); eauto.
    + intros o' key v [= <-] Hkey. now apply lookup_union_Some_l.
  - unfold load_config, try_except_only, bind, open_read, get.
    rewrite Hfile. discriminate.
  - unfold load_config, try_except_only, bind, open_read, get.
    rewrite Hfile. discriminate.
  - rewrite (load_config_missing w Hfile). intros [= <- <-].
    split; [reflexivity|]. split; [auto|]. intros o key v Habs. discriminate Habs.
Qed.

Lemma load_config_result_has_default_keys_witness :
  is_Some (deref (fst (load_config (configured_world (Json (JObj width_five)))))
             (Fresh (width_five ∪ DEFAULT_CONFIG "\" "C:\Users\me"))
           !! "video_output").
Proof.
  destruct (load_config_result_has_default_keys
              (configured_world (Json (JObj width_five)))
              (fst (load_config (configured_world (Json (JObj width_five)))))
              (Fresh (width_five ∪ DEFAULT_CONFIG "\" "C:\Users\me")))
    as (_ & Hkeys & _); [reflexivity|].
  apply Hkeys. eexists. reflexivity.
Defined.

End SetupMore.

Section InitFacts.
Import Setup SetupNotions.

Lemma setup_logging_inv w w' :
  setup_logging w = (w', Ret tt) ->
  defaults w' = defaults w /\ stdout w' = stdout w /\ sep w' = sep w
  /\ ffmpeg_on_path w' = ffmpeg_on_path w
  /\ keeps (fs w) (fs w')
  /\ (forall p, p <> "download_log.txt" -> fs w' !! p = fs w !! p)
  /\ open_fds w ⊆ open_fds w'.
Proof.
  unfold setup_logging.
  destruct (fs w !! "download_log.txt") as [[t|]|] eqn:Hlog; intros [= <-].
  - unfold keeps. cbn. repeat split; auto. set_solver.
  - cbn. repeat split; try reflexivity.
    + intros p x Hp. rewrite lookup_insert_ne; [exact Hp | congruence].
    + intros p Hp. now apply lookup_insert_ne.
    + set_solver.
Qed.

Lemma os_makedirs_inv p w w' :
  os_makedirs p w = (w', Ret tt) ->
  defaults w' = defaults w /\ stdout w' = stdout w
  /\ open_fds w' = open_fds w
  /\ fs w' !! p = Some Dir
  /\ keeps (fs w) (fs w').
Proof.
  unfold os_makedirs. destruct (String.eqb p ""); [discriminate|].
  destruct (fs w !! p) as [[t|]|] eqn:Hp; intros [= <-].
  - unfold keeps. auto.
  - cbn. repeat split; [apply lookup_insert_eq|].
    intros q x Hq. rewrite lookup_insert_ne; [exact Hq | congruence].
Qed.

Lemma as_path_inv j w w' s :
  as_path j w = (w', Ret s) -> w' = w /\ j = JStr s.
Proof. destruct j; cbn; intros [=]; subst; auto. Qed.

Lemma config_get_inv c key w w' v :
  config_get c key w = (w', Ret v) -> w' = w /\ deref w c !! key = Some v.
Proof.
  unfold config_get. destruct (deref w c !! key); intros [=]; subst; auto.
Qed.

Lemma fd_exists_inv n w w' b :
  fd_exists n w = (w', Ret b) -> w' = w /\ b = bool_decide (n ∈ open_fds w).
Proof.
  unfold fd_exists. destruct (n <? - 2 ^ 31)%Z; [discriminate|].
  destruct (2 ^ 31 <=? n)%Z; [discriminate|]. now intros [= <- <-].
Qed.

Lemma exists_value_inv v w w' b :
  exists_value v w = (w', Ret b) -> w' = w.
Proof.
  destruct v; cbn; try discriminate.
  - intros H. now apply fd_exists_inv in H.
  - intros H. now apply fd_exists_inv in H.
  - now intros [= <- _].
Qed.

(** What exists stays: later steps only add paths and descriptors. *)
Lemma exists_value_later v w w' :
  exists_value v w = (w, Ret true) ->
  keeps (fs w) (fs w') ->
  open_fds w ⊆ open_fds w' ->
  exists_value v w' = (w', Ret true).
Proof.
  intros H Hkeep Hfds.
  assert (Hfd : forall n, fd_exists n w = (w, Ret true) ->
                          fd_exists n w' = (w', Ret true)).
  { intros n. unfold fd_exists. destruct (n <? - 2 ^ 31)%Z; [discriminate|].
    destruct (2 ^ 31 <=? n)%Z; [discriminate|]. intros [= Hn].
    apply bool_decide_eq_true in Hn.
    rewrite bool_decide_eq_true_2 by set_solver. reflexivity. }
  destruct v; cbn in *; try discriminate H; auto.
  unfold os_path_exists in *. injection H as H.
  apply bool_decide_eq_true in H as [x Hx].
  rewrite bool_decide_eq_true_2; [reflexivity|]. exists x. now apply Hkeep.
Qed.

(** What a successful [verify_paths] has established. *)
Lemma verify_paths_inv c w w' :
  verify_paths c w = (w', Ret tt) ->
  defaults w' = defaults w /\ stdout w' = stdout w
  /\ open_fds w' = open_fds w
  /\ keeps (fs w) (fs w')
  /\ exists location video audio,
       deref w c !! "ffmpeg_location" = Some location
       /\ exists_value location w = (w, Ret true)
       /\ deref w c !! "video_output" = Some (JStr video)
       /\ deref w c !! "audio_output" = Some (JStr audio)
       /\ fs w' !! video = Some Dir /\ fs w' !! audio = Some Dir.
Proof.
  unfold verify_paths. intros H.
  apply bind_ret_inv in H as (w1 & location & Hjl & H).
  apply config_get_inv in Hjl as [-> Hjl].
  apply bind_ret_inv in H as (w1 & there & Hthere & H).
  pose proof (exists_value_inv _ _ _ _ Hthere) as ->.
  destruct there; [|discriminate H]. cbn [negb] in H.
  apply bind_ret_inv in H as (w1 & jv & Hjv & H).
  apply config_get_inv in Hjv as [-> Hjv].
  apply bind_ret_inv in H as (w1 & video & Hv & H).
  apply as_path_inv in Hv as [-> ->].
  apply bind_ret_inv in H as (w1 & [] & Hmk1 & H).
  apply os_makedirs_inv in Hmk1 as (Hd1 & Ho1 & Hf1 & Hdir1 & Hkeep1).
  apply bind_ret_inv in H as (w2 & ja & Hja & H).
  apply config_get_inv in Hja as [-> Hja].
  apply bind_ret_inv in H as (w2 & audio & Ha & H).
  apply as_path_inv in Ha as [-> ->].
  apply os_makedirs_inv in H as (Hd2 & Ho2 & Hf2 & Hdir2 & Hkeep2).
  split; [congruence|]. split; [congruence|]. split; [congruence|].
  split; [intros p x Hp; auto|].
  exists location, video, audio. repeat split; auto.
  destruct c; cbn [deref] in *; [rewrite <- Hd1; exact Hja | exact Hja].
Qed.

(** The locator leaves the world as the redirection of its probe leaves
    it. *)
Lemma find_ffmpeg_world w w1 r :
  find_ffmpeg w = (w1, r) -> w1 = redirected w.
Proof.
  rewrite find_ffmpeg_run. destruct (ffmpeg_on_path w).
  - now intros [= <- _].
  - destruct (first_location_run common_locations (redirected w)) as (r' & Hrun & _).
    rewrite Hrun. now intros [= <- _].
Qed.

Lemma config_set_run c key v w :
  exists w' c',
    config_set c key v w = (w', Ret c')
    /\ deref w' c' = <[key := v]> (deref w c)
    /\ fs w' = fs w /\ stdout w' = stdout w /\ open_fds w' = open_fds w
    /\ sep w' = sep w
    /\ (c' = DefaultsObject <-> c = DefaultsObject)
    /\ (forall d, c = Fresh d -> w' = w).
Proof.
  destruct c as [|d]; cbn.
  - eexists _, _. split; [reflexivity|]. cbn. repeat split; auto; discriminate.
  - eexists _, _. split; [reflexivity|]. cbn. repeat split; auto; discriminate.
Qed.

Lemma instructions_then_raise_run w :
  exists w',
    (print_ffmpeg_instructions >>> raise FileNotFoundError not_found_message) w
    = (w', Raise (Exn FileNotFoundError not_found_message) : result dict_ref)
    /\ defaults w' = defaults w.
Proof.
  destruct (print_all_run ffmpeg_instructions w) as (w' & Hrun & _ & _ & Hdef).
  exists w'. split; [|exact Hdef].
  unfold bind, print_ffmpeg_instructions. rewrite Hrun. reflexivity.
Qed.

(** The first half of [__init__], lines 149-156: the configuration the
    rest of the constructor works with. *)
Lemma init_locate_inv c w location w1 c1 :
  deref w c !! "ffmpeg_location" = Some location ->
  (if negb (truthy_json location)
   then
     let! ffmpeg_path := find_ffmpeg in
     match ffmpeg_path with
     | Some p =>
         if negb (String.eqb p "") then config_set c "ffmpeg_location" (JStr p)
         else print_ffmpeg_instructions >>> raise FileNotFoundError not_found_message
     | None => print_ffmpeg_instructions >>> raise FileNotFoundError not_found_message
     end
   else ret c) w = (w1, Ret c1) ->
  stdout w1 = stdout w /\ open_fds w1 = open_fds w
  /\ (c1 = DefaultsObject <-> c = DefaultsObject)
  /\ (truthy_json location = true /\ w1 = w /\ c1 = c
      \/ truthy_json location = false
         /\ fs w1 = fs (redirected w)
         /\ exists p, find_ffmpeg w = (redirected w, Ret (Some p)) /\ p <> ""
              /\ deref w1 c1 = <["ffmpeg_location" := JStr p]> (deref w c)).
Proof.
  intros Hloc. destruct (truthy_json location) eqn:Htruthy; cbn [negb].
  - intros [= <- <-]. repeat split; auto.
  - destruct (find_ffmpeg w) as [w0 r] eqn:Hfind.
    pose proof (find_ffmpeg_world _ _ _ Hfind) as ->.
    destruct (redirected_facts w) as (Hdef & Hout & _ & _ & Hfds & _).
    unfold bind at 1. rewrite Hfind. destruct r as [[p|]|ex].
    + destruct (String.eqb_spec p "") as [->|Hp]; cbn [negb].
      * destruct (instructions_then_raise_run (redirected w)) as (w' & Hrun & _).
        rewrite Hrun. discriminate.
      * destruct (config_set_run c "ffmpeg_location" (JStr p) (redirected w))
          as (w' & c' & Hrun & Hderef & Hfs & Hout' & Hfds' & _ & Hsame & _).
        rewrite Hrun. intros [= <- <-].
        split; [congruence|]. split; [congruence|]. split; [tauto|].
        right. split; [reflexivity|]. split; [exact Hfs|].
        exists p. split; [reflexivity|]. split; [exact Hp|].
        rewrite Hderef. destruct c; cbn [deref]; congruence.
    + destruct (instructions_then_raise_run (redirected w)) as (w' & Hrun & _).
      rewrite Hrun. discriminate.
    + discriminate.
Qed.
End InitFacts.

Section InitClaims.
Import Setup SetupNotions Samples.

(** A manager that was constructed has what the downloads rely on: its
    configuration holds a truthy encoder location that exists, as a path
    when it is a string and as an open file descriptor when it is a
    number, both output directories exist as directories, and the
    percentage starts at zero.  Nothing that was on disk before has been
    removed or replaced, but for the file [nul] that the probe of the
    [PATH] writes where [nul] is no device. *)
Theorem init_success_establishes_paths :
  forall c w w' m,
    init c w = (w', Ret m) ->
    last_percentage m = 0%Z
    /\ (forall p x, fs w !! p = Some x ->
                    p <> "nul" \/ Path.windows (sep w) = true ->
                    fs w' !! p = Some x)
    /\ exists location video audio,
         deref w' (config m) !! "ffmpeg_location" = Some location
         /\ truthy_json location = true
         /\ exists_value location w' = (w', Ret true)
         /\ deref w' (config m) !! "video_output" = Some (JStr video)
         /\ deref w' (config m) !! "audio_output" = Some (JStr audio)
         /\ fs w' !! video = Some Dir /\ fs w' !! audio = Some Dir.
Proof.
  intros c w w' m H. unfold init in H.
  apply bind_ret_inv in H as (w0 & location & Hget & H).
  apply config_get_inv in Hget as [-> Hloc].
  apply bind_ret_inv in H as (w1 & c1 & Hlocate & H).
  apply (init_locate_inv c w location w1 c1 Hloc) in Hlocate
    as (_ & _ & _ & Hcase).
  apply bind_ret_inv in H as (w2 & [] & Hlog & H).
  apply setup_logging_inv in Hlog as (Hd2 & _ & _ & _ & Hkeep2 & _ & Hfds2).
  apply bind_ret_inv in H as (w3 & [] & Hvp & H).
  apply verify_paths_inv in Hvp
    as (Hd3 & _ & Hfds3 & Hkeep3 & loc & video & audio
        & Hl & Hex & Hv & Ha & Hdv & Hda).
  injection H as <- <-. cbn [last_percentage config].
  assert (Hderef : deref w3 c1 = deref w2 c1).
  { destruct c1; cbn [deref]; congruence. }
  assert (Hderef2 : deref w2 c1 = deref w1 c1).
  { destruct c1; cbn [deref]; congruence. }
  split; [reflexivity|]. split.
  { intros p x Hp Hnul. apply Hkeep3, Hkeep2.
    destruct Hcase as [(_ & -> & _) | (_ & -> & _)]; [exact Hp|].
    destruct (redirected_facts w) as (_ & _ & _ & _ & _ & Hother & Hwin).
    destruct Hnul as [Hnul|Hnul];
      [rewrite Hother by exact Hnul | rewrite Hwin by exact Hnul]; exact Hp. }
  exists loc, video, audio. rewrite Hderef.
  split; [exact Hl|]. split.
  { rewrite Hderef2 in Hl.
    destruct Hcase as [(Htruthy & -> & ->) | (_ & _ & p & _ & Hp & Hd)].
    - rewrite Hloc in Hl. now injection Hl as <-.
    - rewrite Hd, lookup_insert_eq in Hl. injection Hl as <-. cbn.
      now destruct (String.eqb_spec p ""). }
  split.
  { apply (exists_value_later loc w2 w3 Hex Hkeep3). now rewrite Hfds3. }
  auto.
Qed.

Lemma init_success_establishes_paths_witness :
  exists video,
    deref (fst (init (Fresh {[ "ffmpeg_location" := JStr "C:\tools";
                               "video_output" := JStr "C:\out\v";
                               "audio_output" := JStr "C:\out\a" ]})
                  path_world))
      (Fresh {[ "ffmpeg_location" := JStr "C:\tools";
                "video_output" := JStr "C:\out\v";
                "audio_output" := JStr "C:\out\a" ]})
    !! "video_output" = Some (JStr video)
    /\ fs (fst (init (Fresh {[ "ffmpeg_location" := JStr "C:\tools";
                               "video_output" := JStr "C:\out\v";
                               "audio_output" := JStr "C:\out\a" ]})
                  path_world))
       !! video = Some Dir.
Proof.
  destruct (init_success_establishes_paths
              (Fresh {[ "ffmpeg_location" := JStr "C:\tools";
                        "video_output" := JStr "C:\out\v";
                        "audio_output" := JStr "C:\out\a" ]})
              path_world
              (fst (init (Fresh {[ "ffmpeg_location" := JStr "C:\tools";
                                   "video_output" := JStr "C:\out\v";
                                   "audio_output" := JStr "C:\out\a" ]})
                      path_world))
              {| config := Fresh {[ "ffmpeg_location" := JStr "C:\tools";
                                    "video_output" := JStr "C:\out\v";
                                    "audio_output" := JStr "C:\out\a" ]};
                 last_percentage := 0 |})
    as (_ & _ & location & video & audio & _ & _ & _ & Hv & _ & Hdv & _).
  - vm_compute. reflexivity.
  - exists video. split; assumption.
Defined.

(** A location that is a number names a file descriptor: with the
    location 1 in the configuration the manager is constructed on a
    machine that has no encoder at all, because standard output is
    open. *)
Example init_accepts_open_descriptor :
  exists w' m,
    init (Fresh {[ "ffmpeg_location" := JNum 1;
                   "video_output" := JStr "C:\out\v";
                   "audio_output" := JStr "C:\out\a" ]}) bare_world
    = (w', Ret m).
Proof. eexists _, _. vm_compute. reflexivity. Qed.

(** With the encoder on the [PATH] and no location configured, the
    constructor stores the command name [ffmpeg] as the location and
    [verify_paths] then looks for a path of that name: unless such a path
    exists in the working directory, construction fails with
    [FileNotFoundError], without printing the installation
    instructions. *)
Theorem init_fails_after_path_hit :
  forall c w location,
    deref w c !! "ffmpeg_location" = Some location ->
    truthy_json location = false ->
    ffmpeg_on_path w = true ->
    fs w !! "ffmpeg" = None ->
    fs w !! "download_log.txt" <> Some Dir ->
    exists w',
      init c w = (w', Raise (Exn FileNotFoundError "FFMPEG not found at ffmpeg"))
      /\ stdout w' = stdout w.
Proof.
  intros c w location Hloc Hfalsy Hpath Hnone Hlog.
  destruct (redirected_facts w) as (_ & Hout0 & _ & _ & _ & Hother & _).
  unfold init. unfold bind at 1. unfold config_get at 1. rewrite Hloc, Hfalsy.
  cbn [negb]. unfold bind at 1. unfold bind at 1.
  assert (Hfind : find_ffmpeg w = (redirected w, Ret (Some "ffmpeg"))).
  { rewrite find_ffmpeg_run. now rewrite Hpath. }
  rewrite Hfind. cbn [String.eqb Ascii.eqb negb].
  change (negb ("ffmpeg" =? "")%string) with true. cbv iota.
  destruct (config_set_run c "ffmpeg_location" (JStr "ffmpeg") (redirected w))
    as (w1 & c1 & Hset & Hderef & Hfs1 & Hout1 & _).
  rewrite Hset. unfold bind at 1.
  assert (Hlogrun : exists w2, setup_logging w1 = (w2, Ret tt)
            /\ fs w2 !! "ffmpeg" = None /\ stdout w2 = stdout w1
            /\ deref w2 c1 = deref w1 c1).
  { unfold setup_logging. rewrite Hfs1.
    rewrite (Hother "download_log.txt") by discriminate.
    destruct (fs w !! "download_log.txt") as [[t|]|] eqn:Hl.
    - eexists. split; [reflexivity|]. cbn. rewrite Hfs1.
      rewrite (Hother "ffmpeg") by discriminate.
      repeat split; auto; now destruct c1.
    - congruence.
    - eexists. split; [reflexivity|]. cbn.
      rewrite lookup_insert_ne by discriminate. rewrite Hfs1.
      rewrite (Hother "ffmpeg") by discriminate.
      repeat split; auto; now destruct c1. }
  destruct Hlogrun as (w2 & Hlogrun & Hnone2 & Hout2 & Hderef2).
  rewrite Hlogrun. unfold bind at 1. unfold verify_paths.
  unfold bind at 1. unfold config_get at 1.
  rewrite Hderef2, Hderef, lookup_insert_eq.
  unfold bind at 1. cbn [exists_value]. unfold os_path_exists at 1.
  rewrite Hnone2.
  rewrite bool_decide_eq_false_2 by (intros [x Hx]; discriminate Hx).
  cbn [negb rendered]. eexists. split; [reflexivity|]. congruence.
Qed.

Lemma init_fails_after_path_hit_witness :
  exists w',
    init DefaultsObject path_world
    = (w', Raise (Exn FileNotFoundError "FFMPEG not found at ffmpeg")).
Proof.
  destruct (init_fails_after_path_hit DefaultsObject path_world (JStr ""))
    as (w' & Hrun & _);
    [reflexivity | reflexivity | reflexivity | reflexivity
    | vm_compute; discriminate |].
  exists w'. exact Hrun.
Defined.

Lemma leaves_defaults_bind {A B} (c : M world A) (k : A -> M world B) :
  leaves_defaults c -> (forall a, leaves_defaults (k a)) ->
  leaves_defaults (bind c k).
Proof.
  intros Hc Hk w. unfold bind. specialize (Hc w).
  destruct (c w) as [w1 [a|ex]]; cbn [fst] in *.
  - now rewrite (Hk a w1).
  - exact Hc.
Qed.

Lemma leaves_defaults_pure {A} (c : M world A) :
  (forall w, fst (c w) = w) -> leaves_defaults c.
Proof. intros H w. now rewrite H. Qed.

Lemma leaves_defaults_print_all lines : leaves_defaults (print_all lines).
Proof.
  intros w. destruct (print_all_run lines w) as (w' & Hrun & _ & _ & Hdef).
  now rewrite Hrun.
Qed.

Lemma leaves_defaults_setup_logging : leaves_defaults setup_logging.
Proof.
  intros w. unfold setup_logging.
  destruct (fs w !! "download_log.txt") as [[t|]|]; reflexivity.
Qed.

Lemma leaves_defaults_makedirs p : leaves_defaults (os_makedirs p).
Proof.
  intros w. unfold os_makedirs. destruct (String.eqb p ""); [reflexivity|].
  destruct (fs w !! p) as [[t|]|]; reflexivity.
Qed.

Lemma leaves_defaults_config_get c key : leaves_defaults (config_get c key).
Proof.
  apply leaves_defaults_pure. intros w. unfold config_get.
  destruct (deref w c !! key); reflexivity.
Qed.

Lemma leaves_defaults_as_path j : leaves_defaults (as_path j).
Proof. apply leaves_defaults_pure. intros w. destruct j; reflexivity. Qed.

Lemma leaves_defaults_exists_value j : leaves_defaults (exists_value j).
Proof.
  apply leaves_defaults_pure. intros w.
  destruct j; cbn; try reflexivity; unfold fd_exists;
    destruct (_ <? _)%Z; try reflexivity; destruct (_ <=? _)%Z; reflexivity.
Qed.

Lemma leaves_defaults_verify_paths c : leaves_defaults (verify_paths c).
Proof.
  unfold verify_paths.
  apply leaves_defaults_bind; [apply leaves_defaults_config_get | intros location].
  apply leaves_defaults_bind; [apply leaves_defaults_exists_value | intros there].
  destruct (negb there); [now apply leaves_defaults_pure|].
  apply leaves_defaults_bind; [apply leaves_defaults_config_get | intros jv].
  apply leaves_defaults_bind; [apply leaves_defaults_as_path | intros video].
  apply leaves_defaults_bind; [apply leaves_defaults_makedirs | intros _].
  apply leaves_defaults_bind; [apply leaves_defaults_config_get | intros ja].
  apply leaves_defaults_bind; [apply leaves_defaults_as_path | intros audio].
  apply leaves_defaults_makedirs.
Qed.

Lemma leaves_defaults_find_ffmpeg : leaves_defaults find_ffmpeg.
Proof.
  intros w. destruct (find_ffmpeg w) as [w1 r] eqn:Hfind.
  apply find_ffmpeg_world in Hfind as ->. apply redirected_facts.
Qed.

Lemma leaves_defaults_finish c :
  leaves_defaults
    (setup_logging >>> verify_paths c >>>
     ret {| config := c; last_percentage := 0 |}).
Proof.
  apply leaves_defaults_bind; [apply leaves_defaults_setup_logging | intros _].
  apply leaves_defaults_bind; [apply leaves_defaults_verify_paths | intros _].
  now apply leaves_defaults_pure.
Qed.

(** The configuration is shared, not copied.  A manager built from a
    dictionary of its own never touches [DEFAULT_CONFIG].  A manager built
    from the [DEFAULT_CONFIG] object (what [load_config] returns when the
    file was missing) stores the location it finds in that object, and the
    store stays even when the construction fails afterwards. *)
Theorem init_writes_through_to_defaults :
  (forall d w, defaults (fst (init (Fresh d) w)) = defaults w)
  /\ (forall w w1 location p,
        defaults w !! "ffmpeg_location" = Some location ->
        truthy_json location = false ->
        find_ffmpeg w = (w1, Ret (Some p)) ->
        p <> "" ->
        defaults (fst (init DefaultsObject w))
        = <["ffmpeg_location" := JStr p]> (defaults w)).
Proof.
  split.
  - intros d. change (leaves_defaults (init (Fresh d))). unfold init.
    apply leaves_defaults_bind; [apply leaves_defaults_config_get | intros location].
    apply leaves_defaults_bind; [|intros c; apply leaves_defaults_finish].
    destruct (negb (truthy_json location)); [|now apply leaves_defaults_pure].
    apply leaves_defaults_bind; [apply leaves_defaults_find_ffmpeg | intros [p|]].
    + destruct (negb (String.eqb p "")); [now apply leaves_defaults_pure|].
      apply leaves_defaults_bind; [apply leaves_defaults_print_all | intros _].
      now apply leaves_defaults_pure.
    + apply leaves_defaults_bind; [apply leaves_defaults_print_all | intros _].
      now apply leaves_defaults_pure.
  - intros w w1 location p Hloc Hfalsy Hfind Hp.
    pose proof (find_ffmpeg_world _ _ _ Hfind) as ->.
    destruct (redirected_facts w) as (Hdef & _).
    unfold init. unfold bind at 1. unfold config_get at 1. cbn [deref].
    rewrite Hloc, Hfalsy. cbn [negb]. unfold bind at 1. unfold bind at 1.
    rewrite Hfind. destruct (String.eqb_spec p "") as [->|_]; [now destruct Hp|].
    cbn [negb config_set]. unfold bind at 1. unfold modify at 1. unfold ret at 1.
    rewrite (leaves_defaults_finish DefaultsObject). cbn [defaults with_defaults].
    now rewrite Hdef.
Qed.

Lemma init_writes_through_to_defaults_witness :
  defaults (fst (init DefaultsObject
                   (with_fs (insert "C:\ffmpeg\bin\ffmpeg.exe" (File Unparsable))
                      bare_world)))
  !! "ffmpeg_location" = Some (JStr "C:\ffmpeg\bin").
Proof.
  destruct init_writes_through_to_defaults as [_ H].
  rewrite (H (with_fs (insert "C:\ffmpeg\bin\ffmpeg.exe" (File Unparsable))
                bare_world)
             (with_fs (insert "C:\ffmpeg\bin\ffmpeg.exe" (File Unparsable))
                bare_world)
             (JStr "") "C:\ffmpeg\bin");
    [apply lookup_insert_eq | reflexivity | reflexivity | reflexivity | discriminate].
Defined.
End InitClaims.

(** ** More on single downloads and their options *)

Section DownloadMore.
Import Batch Samples.

(** A download reports success exactly when nothing was raised before the
    extraction, the extraction found information, the retrieval did not
    raise and neither did leaving the [with] block; it never raises
    itself.  A missing information record counts as failure. *)
Theorem download_True_iff_library_succeeds :
  forall library cfg url k w,
    snd (download library cfg url k w)
    = Ret (match before (library (get_download_options cfg url k) url),
                 extract (library (get_download_options cfg url k) url),
                 fetch (library (get_download_options cfg url k) url),
                 close (library (get_download_options cfg url k) url) with
           | None, Info _ _, Fetched, None => true
           | _, _, _, _ => false
           end).
Proof.
  intros library cfg url k w.
  unfold download, try_except, bind, print, reset_progress, logging_error, modify, ret.
  generalize (library (get_download_options cfg url k) url). intros b.
  destruct b as [[ex|] ext fet cl]; cbn [before extract fetch close].
  - destruct (audio_only k); reflexivity.
  - unfold download_inner, try_except, bind, print, modify, ret, raise, reraise.
    cbn [extract fetch].
    destruct ext as [title fmt| |ex]; destruct fet as [|ex'];
      destruct cl as [ex''|];
      destruct (audio_only k); cbn;
      try destruct (is_DownloadError (exn_kind ex));
      try destruct (is_DownloadError (exn_kind ex'));
      reflexivity.
Qed.

(** Where the reason of a failure goes: an error raised by the extraction
    or the retrieval is printed on the console and the log is left alone;
    an error raised before the extraction, or when the [with] block is
    left, is written to the log as one line that names the URL. *)
Theorem download_logs_only_early_errors :
  forall library cfg url k w,
    log (fst (download library cfg url k w))
    = match before (library (get_download_options cfg url k) url),
            close (library (get_download_options cfg url k) url) with
      | Some ex, _ | None, Some ex =>
          (log w ++ ["Error downloading " +:+ url +:+ ": " +:+ str ex])%list
      | None, None => log w
      end.
Proof.
  intros library cfg url k w.
  unfold download, try_except, bind, print, reset_progress, logging_error, modify, ret.
  generalize (library (get_download_options cfg url k) url). intros b.
  destruct b as [[ex|] ext fet cl]; cbn [before extract fetch close].
  - destruct (audio_only k); destruct cl; reflexivity.
  - unfold download_inner, try_except, bind, print, modify, ret, raise, reraise.
    cbn [extract fetch].
    destruct ext as [title fmt| |ex]; destruct fet as [|ex'];
      destruct cl as [ex''|];
      destruct (audio_only k); cbn;
      try destruct (is_DownloadError (exn_kind ex));
      try destruct (is_DownloadError (exn_kind ex'));
      reflexivity.
Qed.

(** For a URL that contains [tiktok.com] the selector is always [best],
    with the cookie file and without post-processors: the resolution, the
    format identifier and the audio format of the request have no effect
    on the options. *)
Theorem get_download_options_tiktok_ignores_format_choices :
  forall cfg url k k',
    Str.contains "tiktok.com" url = true ->
    audio_only k = audio_only k' ->
    filename k = filename k' ->
    get_download_options cfg url k = get_download_options cfg url k'
    /\ format (get_download_options cfg url k) = "best"
    /\ cookiefile (get_download_options cfg url k) = Some "cookies.txt"
    /\ postprocessors (get_download_options cfg url k) = [].
Proof.
  intros cfg url k k' Htik Haudio Hname.
  unfold get_download_options. rewrite Htik, Haudio, Hname. auto.
Qed.

Lemma get_download_options_tiktok_ignores_format_choices_witness :
  format (get_download_options batch_settings "https://www.tiktok.com/@u/video/1"
            {| audio_only := true; resolution := Some "720";
               format_id := Some "137+140"; filename := None;
               audio_format := "flac" |})
  = "best".
Proof.
  destruct (get_download_options_tiktok_ignores_format_choices batch_settings
              "https://www.tiktok.com/@u/video/1"
              {| audio_only := true; resolution := Some "720";
                 format_id := Some "137+140"; filename := None;
                 audio_format := "flac" |}
              {| audio_only := true; resolution := None;
                 format_id := None; filename := None;
                 audio_format := "mp3" |})
    as (_ & Hfmt & _); [reflexivity | reflexivity | reflexivity | exact Hfmt].
Defined.

(** For every other URL: a format identifier, when given and not empty,
    is the selector whatever else was asked; post-processors are attached
    exactly for audio-only requests, and the first one extracts audio in
    the requested audio format; an empty file name counts as none. *)
Theorem get_download_options_other_sites :
  forall cfg url k,
    Str.contains "tiktok.com" url = false ->
    (forall id, format_id k = Some id -> id <> "" ->
                format (get_download_options cfg url k) = id)
    /\ (audio_only k = false -> postprocessors (get_download_options cfg url k) = [])
    /\ (audio_only k = true ->
        exists quality rest,
          postprocessors (get_download_options cfg url k)
          = {| key := "FFmpegExtractAudio";
               preferredcodec := Some (audio_format k);
               preferredquality := Some quality |} :: rest
          /\ (quality = "320" <-> audio_format k = "mp3"))
    /\ (filename k = Some "" ->
        outtmpl (get_download_options cfg url k)
        = outtmpl (get_download_options cfg url
                     {| audio_only := audio_only k; resolution := resolution k;
                        format_id := format_id k; filename := None;
                        audio_format := audio_format k |})).
Proof.
  intros cfg url k Htik. unfold get_download_options. rewrite Htik.
  cbn [format postprocessors outtmpl audio_only filename].
  repeat split.
  - intros id Hid Hne. unfold given, or_else. rewrite Hid.
    destruct (String.eqb_spec id ""); [contradiction | reflexivity].
  - intros ->. reflexivity.
  - intros ->. destruct (String.eqb_spec (audio_format k) "flac") as [Hflac|Hflac].
    + eexists _, _. rewrite Hflac. split; [reflexivity|].
      split; intros H; discriminate H.
    + destruct (String.eqb_spec (audio_format k) "mp3") as [Hmp3|Hmp3].
      * eexists _, _. split; [reflexivity | tauto].
      * eexists _, _. split; [reflexivity|].
        split; [discriminate | contradiction].
  - intros ->. reflexivity.
Qed.

Lemma get_download_options_other_sites_witness :
  format (get_download_options batch_settings "https://example.org/v"
            {| audio_only := true; resolution := Some "720";
               format_id := Some "137+140"; filename := None;
               audio_format := "flac" |})
  = "137+140".
Proof.
  destruct (get_download_options_other_sites batch_settings "https://example.org/v"
              {| audio_only := true; resolution := Some "720";
                 format_id := Some "137+140"; filename := None;
                 audio_format := "flac" |})
    as (Hid & _); [reflexivity|].
  apply Hid; [reflexivity | discriminate].
Defined.

End DownloadMore.

(** ** The hooks *)

Section HookFacts.
Import Hooks.

Lemma percentage_of_at_most_100 downloaded total p :
  percentage_of downloaded total = Ret p -> (p <= 100)%Z.
Proof.
  unfold percentage_of.
  destruct (quotient downloaded total) as [share|]; [|discriminate].
  cbn [and_then].
  destruct (Double.to_int (Double.mul share Double.hundred)); [|discriminate].
  cbn [and_then]. intros [= <-]. apply Z.le_min_r.
Qed.

Lemma in_step_fresh out : in_step (fresh out).
Proof. unfold in_step, fresh. cbn. split; [lia | reflexivity]. Qed.

(** One call of the progress hook keeps bar and percentage in step,
    whether it returns or raises. *)
Lemma progress_hook_in_step now d s :
  in_step s -> in_step (fst (progress_hook now d s)).
Proof.
  intros [Hrange Hbar]. unfold progress_hook.
  destruct (String.eqb (status d) "downloading").
  - unfold bind at 1. unfold modify at 1.
    set (s1 := match pbar s with
               | Some _ => s
               | None => {| pbar := Some (new_bar 100 "Downloading");
                            last_percentage := last_percentage s;
                            stdout := stdout s |}
               end).
    assert (H1 : in_step s1).
    { subst s1. destruct (pbar s) eqn:Hp.
      - split; [exact Hrange|]. now rewrite Hp.
      - split; [exact Hrange|]. cbn. auto. }
    assert (Hsome : is_Some (pbar s1)).
    { subst s1. destruct (pbar s) eqn:Hp; [rewrite Hp|]; eauto. }
    clearbody s1. unfold bind, lift.
    destruct (positive (event_total d)) as [[|]|]; try exact H1.
    destruct (event_total d) as [total|]; [|exact H1].
    destruct (percentage_of (event_downloaded d) total) as [p|] eqn:Hp;
      [|exact H1].
    pose proof (percentage_of_at_most_100 _ _ _ Hp) as Hp100.
    unfold modify. cbn [fst].
    destruct (Z.gtb_spec p (last_percentage s1)) as [Hgt|Hle]; [|exact H1].
    destruct H1 as [Hr1 Hb1]. split; cbn.
    + lia.
    + destruct Hsome as [b Hb]. rewrite Hb in *. cbn.
      destruct Hb1 as [Hpos Htot]. split; [lia | exact Htot].
  - destruct (String.eqb (status d) "finished").
    + unfold modify, in_step. cbn [fst last_percentage pbar].
      split; [lia | reflexivity].
    + exact (conj Hrange Hbar).
Qed.

Lemma progress_hook_not_finished_grows now d s :
  String.eqb (status d) "finished" = false ->
  (last_percentage s <= last_percentage (fst (progress_hook now d s)))%Z.
Proof.
  intros Hfin. unfold progress_hook.
  destruct (String.eqb (status d) "downloading").
  - unfold bind at 1. unfold modify at 1.
    set (s1 := match pbar s with
               | Some _ => s
               | None => {| pbar := Some (new_bar 100 "Downloading");
                            last_percentage := last_percentage s;
                            stdout := stdout s |}
               end).
    assert (H1 : last_percentage s1 = last_percentage s).
    { subst s1. now destruct (pbar s). }
    clearbody s1. rewrite <- H1. unfold bind, lift.
    destruct (positive (event_total d)) as [[|]|]; try reflexivity.
    destruct (event_total d) as [total|]; [|reflexivity].
    destruct (percentage_of (event_downloaded d) total) as [p|]; [|reflexivity].
    unfold modify. cbn [fst].
    destruct (Z.gtb_spec p (last_percentage s1)) as [Hgt|Hle]; cbn; lia.
  - rewrite Hfin. reflexivity.
Qed.
End HookFacts.

Section HookClaims.
Import Hooks.

(** The download bar and [last_percentage] never drift apart: after any
    series of progress events on a manager that [download] has reset, the
    bar (total 100) stands exactly at [last_percentage], which lies
    between 0 and 100; between two [finished] events the percentage never
    decreases; and a [finished] event removes the bar and puts the
    percentage back to zero.  This holds also when an event makes the hook
    raise. *)
Theorem progress_hook_bar_in_step :
  (forall calls out, in_step (after_events calls (fresh out)))
  /\ (forall now d s,
        status d <> "finished" ->
        (last_percentage s <= last_percentage (fst (progress_hook now d s)))%Z)
  /\ (forall now d s,
        status d = "finished" ->
        pbar (fst (progress_hook now d s)) = None
        /\ last_percentage (fst (progress_hook now d s)) = 0%Z).
Proof.
  split; [|split].
  - intros calls out. unfold after_events.
    assert (H : forall s, in_step s ->
                in_step (foldl (fun s c => fst (progress_hook (fst c) (snd c) s))
                           s calls)).
    { induction calls as [|c calls IH]; intros s Hs; [exact Hs|].
      cbn [foldl]. apply IH. now apply progress_hook_in_step. }
    apply H, in_step_fresh.
  - intros now d s Hfin. apply progress_hook_not_finished_grows.
    now apply String.eqb_neq.
  - intros now d s Hfin. unfold progress_hook. rewrite Hfin. cbn. auto.
Qed.

Lemma progress_hook_bar_in_step_witness :
  (last_percentage (fresh [])
   <= last_percentage
        (fst (progress_hook (Double.of_Z 1)
                {| status := "downloading"; total_bytes := Num (PyInt 200);
                   total_bytes_estimate := Absent; downloaded_bytes := Num (PyInt 50) |}
                (fresh []))))%Z
  /\ pbar (fst (progress_hook (Double.of_Z 2)
                  {| status := "finished"; total_bytes := Absent;
                     total_bytes_estimate := Absent; downloaded_bytes := Absent |}
                  (fresh [])))
     = None.
Proof.
  pose proof progress_hook_bar_in_step as (_ & Hgrow & Hfin).
  split.
  - apply Hgrow. discriminate.
  - apply Hfin. reflexivity.
Defined.

Example progress_hook_quarter :
  last_percentage
    (fst (progress_hook (Double.of_Z 1)
            {| status := "downloading"; total_bytes := Num (PyInt 200);
               total_bytes_estimate := Absent; downloaded_bytes := Num (PyInt 50) |}
            (fresh [])))
  = 25%Z.
Proof. vm_compute. reflexivity. Qed.

End HookClaims.

Section PostHookClaims.
Import Flac Hooks Samples.

(** The post-processing hook never announces a successful FLAC
    conversion: for a finished event whose file name ends in [.flac] it
    prints the failure line, for every file; a finished event with any
    other name (an upper-case [.FLAC] too) prints nothing and inspects
    nothing. *)
Theorem post_process_hook_always_reports_failure :
  (forall e d w,
      post_status d = "finished" ->
      Str.endswith ".flac" (default "" (filename d)) = true ->
      exists w',
        post_process_hook e d w = (w', Ret tt)
        /\ Flac.stdout w'
           = (Flac.stdout w
              ++ ["FLAC verification failed: "
                  +:+ basename (sep e) (default "" (filename d))])%list)
  /\ (forall e d w,
        post_status d = "finished" ->
        Str.endswith ".flac" (default "" (filename d)) = false ->
        post_process_hook e d w = (w, Ret tt)).
Proof.
  split.
  - intros e d w Hst Hname. unfold post_process_hook. rewrite Hst, Hname.
    destruct (String.eqb_spec "finished" "started") as [Habs|_];
      [discriminate Habs|].
    destruct (String.eqb_spec "finished" "finished") as [_|Habs];
      [|now destruct Habs].
    destruct (verify_audio_file_run (default "" (filename d)) w)
      as (w1 & v & Hrun & Hv & _ & Hout & _).
    unfold bind. rewrite Hrun.
    destruct Hv as [-> | ->]; cbn [truthy]; unfold print, modify;
      eexists; (split; [reflexivity|]); cbn; now rewrite Hout.
  - intros e d w Hst Hname. unfold post_process_hook. rewrite Hst, Hname.
    reflexivity.
Qed.

Lemma post_process_hook_always_reports_failure_witness :
  exists w',
    post_process_hook (quiet_env (LaunchFails ""))
      {| post_status := "finished"; filename := Some "C:/Music/song.flac";
         title := None |}
      (world_of {[ "C:/Music/song.flac" := File good_flac ]})
    = (w', Ret tt)
    /\ Flac.stdout w' = ["FLAC verification failed: song.flac"].
Proof.
  destruct post_process_hook_always_reports_failure as [Hfail _].
  destruct (Hfail (quiet_env (LaunchFails ""))
              {| post_status := "finished"; filename := Some "C:/Music/song.flac";
                 title := None |}
              (world_of {[ "C:/Music/song.flac" := File good_flac ]}))
    as (w' & Hrun & Hout); [reflexivity | reflexivity |].
  exists w'. split; [exact Hrun | exact Hout].
Defined.

End PostHookClaims.

Section BarClaims.
Import Hooks.

(** The colour index of a bar always names one of its four colours, so
    the lookup [self.colors[self.current_color_idx]] cannot fail, and the
    bar stands at the sum of the amounts it was updated by, whatever the
    clock reads at each update. *)
Theorem bar_update_keeps_colour_in_range :
  forall (updates : list (Double.float * Z)) total desc,
    let b := foldl (fun b u => bar_update (fst u) (snd u) b)
               (new_bar total desc) updates in
    (current_color_idx b < length colors)%nat
    /\ position b = foldr Z.add 0%Z (snd <$> updates).
Proof.
  intros updates total desc.
  cbv zeta.
  assert (H : forall b0,
            (current_color_idx b0 < length colors)%nat ->
            (current_color_idx
               (foldl (fun b u => bar_update (fst u) (snd u) b) b0 updates)
             < length colors)%nat
            /\ position (foldl (fun b u => bar_update (fst u) (snd u) b) b0 updates)
               = (position b0 + foldr Z.add 0 (snd <$> updates))%Z).
  { induction updates as [|[t n] rest IH]; intros b0 Hb0;
      cbn [foldl fmap list_fmap foldr fst snd].
    - split; [exact Hb0 | lia].
    - destruct (IH (bar_update t n b0)) as [Hidx Hpos].
      + unfold bar_update. cbn [current_color_idx].
        destruct (Double.gtb _ _); [|exact Hb0].
        apply Nat.mod_upper_bound. discriminate.
      + split; [exact Hidx|]. rewrite Hpos. unfold bar_update. cbn. lia. }
  destruct (H (new_bar total desc)) as [Hidx Hpos]; [cbn; lia|].
  split; [exact Hidx|]. rewrite Hpos. cbn. lia.
Qed.

End BarClaims.

(** ** The interactive prompt *)

Section PromptFacts.
Import Batch Interactive.

Lemma existsb_eqb_elem_of (x : string) (l : list string) :
  existsb (String.eqb x) l = true <-> x ∈ l.
Proof.
  rewrite existsb_exists, list_elem_of_In. split.
  - intros (y & Hy & Heq). apply String.eqb_eq in Heq. now subst.
  - intros H. exists x. split; [exact H | apply String.eqb_refl].
Qed.

Lemma existsb_eqb_not_elem_of (x : string) (l : list string) :
  x ∉ l -> existsb (String.eqb x) l = false.
Proof.
  intros H. destruct (existsb (String.eqb x) l) eqn:E; [|reflexivity].
  apply existsb_eqb_elem_of in E. contradiction.
Qed.

Lemma index_of_first (x : string) (pre post : list string) :
  x ∉ pre -> index_of x (pre ++ x :: post) = Some (length pre).
Proof.
  induction pre as [|a pre IH]; intros Hnot; cbn.
  - now rewrite String.eqb_refl.
  - apply not_elem_of_cons in Hnot as [Hne Hnot].
    destruct (String.eqb_spec a x) as [->|_]; [contradiction|].
    now rewrite IH.
Qed.

Lemma value_after_found flag pre v post :
  flag ∉ pre -> value_after flag (pre ++ flag :: v :: post) = Some v.
Proof.
  intros Hnot. unfold value_after.
  replace (existsb (String.eqb flag) (pre ++ flag :: v :: post)) with true.
  2:{ symmetry. apply existsb_eqb_elem_of, elem_of_app. right. left. }
  rewrite index_of_first by assumption.
  rewrite lookup_app_r by lia.
  replace (length pre + 1 - length pre)%nat with 1%nat by lia. reflexivity.
Qed.

Lemma value_after_last flag pre :
  flag ∉ pre -> value_after flag (pre ++ [flag]) = None.
Proof.
  intros Hnot. unfold value_after.
  replace (existsb (String.eqb flag) (pre ++ [flag])) with true.
  2:{ symmetry. apply existsb_eqb_elem_of, elem_of_app. right. left. }
  rewrite index_of_first by assumption.
  apply lookup_ge_None. rewrite length_app. cbn. lia.
Qed.

Lemma value_after_absent flag args :
  flag ∉ args -> value_after flag args = None.
Proof.
  intros Hnot. unfold value_after. now rewrite existsb_eqb_not_elem_of.
Qed.

(** White space and the tokens of a line. *)

Lemma lstrip_head s c r : Str.lstrip s = String c r -> Str.is_space c = false.
Proof.
  induction s as [|a s IH]; cbn; [discriminate|].
  destruct (Str.is_space a) eqn:Ha; [exact IH|].
  intros [= <- _]. exact Ha.
Qed.

Lemma words_nil_all_space s :
  words s = [] -> forall c, In c (list_ascii_of_string s) -> Str.is_space c = true.
Proof.
  induction s as [|a s IH]; cbn [words list_ascii_of_string].
  - intros _ c [].
  - destruct (Str.is_space a) eqn:Ha.
    + intros Hw c [<- | Hc]; [exact Ha | now apply IH].
    + destruct s as [|b s']; [discriminate|].
      destruct (Str.is_space b); [discriminate|].
      destruct (words (String b s')); discriminate.
Qed.

Lemma rev_string_chars u :
  list_ascii_of_string (Str.rev_string u) = rev (list_ascii_of_string u).
Proof. unfold Str.rev_string. apply list_ascii_of_string_of_list_ascii. Qed.

(** A line that is not empty after [strip] has a first token. *)
Lemma words_strip_not_nil raw :
  Str.strip raw <> "" -> words (Str.strip raw) <> [].
Proof.
  unfold Str.strip. intros Hne Hnil.
  set (u := Str.lstrip (Str.rev_string (Str.lstrip raw))) in *.
  destruct u as [|c r] eqn:Hu; [now apply Hne|].
  pose proof (lstrip_head _ _ _ Hu) as Hc.
  pose proof (words_nil_all_space _ Hnil c) as Hall.
  rewrite rev_string_chars in Hall.
  rewrite Hall in Hc; [discriminate|].
  apply in_rev. rewrite rev_involutive. now left.
Qed.



End PromptFacts.

Section PromptClaims.
Import Batch Interactive Samples PromptSamples.

(** How a line is read.  [--audio-only] is set exactly when that token
    occurs.  The resolution is the token that follows the first
    [--resolution], whatever that token is; it stays unset when
    [--resolution] is the last token or does not occur.  The audio format
    is read in the same way and is [mp3] otherwise. *)
Theorem parse_options_reads_flags :
  forall args,
    (audio_only (parse_options args) = true <-> "--audio-only" ∈ args)
    /\ (forall pre v post,
          args = (pre ++ "--resolution" :: v :: post)%list -> "--resolution" ∉ pre ->
          resolution (parse_options args) = Some v)
    /\ (forall pre,
          args = (pre ++ ["--resolution"])%list -> "--resolution" ∉ pre ->
          resolution (parse_options args) = None)
    /\ ("--resolution" ∉ args -> resolution (parse_options args) = None)
    /\ (forall pre v post,
          args = (pre ++ "--audio-format" :: v :: post)%list -> "--audio-format" ∉ pre ->
          audio_format (parse_options args) = v)
    /\ (("--audio-format" ∉ args
         \/ exists pre, args = (pre ++ ["--audio-format"])%list /\ "--audio-format" ∉ pre) ->
        audio_format (parse_options args) = "mp3").
Proof.
  intros args. unfold parse_options. cbn [audio_only resolution audio_format].
  split; [apply existsb_eqb_elem_of|].
  split; [intros pre v post -> Hnot; now apply value_after_found|].
  split; [intros pre -> Hnot; now apply value_after_last|].
  split; [apply value_after_absent|].
  split; [intros pre v post -> Hnot; now rewrite value_after_found|].
  intros [Hnot | (pre & -> & Hnot)].
  - now rewrite value_after_absent.
  - now rewrite value_after_last.
Qed.

Lemma parse_options_reads_flags_witness :
  resolution (parse_options ["https://x"; "--resolution"; "--audio-only"])
  = Some "--audio-only"
  /\ audio_only (parse_options ["https://x"; "--resolution"; "--audio-only"]) = true
  /\ audio_format (parse_options ["https://x"; "--audio-format"]) = "mp3".
Proof.
  split; [|split].
  - destruct (parse_options_reads_flags
                ["https://x"; "--resolution"; "--audio-only"]) as (_ & H & _).
    apply (H ["https://x"] "--audio-only" []); [reflexivity|].
    intros Hin. apply list_elem_of_singleton in Hin. discriminate Hin.
  - destruct (parse_options_reads_flags
                ["https://x"; "--resolution"; "--audio-only"]) as (H & _).
    apply H. do 2 right. left.
  - destruct (parse_options_reads_flags ["https://x"; "--audio-format"])
      as (_ & _ & _ & _ & _ & H).
    apply H. right. exists ["https://x"]. split; [reflexivity|].
    intros Hin. apply list_elem_of_singleton in Hin. discriminate Hin.
Defined.

(** Every line that is not empty after [strip] has a first token, and
    that token is the URL of the request, even if it looks like a flag:
    the subscript [args[0]] cannot fail, and since a download never
    raises, the error branch of the loop is never taken for a typed
    line. *)
Theorem interactive_request_uses_first_token :
  forall raw,
    Str.strip raw <> "" ->
    exists url rest,
      words (Str.strip raw) = url :: rest
      /\ forall library cfg w,
           try_except (handle_request library cfg (Str.strip raw))
             (fun ex => print ("Error: " +:+ str ex) >>>
                        print "Type --help to see available options") w
           = (download library cfg url (parse_options (url :: rest)) >>> ret tt) w.
Proof.
  intros raw Hne. pose proof (words_strip_not_nil raw Hne) as Hw.
  destruct (words (Str.strip raw)) as [|url rest] eqn:Hwords; [contradiction|].
  exists url, rest. split; [reflexivity|]. intros library cfg w.
  unfold try_except, handle_request. rewrite Hwords.
  destruct (download_returns cfg (parse_options (url :: rest)) library url) as [b Hb].
  destruct (Hb w) as [w1 Hrun]. unfold bind. now rewrite Hrun.
Qed.

Lemma interactive_request_uses_first_token_witness :
  exists url rest, words (Str.strip "  --audio-only https://x ") = url :: rest
                   /\ url = "--audio-only".
Proof.
  destruct (interactive_request_uses_first_token "  --audio-only https://x ")
    as (url & rest & Hwords & _); [discriminate|].
  exists url, rest. split; [exact Hwords|].
  vm_compute in Hwords. now injection Hwords as <- _.
Defined.



(** A keyboard interrupt at the prompt ends the loop at once. *)
Example interactive_loop_interrupted :
  snd (interactive_loop always_fine batch_settings 0
         [EndOfInput; CtrlC; Typed "https://y"] idle)
  = Ret Exited.
Proof. reflexivity. Qed.

End PromptClaims.

(** ** The exit code of a run *)

Section DispatchFacts.
Import Batch Dispatch.

(** What a batch returns, for use below. *)
Lemma batch_download_run library cfg urls k finished w :
  (0 < max_concurrent cfg)%Z ->
  finished ≡ₚ seq 0 (length urls) ->
  exists w' results,
    batch_download library cfg urls k finished w = (w', Some (Ret results))
    /\ length results = length urls
    /\ forall i url,
         urls !! i = Some url ->
         exists b,
           results !! i = Some b
           /\ forall w0, exists w1,
                download (library i) cfg url k w0 = (w1, Ret b).
Proof.
  intros Hwidth Hperm.
  destruct (run_pool_futures library cfg k urls finished w)
    as (w' & futures & Hrun & Hfut).
  assert (Hdone : forall i, (i < length urls)%nat ->
            exists url b, urls !! i = Some url
              /\ futures !! i = Some (Ret b)
              /\ forall w0, exists w1,
                   download (library i) cfg url k w0 = (w1, Ret b)).
  { intros i Hi. apply (Hfut i); [|exact Hi].
    rewrite Hperm. apply list_elem_of_In, in_seq. lia. }
  destruct (collect_all futures (seq 0 (length urls))) as (bs & Hcol & Hlen & Hnth).
  { intros i Hi. apply list_elem_of_In, in_seq in Hi.
    destruct (Hdone i) as (url & b & _ & Hb & _); [lia | eauto]. }
  exists w', bs. unfold batch_download.
  destruct (Z.leb_spec (max_concurrent cfg) 0) as [Hle|_]; [lia|].
  rewrite Hrun, Hcol. split; [reflexivity|].
  split; [now rewrite Hlen, length_seq|].
  intros i url Hurl.
  assert (Hlt : (i < length urls)%nat) by now apply lookup_lt_Some with url.
  destruct (Hnth i i) as (b & Hb & Hfi); [now apply lookup_seq_lt|].
  exists b. split; [exact Hb|].
  destruct (Hdone i Hlt) as (url' & b' & Hurl' & Hb' & Hdl).
  assert (url' = url) as -> by congruence.
  assert (b' = b) as -> by congruence.
  exact Hdl.
Qed.

Lemma forallb_id_lookup (l : list bool) :
  forallb (fun b => b) l = true <-> forall i b, l !! i = Some b -> b = true.
Proof.
  rewrite forallb_forall. split.
  - intros H i b Hi. apply H, list_elem_of_In, list_elem_of_lookup. eauto.
  - intros H b Hb. apply list_elem_of_In, list_elem_of_lookup in Hb as [i Hi]. eauto.
Qed.
End DispatchFacts.

Section DispatchClaims.
Import Batch Dispatch Samples PromptSamples.

(** The run ends with exit code 0 or 1, and with 0 exactly when the
    download of every URL returned [True]; with no URL at all the code is
    0.  A single URL is downloaded directly with the given file name;
    several URLs go through the pool, all with the same request, in which
    the file name is left out. *)
Theorem run_downloads_exit_code :
  forall library cfg a finished w,
    (0 < max_concurrent cfg)%Z ->
    finished ≡ₚ seq 0 (length (all_urls a)) ->
    exists w' code,
      run_downloads library cfg a finished w = (w', Some (Ret code))
      /\ (code = 0%Z \/ code = 1%Z)
      /\ (code = 0%Z <->
          forall i url,
            all_urls a !! i = Some url ->
            forall w0,
              snd (download (library i) cfg url (request_used a) w0) = Ret true)
      /\ (forall u v rest, all_urls a = u :: v :: rest ->
                           filename (request_used a) = None).
Proof.
  intros library cfg a finished w Hwidth Hperm.
  unfold run_downloads, request_used.
  destruct (all_urls a) as [|u [|v rest]] eqn:Hurls.
  - destruct (batch_download_run library cfg [] (batch_request a) finished w
                Hwidth Hperm) as (w' & results & Hrun & Hlen & _).
    rewrite Hrun. destruct results; [|discriminate Hlen].
    exists w', 0%Z. split; [reflexivity|]. split; [now left|]. split.
    + split; [|reflexivity]. intros _ i url Hi. discriminate Hi.
    + intros x y r Habs. discriminate Habs.
  - destruct (download_returns cfg (single_request a) (library 0%nat) u) as [b Hb].
    destruct (Hb w) as [w' Hrun]. rewrite Hrun.
    exists w', (exit_code b). split; [reflexivity|].
    split; [destruct b; auto|]. split.
    + split.
      * intros Hcode [|i] url Hi w0; [|discriminate Hi].
        injection Hi as <-. destruct (Hb w0) as [w1 H1]. rewrite H1.
        destruct b; [reflexivity | discriminate Hcode].
      * intros Hall. specialize (Hall 0%nat u eq_refl w). rewrite Hrun in Hall.
        cbn in Hall. injection Hall as ->. reflexivity.
    + intros x y r Habs. discriminate Habs.
  - destruct (batch_download_run library cfg (u :: v :: rest) (batch_request a)
                finished w Hwidth Hperm) as (w' & results & Hrun & Hlen & Hnth).
    rewrite Hrun.
    exists w', (exit_code (forallb (fun b => b) results)). split; [reflexivity|].
    split; [destruct (forallb _ results); auto|]. split; [|reflexivity].
    split.
    + intros Hcode i url Hi w0.
      destruct (Hnth i url Hi) as (b & Hb & Hdl).
      destruct (Hdl w0) as [w1 H1]. rewrite H1. cbn.
      destruct (forallb (fun b => b) results) eqn:Hall; [|discriminate Hcode].
      now rewrite (proj1 (forallb_id_lookup results) Hall i b Hb).
    + intros Hall.
      replace (forallb (fun b => b) results) with true; [reflexivity|].
      symmetry. apply forallb_id_lookup. intros i b Hi.
      assert (Hlt : (i < length (u :: v :: rest))%nat).
      { rewrite <- Hlen. now apply lookup_lt_Some with b. }
      destruct (lookup_lt_is_Some_2 _ _ Hlt) as [url Hurl].
      destruct (Hnth i url Hurl) as (b' & Hb' & Hdl).
      assert (b' = b) as -> by congruence.
      specialize (Hall i url Hurl w). destruct (Hdl w) as [w1 H1].
      rewrite H1 in Hall. cbn in Hall. now injection Hall.
Qed.

Lemma run_downloads_exit_code_witness :
  exists w',
    run_downloads flaky_library batch_settings
      {| arg_url := None; arg_urls := ["a"; "b"; "c"]; arg_audio_only := false;
         arg_resolution := None; arg_format_id := None;
         arg_filename := Some "clip"; arg_audio_format := "mp3" |}
      [2; 0; 1]%nat idle
    = (w', Some (Ret 1%Z)).
Proof.
  destruct (run_downloads_exit_code flaky_library batch_settings
              {| arg_url := None; arg_urls := ["a"; "b"; "c"];
                 arg_audio_only := false; arg_resolution := None;
                 arg_format_id := None; arg_filename := Some "clip";
                 arg_audio_format := "mp3" |}
              [2; 0; 1]%nat idle)
    as (w' & code & Hrun & _).
  - reflexivity.
  - exact (Permutation_cons_append [0; 1]%nat 2%nat).
  - exists w'. rewrite Hrun. vm_compute in Hrun. injection Hrun as _ <-.
    reflexivity.
Defined.

End DispatchClaims.
